(** * Navigator AI browser extension: the monitoring / iteration control plane

    A shallow embedding of the background coordinator of the extension
    (the loop-based coordinator and its interval-based predecessor), of the
    page-side completion check, and of the URL predicate they share,
    together with the properties of the iteration state machine. *)

From Stdlib Require Import ZArith Bool PrimFloat.
From stdpp Require Import gmap strings list fin_maps pretty.

Set Warnings "-register-all".
Local Open Scope string_scope.
Local Open Scope list_scope.
Local Open Scope Z_scope.

(** ** JavaScript values held by [chrome.storage.local]

    The durable store keeps JSON-serialisable records under string keys and
    the code reads them untyped ([result.taskState || {}],
    [storageData.activeSession?.status]).  An absent key or property reads
    as [undefined], which is [None] here.  A string is the sequence of its
    UTF-16 code units; [JStr] carries the strings whose units are all below
    256, one character per unit, so that the length and the indices of a
    string are those the code sees. *)

Inductive JSON : Type :=
| JNull
| JBool (b : bool)
| JNum (n : Z)
| JStr (s : string)
| JArr (l : list JSON)
| JObj (fields : list (string * JSON)).

(** Property lookup on an object literal: the first binding of the key. *)
Fixpoint obj_get (k : string) (fs : list (string * JSON)) : option JSON :=
  match fs with
  | [] => None
  | (k', v) :: r => if String.eqb k k' then Some v else obj_get k r
  end.

(** [{...fs, k: v}]: the key keeps its place when present, else is appended. *)
Fixpoint obj_set (k : string) (v : JSON) (fs : list (string * JSON))
  : list (string * JSON) :=
  match fs with
  | [] => [(k, v)]
  | (k', v') :: r =>
      if String.eqb k k' then (k, v) :: r else (k', v') :: obj_set k v r
  end.

(** [v?.k] and [v.k] on a value that was read from the store. *)
Definition prop (k : string) (v : option JSON) : option JSON :=
  match v with
  | Some (JObj fs) => obj_get k fs
  | _ => None
  end.

(** JavaScript truthiness. *)
Definition truthy (v : option JSON) : bool :=
  match v with
  | None | Some JNull => false
  | Some (JBool b) => b
  | Some (JNum n) => negb (n =? 0)
  | Some (JStr s) => negb (String.eqb s "")
  | Some (JArr _) | Some (JObj _) => true
  end.

(** [v === 'lit'] and [v === true]. *)
Definition is_str (lit : string) (v : option JSON) : bool :=
  match v with
  | Some (JStr s) => String.eqb s lit
  | _ => false
  end.

Definition is_true (v : option JSON) : bool :=
  match v with
  | Some (JBool true) => true
  | _ => false
  end.

(** [v.length > 0] for a truthy [v]; [gt0 w] is what the engine answers for
    [w > 0] on a [length] that is neither a number, a boolean nor [null]. *)
Definition length_gt0 (gt0 : JSON -> bool) (v : option JSON) : bool :=
  match v with
  | Some (JArr l) => negb (Nat.eqb (length l) 0)
  | Some (JStr s) => negb (String.eqb s "")
  | Some (JObj fs) =>
      match obj_get "length" fs with
      | None | Some JNull => false
      | Some (JNum n) => 0 <? n
      | Some (JBool v) => v
      | Some w => gt0 w
      end
  | _ => false
  end.

(** Own enumerable properties copied by an object spread [{...v}]. *)
Fixpoint index_fields (i : nat) (l : list JSON) : list (string * JSON) :=
  match l with
  | [] => []
  | x :: r => (pretty i, x) :: index_fields (S i) r
  end.

(** The code units of a string, each as a string of its own. *)
Fixpoint chars (s : string) : list JSON :=
  match s with
  | EmptyString => []
  | String c r => JStr (String c EmptyString) :: chars r
  end.

Definition spread (v : JSON) : list (string * JSON) :=
  match v with
  | JObj fs => fs
  | JArr l => index_fields 0 l
  | JStr s => index_fields 0 (chars s)
  | _ => []
  end.

(** [v || {}] followed by a spread. *)
Definition spread_or_empty (v : option JSON) : list (string * JSON) :=
  match v with
  | Some j => if truthy v then spread j else []
  | None => []
  end.

(** ** utils/url: [isValidUrl] *)

Definition internal_prefixes : list string :=
  [ "chrome://"; "chrome-extension://"; "chrome-search://";
    "about:"; "edge://"; "brave://" ].

Definition startsWith (s p : string) : bool := String.prefix p s.

Definition isValidUrl (url : string) : bool :=
  negb (startsWith url "chrome://") &&
  negb (startsWith url "chrome-extension://") &&
  negb (startsWith url "chrome-search://") &&
  negb (startsWith url "about:") &&
  negb (startsWith url "edge://") &&
  negb (startsWith url "brave://").

(** [String.prototype.includes]. *)
Fixpoint includes (hay needle : string) : bool :=
  String.prefix needle hay ||
  match hay with
  | EmptyString => false
  | String _ r => includes r needle
  end.

(** ** Types shared by the two coordinators (types.ts) *)

Inductive SessionStatus := active | completed | error | paused.

Definition SessionStatus_str (s : SessionStatus) : string :=
  match s with
  | active => "active" | completed => "completed"
  | error => "error" | paused => "paused"
  end.

(** The in-memory [activeSession] object. *)
Record Session := {
  taskId : string;
  status : SessionStatus;
  session_isPaused : option bool
}.

Definition Session_json (s : Session) : JSON :=
  JObj ([("taskId", JStr (taskId s));
         ("status", JStr (SessionStatus_str (status s)))] ++
        match session_isPaused s with
        | Some b => [("isPaused", JBool b)]
        | None => []
        end).

(** [TaskState['status']]. *)
Inductive TaskStatus :=
  ts_idle | ts_running | ts_completed | ts_error | ts_paused | ts_stopping.

Definition TaskStatus_str (s : TaskStatus) : string :=
  match s with
  | ts_idle => "idle" | ts_running => "running" | ts_completed => "completed"
  | ts_error => "error" | ts_paused => "paused" | ts_stopping => "stopping"
  end.

Inductive ProcessingStatus :=
  ps_idle | ps_parsing | ps_updating | ps_executing_actions
| ps_waiting_for_server | ps_completed | ps_error | ps_paused | ps_stopping.

Definition ProcessingStatus_str (s : ProcessingStatus) : string :=
  match s with
  | ps_idle => "idle" | ps_parsing => "parsing" | ps_updating => "updating"
  | ps_executing_actions => "executing_actions"
  | ps_waiting_for_server => "waiting_for_server"
  | ps_completed => "completed" | ps_error => "error"
  | ps_paused => "paused" | ps_stopping => "stopping"
  end.

(** Messages published with [chrome.runtime.sendMessage]. *)
Inductive Broadcast :=
| processingStatusUpdate (task_id : string) (st : ProcessingStatus)
| stopMonitoringMsg (st : TaskStatus)
| pauseStateChanged (p : bool)
| iterationUpdate (iterations : Z)
| invalidURL
| workflowReset.

(** Messages sent to a tab with [chrome.tabs.sendMessage]. *)
Inductive TabMessage :=
| ping
| singleDOMProcess (task_id : string)
| stopAutomation
| tabWorkflowReset.

Record Tab := {
  tab_id : option Z;
  tab_url : option string;
  tab_status : option string;
  tab_active : bool
}.

Definition has_id (t : Tab) : bool :=
  match tab_id t with Some n => negb (n =? 0) | None => false end.

Definition has_url (t : Tab) : bool :=
  match tab_url t with Some u => negb (String.eqb u "") | None => false end.

Definition url_of (t : Tab) : string := default "" (tab_url t).
Definition id_of (t : Tab) : Z := default 0 (tab_id t).

(** The module-level variables of the background script, the durable store
    and the logs of what it sent. *)
Record Bg := {
  monitoringInterval : option nat;
  currentIterations : Z;
  isPaused : bool;
  lastUpdateResponse : option JSON;
  activeSession : option Session;
  storage : gmap string JSON;
  broadcasts : list Broadcast;
  tabMessages : list (Z * TabMessage);
  navigations : list (Z * string);
  createCalls : list string
}.

Definition initial : Bg :=
  {| monitoringInterval := None; currentIterations := 0; isPaused := false;
     lastUpdateResponse := None; activeSession := None; storage := ∅;
     broadcasts := []; tabMessages := []; navigations := [];
     createCalls := [] |}.

Definition with_interval (v : option nat) (b : Bg) : Bg :=
  {| monitoringInterval := v; currentIterations := currentIterations b;
     isPaused := isPaused b; lastUpdateResponse := lastUpdateResponse b;
     activeSession := activeSession b; storage := storage b;
     broadcasts := broadcasts b; tabMessages := tabMessages b;
     navigations := navigations b; createCalls := createCalls b |}.

Definition with_iterations (v : Z) (b : Bg) : Bg :=
  {| monitoringInterval := monitoringInterval b; currentIterations := v;
     isPaused := isPaused b; lastUpdateResponse := lastUpdateResponse b;
     activeSession := activeSession b; storage := storage b;
     broadcasts := broadcasts b; tabMessages := tabMessages b;
     navigations := navigations b; createCalls := createCalls b |}.

Definition with_isPaused (v : bool) (b : Bg) : Bg :=
  {| monitoringInterval := monitoringInterval b;
     currentIterations := currentIterations b;
     isPaused := v; lastUpdateResponse := lastUpdateResponse b;
     activeSession := activeSession b; storage := storage b;
     broadcasts := broadcasts b; tabMessages := tabMessages b;
     navigations := navigations b; createCalls := createCalls b |}.

Definition with_session (v : option Session) (b : Bg) : Bg :=
  {| monitoringInterval := monitoringInterval b;
     currentIterations := currentIterations b;
     isPaused := isPaused b; lastUpdateResponse := lastUpdateResponse b;
     activeSession := v; storage := storage b;
     broadcasts := broadcasts b; tabMessages := tabMessages b;
     navigations := navigations b; createCalls := createCalls b |}.

Definition with_storage (v : gmap string JSON) (b : Bg) : Bg :=
  {| monitoringInterval := monitoringInterval b;
     currentIterations := currentIterations b;
     isPaused := isPaused b; lastUpdateResponse := lastUpdateResponse b;
     activeSession := activeSession b; storage := v;
     broadcasts := broadcasts b; tabMessages := tabMessages b;
     navigations := navigations b; createCalls := createCalls b |}.

(** [chrome.runtime.sendMessage(m)]. *)
Definition broadcast (m : Broadcast) (b : Bg) : Bg :=
  {| monitoringInterval := monitoringInterval b;
     currentIterations := currentIterations b;
     isPaused := isPaused b; lastUpdateResponse := lastUpdateResponse b;
     activeSession := activeSession b; storage := storage b;
     broadcasts := broadcasts b ++ [m]; tabMessages := tabMessages b;
     navigations := navigations b; createCalls := createCalls b |}.

(** [chrome.tabs.sendMessage(id, m)]. *)
Definition tab_send (id : Z) (m : TabMessage) (b : Bg) : Bg :=
  {| monitoringInterval := monitoringInterval b;
     currentIterations := currentIterations b;
     isPaused := isPaused b; lastUpdateResponse := lastUpdateResponse b;
     activeSession := activeSession b; storage := storage b;
     broadcasts := broadcasts b; tabMessages := tabMessages b ++ [(id, m)];
     navigations := navigations b; createCalls := createCalls b |}.

(** [chrome.tabs.update(id, {url})]. *)
Definition navigate (id : Z) (url : string) (b : Bg) : Bg :=
  {| monitoringInterval := monitoringInterval b;
     currentIterations := currentIterations b;
     isPaused := isPaused b; lastUpdateResponse := lastUpdateResponse b;
     activeSession := activeSession b; storage := storage b;
     broadcasts := broadcasts b; tabMessages := tabMessages b;
     navigations := navigations b ++ [(id, url)];
     createCalls := createCalls b |}.

(** The body of a [POST /tasks/create] leaving the extension. *)
Definition post_create (task : string) (b : Bg) : Bg :=
  {| monitoringInterval := monitoringInterval b;
     currentIterations := currentIterations b;
     isPaused := isPaused b; lastUpdateResponse := lastUpdateResponse b;
     activeSession := activeSession b; storage := storage b;
     broadcasts := broadcasts b; tabMessages := tabMessages b;
     navigations := navigations b; createCalls := createCalls b ++ [task] |}.

(** [chrome.storage.local.set({k: v})] and [remove([k...])]. *)
Definition store_set (k : string) (v : JSON) (b : Bg) : Bg :=
  with_storage (<[k := v]> (storage b)) b.

Definition store_remove (ks : list string) (b : Bg) : Bg :=
  with_storage (foldr delete (storage b) ks) b.

(** [chrome.storage.local.set({ activeSession })]: the in-memory session,
    or [null] when there is none. *)
Definition persist_session (b : Bg) : Bg :=
  store_set "activeSession"
    (match activeSession b with Some s => Session_json s | None => JNull end) b.

(** ** The loop-based background coordinator *)

Module Background.

(** [updateProcessingStatus(task_id, status)]; [now] is the timestamp
    [new Date().toISOString()] taken by the call. *)
Definition updateProcessingStatus
    (task_id : string) (st : ProcessingStatus) (now : string) (b : Bg) : Bg :=
  let taskState := spread_or_empty (storage b !! "taskState") in
  let taskState :=
    obj_set "lastUpdateTimestamp" (JStr now)
      (obj_set "processingStatus" (JStr (ProcessingStatus_str st)) taskState) in
  broadcast (processingStatusUpdate task_id st)
    (store_set "taskState" (JObj taskState) b).

Definition stop_keys : list string :=
  ["activeSession"; "currentDOMUpdate"; "lastUpdateResponse";
   "iterationResults"].

(** [stopMonitoring(finalStatus)]; [tabs] is what the query for the active
    tab of the current window answers. *)
Definition stopMonitoring (finalStatus : TaskStatus) (tabs : list Tab)
    (b : Bg) : Bg :=
  let b := with_session None (with_isPaused false (with_iterations 0 b)) in
  let taskState := spread_or_empty (storage b !! "taskState") in
  let b :=
    store_set "taskState"
      (JObj (obj_set "isPaused" (JBool false)
              (obj_set "isRunning" (JBool false)
                (obj_set "status" (JStr (TaskStatus_str finalStatus))
                   taskState)))) b in
  let b := store_remove stop_keys b in
  let b :=
    match tabs with
    | t :: _ => if has_id t then tab_send (id_of t) stopAutomation b else b
    | [] => b
    end in
  broadcast (stopMonitoringMsg finalStatus) b.

Definition session_taskId_or_empty (b : Bg) : string :=
  match activeSession b with Some s => taskId s | None => "" end.

Definition set_session_paused (p : bool) (b : Bg) : Bg :=
  match activeSession b with
  | Some s =>
      persist_session
        (with_session
           (Some {| taskId := taskId s; status := status s;
                    session_isPaused := Some p |}) b)
  | None => b
  end.

(** The callback of [chrome.storage.local.get(['taskState'], ...)] used by
    pause and resume. *)
Definition when_taskState (st : ProcessingStatus) (now : string) (b : Bg) : Bg :=
  if truthy (storage b !! "taskState")
  then updateProcessingStatus (session_taskId_or_empty b) st now b
  else b.

Definition pauseMonitoring (now : string) (b : Bg) : Bg :=
  let b := with_isPaused true b in
  let b := set_session_paused true b in
  let b := broadcast (pauseStateChanged true) b in
  when_taskState ps_paused now b.

Definition resumeMonitoring (now : string) (b : Bg) : Bg :=
  let b := with_isPaused false b in
  let b := set_session_paused false b in
  let b := broadcast (pauseStateChanged false) b in
  when_taskState ps_idle now b.

(** The [check_processing_status] branch of the message listener. *)
Definition sessionDone (st : gmap string JSON) : bool :=
  is_str "completed" (prop "status" (st !! "activeSession")).

Definition lastUpdateDone (st : gmap string JSON) : bool :=
  is_true (prop "is_done" (prop "result" (prop "data"
             (st !! "lastUpdateResponse")))).

Definition processingDone (st : gmap string JSON) : bool :=
  is_str "completed" (prop "processingStatus" (st !! "taskState")).

Definition check_processing_status (b : Bg) : bool :=
  sessionDone (storage b) || lastUpdateDone (storage b)
  || processingDone (storage b).

(** What [POST /tasks/create] answers: the call throws, or resolves with a
    status code and the [task_id] of the body. *)
Inductive CreateOutcome :=
| create_throws
| create_response (http_status : Z) (task_id : string).

Inductive StartResponse :=
| resp_task_id (task_id : string)
| resp_error (msg : string).

(** *** Tab Locator: [getValidTab] *)

Inductive QueryOutcome :=
| query_throws
| query_tabs (l : list Tab).

Definition status_ready (t : Tab) : bool :=
  match tab_status t with
  | Some s => String.eqb s "complete" || String.eqb s "loading"
  | None => false
  end.

(** One pass of the body of the [for] loop: the tab it returns, if any. *)
Definition try_active_tab (q : QueryOutcome) : option Tab :=
  match q with
  | query_tabs (t :: _) =>
      if has_id t && has_url t && status_ready t then Some t else None
  | _ => None
  end.

(** The [for] loop, [attempt] running from its current value up to
    [maxRetries]; [left] counts the passes still to run.  It yields the tab
    found, the delays slept in order (milliseconds, JavaScript numbers:
    binary64 floats) and the number of queries made. *)
Fixpoint tab_attempts (left : nat) (attempt maxRetries : nat)
    (retryDelay : float) (queries : nat -> QueryOutcome)
  : option Tab * list float * nat :=
  match left with
  | O => (None, [], O)
  | S left' =>
      match try_active_tab (queries attempt) with
      | Some t => (Some t, [], 1%nat)
      | None =>
          if (attempt <? maxRetries)%nat
          then
            let '(r, ds, n) :=
              tab_attempts left' (S attempt) maxRetries
                (retryDelay * 1.5)%float queries in
            (r, retryDelay :: ds, S n)
          else
            let '(r, ds, n) :=
              tab_attempts left' (S attempt) maxRetries retryDelay queries in
            (r, ds, S n)
      end
  end.

Definition startsWith_chrome (t : Tab) : bool :=
  startsWith (url_of t) "chrome://".

(** The two fallback tiers after the loop. *)
Definition fallback_active (allTabs : list Tab) : option Tab :=
  match filter (fun t => tab_active t = true) allTabs with
  | t :: _ => if has_id t && has_url t then Some t else None
  | [] => None
  end.

Definition fallback_any (allTabs : list Tab) : option Tab :=
  head (filter (fun t => has_id t && has_url t && negb (startsWith_chrome t)
                         = true) allTabs).

Definition tab_fallback (all : QueryOutcome) : option Tab :=
  match all with
  | query_throws => None
  | query_tabs allTabs =>
      match fallback_active allTabs with
      | Some t => Some t
      | None => fallback_any allTabs
      end
  end.

Record TabResolution := {
  resolved : option Tab;
  delays : list float;
  queries_made : nat;
  used_fallback : bool
}.

Definition getValidTab_with (maxRetries : nat) (retryDelay : float)
    (queries : nat -> QueryOutcome) (all : QueryOutcome) : TabResolution :=
  let '(r, ds, n) := tab_attempts maxRetries 1 maxRetries retryDelay queries in
  match r with
  | Some t =>
      {| resolved := Some t; delays := ds; queries_made := n;
         used_fallback := false |}
  | None =>
      {| resolved := tab_fallback all; delays := ds; queries_made := n;
         used_fallback := true |}
  end.

(** [getValidTab()] with its default arguments. *)
Definition getValidTab := getValidTab_with 5 1000%float.

(** *** Start of a task: [handleStartTask] *)

(** What [handleStartTask] meets: the answer to its query for the active
    tab, whether [chrome.tabs.update] resolves when it navigates away from
    an internal page, what the stop of an existing session sees, the answer
    of the server, and what the stop in the [catch] block sees. *)
Record StartTaskEnv := {
  task_tabs : QueryOutcome;
  task_navigate_ok : bool;
  task_stop_tabs : list Tab;
  task_server : CreateOutcome;
  task_catch_tabs : list Tab
}.

(** [tabs[0]?.url && !isValidUrl(tabs[0].url)] *)
Definition on_internal_page (tabs : list Tab) : option Tab :=
  match tabs with
  | t :: _ => if has_url t && negb (isValidUrl (url_of t)) then Some t else None
  | [] => None
  end.

(** The [catch] block of [handleStartTask]. *)
Definition start_caught (e : StartTaskEnv) (b : Bg) : StartResponse * Bg :=
  (resp_error "Failed to create task",
   stopMonitoring ts_error (task_catch_tabs e) b).

(** [handleStartTask] from the test of [activeSession] on. *)
Definition create_session (task : string) (e : StartTaskEnv) (b : Bg)
  : StartResponse * Bg :=
  let b :=
    match activeSession b with
    | Some _ => stopMonitoring ts_idle (task_stop_tabs e) b
    | None => b
    end in
  let b := post_create task b in
  match task_server e with
  | create_throws => start_caught e b
  | create_response code id =>
      if negb (code =? 200)
      then (resp_error "Failed to create task", b)
      else
        let b :=
          with_session
            (Some {| taskId := id; status := active;
                     session_isPaused := Some false |}) b in
        (resp_task_id id, persist_session b)
  end.

(** [handleStartTask(message, sendResponse)]: the response handed to
    [sendResponse] and the state afterwards. *)
Definition handleStartTask (task : string) (e : StartTaskEnv) (b : Bg)
  : StartResponse * Bg :=
  match task_tabs e with
  | query_throws => start_caught e b
  | query_tabs tabs =>
      match on_internal_page tabs with
      | Some t =>
          if task_navigate_ok e
          then create_session task e
                 (navigate (id_of t) "https://www.google.com" b)
          else start_caught e b
      | None => create_session task e b
      end
  end.

(** *** Content Bridge: [sendProcessMessage] *)

(** The reply of the page agent to [singleDOMProcess]. *)
Record Response := {
  success : bool;
  isDone : bool;
  response_error : option string
}.

(** How the final [chrome.tabs.sendMessage] ends: [chrome.runtime.lastError]
    is set (with its message), or the callback gets the result. *)
Inductive Delivery :=
| lastError (message : option string)
| delivered (result : option Response).

(** What the page does to one run of [attemptSend]. *)
Record AttemptEnv := {
  ping_ok : bool;
  inject_ok : bool;
  delivery : Delivery
}.

Inductive SendEvent :=
| sent_ping
| injected
| waited (ms : Z)
| sent_process
| backoff (ms : Z).

Inductive AttemptResult :=
| attempt_threw
| attempt_resolved (r : option Response).

Definition attemptSend (e : AttemptEnv) : AttemptResult * list SendEvent :=
  let deliver :=
    match delivery e with
    | lastError msg =>
        attempt_resolved
          (Some {| success := false; isDone := false;
                   response_error := msg |})
    | delivered r => attempt_resolved r
    end in
  if ping_ok e
  then (deliver, [sent_ping; waited 2000; sent_process])
  else if inject_ok e
  then (deliver, [sent_ping; injected; waited 1000; waited 2000; sent_process])
  else (attempt_threw, [sent_ping; injected]).

Inductive SendError :=
| inject_failed
| no_response
| retries_exhausted.

Inductive SendResult :=
| send_returned (r : Response)
| send_threw (why : SendError).

(** [response.success || !response.error?.includes('back/forward cache')] *)
Definition final_response (r : Response) : bool :=
  success r ||
  negb match response_error r with
       | Some e => includes e "back/forward cache"
       | None => false
       end.

(** The [while (retryCount < maxRetries)] loop; [left] is
    [maxRetries - retryCount]. *)
Fixpoint send_loop (left retryCount maxRetries : nat)
    (page : nat -> AttemptEnv) : SendResult * list SendEvent :=
  match left with
  | O => (send_threw retries_exhausted, [])
  | S left' =>
      match attemptSend (page retryCount) with
      | (attempt_threw, tr) => (send_threw inject_failed, tr)
      | (attempt_resolved None, tr) => (send_threw no_response, tr)
      | (attempt_resolved (Some r), tr) =>
          if final_response r then (send_returned r, tr)
          else
            let retryCount := S retryCount in
            let pause :=
              if (retryCount <? maxRetries)%nat
              then [backoff (1000 * Z.of_nat retryCount)] else [] in
            let '(res, tr') := send_loop left' retryCount maxRetries page in
            (res, (tr ++ pause ++ tr')%list)
      end
  end.

Definition sendProcessMessage_with (maxRetries : nat)
    (page : nat -> AttemptEnv) : SendResult * list SendEvent :=
  send_loop maxRetries 0 maxRetries page.

(** [sendProcessMessage(tabId, task_id)] with the default [maxRetries]. *)
Definition sendProcessMessage := sendProcessMessage_with 10.

(** Number of deliveries of the unit of work, of probes, and the delays
    slept between attempts. *)
Definition attempts_made (tr : list SendEvent) : nat :=
  length (List.filter (fun e => match e with sent_process => true
                                        | _ => false end) tr).

Definition pings_made (tr : list SendEvent) : nat :=
  length (List.filter (fun e => match e with sent_ping => true
                                        | _ => false end) tr).

Definition backoffs (tr : list SendEvent) : list Z :=
  omap (fun e => match e with backoff ms => Some ms | _ => None end) tr.

(** *** Iteration Engine: [startMonitoring] and its closure *)

(** What the browser and the page answer during one iteration. *)
Record IterEnv := {
  env_queries : nat -> QueryOutcome;
  env_allTabs : QueryOutcome;
  env_page : nat -> AttemptEnv;
  env_stop_tabs : list Tab
}.

(** One call of [startMonitoring]: the background state, the [task_id] and
    [isUpdateInProgress] captured by the closure, and (for the statements
    only) the number of iteration bodies entered and not yet left. *)
Record Monitor := {
  bg : Bg;
  task_id : string;
  isUpdateInProgress : bool;
  in_flight : nat
}.

Definition with_bg (b : Bg) (m : Monitor) : Monitor :=
  {| bg := b; task_id := task_id m;
     isUpdateInProgress := isUpdateInProgress m; in_flight := in_flight m |}.

Definition session_active (b : Bg) : bool :=
  match activeSession b with
  | Some s => match status s with active => true | _ => false end
  | None => false
  end.

Inductive Entry :=
| entry_returned (continue : bool)
| entry_started.

(** [processOneIteration] up to its first [await]: the three guards, then
    the flag and the counter. *)
Definition iteration_enter (m : Monitor) : Entry * Monitor :=
  if negb (session_active (bg m)) then (entry_returned false, m)
  else if isPaused (bg m) then (entry_returned true, m)
  else if isUpdateInProgress m then (entry_returned true, m)
  else
    (entry_started,
     {| bg := with_iterations (currentIterations (bg m) + 1) (bg m);
        task_id := task_id m;
        isUpdateInProgress := true;
        in_flight := S (in_flight m) |}).

Definition mark_completed (b : Bg) : Bg :=
  match activeSession b with
  | Some s =>
      persist_session
        (with_session
           (Some {| taskId := taskId s; status := completed;
                    session_isPaused := session_isPaused s |}) b)
  | None => b
  end.

Definition record_iterations (b : Bg) : Bg :=
  let b :=
    if truthy (storage b !! "taskState")
    then store_set "taskState"
           (JObj (obj_set "iterations" (JNum (currentIterations b))
                    (spread_or_empty (storage b !! "taskState")))) b
    else b in
  broadcast (iterationUpdate (currentIterations b)) b.

(** The [try] block after the counter was incremented, with its [catch]. *)
Definition iteration_body (e : IterEnv) (b : Bg) : bool * Bg :=
  match resolved (getValidTab (env_queries e) (env_allTabs e)) with
  | None => (false, b)
  | Some currentTab =>
      if negb (isValidUrl (url_of currentTab))
      then (false, broadcast invalidURL b)
      else
        match fst (sendProcessMessage (env_page e)) with
        | send_threw _ => (false, stopMonitoring ts_error (env_stop_tabs e) b)
        | send_returned response =>
            let b := record_iterations b in
            if success response then
              if isDone response then
                (false,
                 stopMonitoring ts_completed (env_stop_tabs e)
                   (mark_completed b))
              else (true, b)
            else (false, stopMonitoring ts_error (env_stop_tabs e) b)
        end
  end.

(** The rest of [processOneIteration]: the body, then [finally]. *)
Definition iteration_finish (e : IterEnv) (m : Monitor) : bool * Monitor :=
  let '(continue, b) := iteration_body e (bg m) in
  (continue,
   {| bg := b; task_id := task_id m; isUpdateInProgress := false;
      in_flight := pred (in_flight m) |}).

Definition processOneIteration (e : IterEnv) (m : Monitor) : bool * Monitor :=
  match iteration_enter m with
  | (entry_returned c, m') => (c, m')
  | (entry_started, m') => iteration_finish e m'
  end.

(** What the browser answers while [startMonitoring] validates the tab. *)
Record StartEnv := {
  start_queries : nat -> QueryOutcome;
  start_allTabs : QueryOutcome;
  start_navigate_ok : bool;
  start_stop_tabs : list Tab
}.

(** [startMonitoring(task_id)] up to the call of [monitoringLoop]: either
    it gave up (left) or the closure it built (right). *)
Definition startMonitoring (tid : string) (e : StartEnv) (b : Bg)
  : Bg + Monitor :=
  let b := with_isPaused false (with_iterations 0 (with_interval None b)) in
  match resolved (getValidTab (start_queries e) (start_allTabs e)) with
  | None => inl (stopMonitoring ts_error (start_stop_tabs e) b)
  | Some initialTab =>
      let fresh b :=
        {| bg := b; task_id := tid; isUpdateInProgress := false;
           in_flight := 0 |} in
      if isValidUrl (url_of initialTab) then inr (fresh b)
      else if start_navigate_ok e
      then inr (fresh (navigate (id_of initialTab) "https://www.google.com" b))
      else inl (stopMonitoring ts_error (start_stop_tabs e) b)
  end.

(** Messages of the popup that the listener serves between two cycles. *)
Inductive Command :=
| cmd_pauseMonitoring (now : string)
| cmd_resumeMonitoring (now : string)
| cmd_stopMonitoring (tabs : list Tab)
| cmd_resetIterations.

Definition handle (c : Command) (b : Bg) : Bg :=
  match c with
  | cmd_pauseMonitoring now => pauseMonitoring now b
  | cmd_resumeMonitoring now => resumeMonitoring now b
  | cmd_stopMonitoring tabs => stopMonitoring ts_idle tabs b
  | cmd_resetIterations => with_iterations 0 b
  end.

(** A cycle of [monitoringLoop]: what the iteration meets and the commands
    served during the two-second wait after it. *)
Record Cycle := {
  cycle_env : IterEnv;
  cycle_commands : list Command
}.

Inductive LoopState := loop_exited | loop_waiting.

(** [monitoringLoop], run for as many cycles as are described. *)
Fixpoint monitoringLoop (cycles : list Cycle) (m : Monitor)
  : LoopState * Monitor :=
  match cycles with
  | [] => (if session_active (bg m) then loop_waiting else loop_exited, m)
  | c :: rest =>
      if negb (session_active (bg m)) then (loop_exited, m)
      else
        let '(continue, m) :=
          if negb (isPaused (bg m))
          then processOneIteration (cycle_env c) m
          else (true, m) in
        if continue
        then monitoringLoop rest
               (with_bg (foldl (fun b c => handle c b) (bg m)
                           (cycle_commands c)) m)
        else (loop_exited, m)
  end.

(** Asynchronous view of one closure: calls of [processOneIteration] from
    any trigger, the completion of the iteration in flight, and commands,
    in any order. *)
Inductive Event :=
| trigger
| finish (e : IterEnv)
| command (c : Command).

Definition step (ev : Event) (m : Monitor) : option Monitor :=
  match ev with
  | trigger => Some (snd (iteration_enter m))
  | finish e =>
      match in_flight m with
      | O => None
      | S _ => Some (snd (iteration_finish e m))
      end
  | command c => Some (with_bg (handle c (bg m)) m)
  end.

Fixpoint run (evs : list Event) (m : Monitor) : option Monitor :=
  match evs with
  | [] => Some m
  | ev :: rest =>
      match step ev m with
      | Some m' => run rest m'
      | None => None
      end
  end.

End Background.

(** ** The interval-based background coordinator *)

Module Legacy.

Import Background.

Definition check_processing_status (b : Bg) : bool :=
  is_str "completed" (prop "status" (storage b !! "activeSession")).

(** [activeSession?.taskId && activeSession.status === 'active'] *)
Definition joinable (b : Bg) : option Session :=
  match activeSession b with
  | Some s =>
      if negb (String.eqb (taskId s) "") &&
         match status s with active => true | _ => false end
      then Some s else None
  | None => None
  end.

Definition handleStartTask (task : string) (srv : CreateOutcome) (b : Bg)
  : StartResponse * Bg :=
  match joinable b with
  | Some s => (resp_task_id (taskId s), b)
  | None =>
      let b := post_create task b in
      match srv with
      | create_throws => (resp_error "Failed to create task", b)
      | create_response _ id =>
          let b :=
            with_session
              (Some {| taskId := id; status := active;
                       session_isPaused := Some false |}) b in
          (resp_task_id id, persist_session b)
      end
  end.

(** [stopMonitoring()], with the callback of its storage read. *)
Definition stopMonitoring (now : string) (b : Bg) : Bg :=
  let b := with_interval None b in
  if truthy (storage b !! "taskState")
  then
    store_set "currentDOMUpdate" JNull
      (store_set "taskState"
         (JObj (obj_set "lastUpdateTimestamp" (JStr now)
                  (obj_set "processingStatus" (JStr "idle")
                     (spread_or_empty (storage b !! "taskState"))))) b)
  else b.

(** What the browser and the page answer during one iteration. *)
Record IterEnv := {
  env_tabs : list Tab;
  env_page : AttemptEnv;
  env_now : string
}.

(** [processOneIteration] up to its first [await]. *)
Definition iteration_enter (m : Monitor) : Entry * Monitor :=
  if isPaused (bg m) then (entry_returned true, m)
  else if isUpdateInProgress m then (entry_returned true, m)
  else
    (entry_started,
     {| bg := bg m; task_id := task_id m; isUpdateInProgress := true;
        in_flight := S (in_flight m) |}).

Definition mark_completed := Background.mark_completed.

Definition record_iterations (b : Bg) : Bg :=
  let b := broadcast (iterationUpdate (currentIterations b)) b in
  if truthy (storage b !! "taskState")
  then store_set "taskState"
         (JObj (obj_set "iterations" (JNum (currentIterations b))
                  (spread_or_empty (storage b !! "taskState")))) b
  else b.

Definition usable_tab (tabs : list Tab) : option Tab :=
  match tabs with
  | t :: _ =>
      if has_id t && has_url t && isValidUrl (url_of t) then Some t else None
  | [] => None
  end.

(** The [try] block with its [catch]. *)
Definition iteration_body (tid : string) (e : IterEnv) (b : Bg) : Bg :=
  match usable_tab (env_tabs e) with
  | None => b
  | Some t =>
      let tabId := id_of t in
      let b := tab_send tabId ping b in
      if negb (ping_ok (env_page e)) && negb (inject_ok (env_page e)) then b
      else
        let b := tab_send tabId (singleDOMProcess tid) b in
        let response :=
          match delivery (env_page e) with
          | lastError msg =>
              Some {| success := false; isDone := false;
                      response_error := msg |}
          | delivered r => r
          end in
        match response with
        | Some r =>
            if success r then
              let b := with_iterations (currentIterations b + 1) b in
              let b := record_iterations b in
              if isDone r
              then stopMonitoring (env_now e) (mark_completed b)
              else b
            else b
        | None => b
        end
  end.

Definition iteration_finish (e : IterEnv) (m : Monitor) : Monitor :=
  {| bg := iteration_body (task_id m) e (bg m); task_id := task_id m;
     isUpdateInProgress := false; in_flight := pred (in_flight m) |}.

(** [startMonitoring(task_id)]: the timer (its handle is [timer]) and the
    first call of [processOneIteration], up to its first [await]. *)
Definition startMonitoring (tid : string) (timer : nat) (b : Bg) : Monitor :=
  let b := with_isPaused false (with_iterations 0 (with_interval None b)) in
  let m := {| bg := with_interval (Some timer) b; task_id := tid;
              isUpdateInProgress := false; in_flight := 0 |} in
  snd (iteration_enter m).

Inductive Event :=
| tick
| finish (e : IterEnv)
| pause (now : string)
| resume (now : string)
| stop (now : string).

(** The timer callback runs only while the timer is set. *)
Definition step (ev : Event) (m : Monitor) : option Monitor :=
  match ev with
  | tick =>
      match monitoringInterval (bg m) with
      | None => None
      | Some _ =>
          if negb (isUpdateInProgress m) && negb (isPaused (bg m))
          then Some (snd (iteration_enter m))
          else Some m
      end
  | finish e =>
      match in_flight m with
      | O => None
      | S _ => Some (iteration_finish e m)
      end
  | pause now => Some (with_bg (pauseMonitoring now (bg m)) m)
  | resume now => Some (with_bg (resumeMonitoring now (bg m)) m)
  | stop now => Some (with_bg (stopMonitoring now (bg m)) m)
  end.

End Legacy.

(** ** Several calls of [startMonitoring] *)

Module Closures.

Import Background.

(** The locals of one call of [startMonitoring]: the task it was called
    for, its [isUpdateInProgress] and (ghost) the number of its iteration
    bodies between start and exit. *)
Record Closure := {
  c_task : string;
  c_flag : bool;
  c_running : nat
}.

(** The coordinator: the module variables and the store, which all calls
    share, and the closures created so far, oldest first. *)
Record System := {
  shared : Bg;
  closures : list Closure
}.

Definition monitor_of (b : Bg) (c : Closure) : Monitor :=
  {| bg := b; task_id := c_task c; isUpdateInProgress := c_flag c;
     in_flight := c_running c |}.

Definition closure_of (m : Monitor) : Closure :=
  {| c_task := task_id m; c_flag := isUpdateInProgress m;
     c_running := in_flight m |}.

Definition put (i : nat) (m : Monitor) (s : System) : System :=
  {| shared := bg m; closures := <[i := closure_of m]> (closures s) |}.

Definition with_shared (b : Bg) (s : System) : System :=
  {| shared := b; closures := closures s |}.

(** The loop-based coordinator: a [startMonitoring] message, a call of
    [processOneIteration] by the loop of closure [i], the completion of the
    iteration of closure [i] that is in flight, and a command. *)
Inductive Event :=
| start (tid : string) (e : StartEnv)
| trigger (i : nat)
| finish (i : nat) (e : IterEnv)
| command (c : Command).

Definition step (ev : Event) (s : System) : option System :=
  match ev with
  | start tid e =>
      match startMonitoring tid e (shared s) with
      | inl b => Some (with_shared b s)
      | inr m =>
          Some {| shared := bg m; closures := closures s ++ [closure_of m] |}
      end
  | trigger i =>
      match closures s !! i with
      | Some c =>
          Some (put i (snd (iteration_enter (monitor_of (shared s) c))) s)
      | None => None
      end
  | finish i e =>
      match closures s !! i with
      | Some c =>
          match c_running c with
          | O => None
          | S _ =>
              Some (put i (snd (iteration_finish e (monitor_of (shared s) c)))
                      s)
          end
      | None => None
      end
  | command c => Some (with_shared (handle c (shared s)) s)
  end.

Fixpoint run (evs : list Event) (s : System) : option System :=
  match evs with
  | [] => Some s
  | ev :: rest =>
      match step ev s with
      | Some s' => run rest s'
      | None => None
      end
  end.

(** The interval-based coordinator.  The timer of closure [i] has the
    handle [i]; its callback runs only while [monitoringInterval] holds
    that handle. *)
Inductive LegacyEvent :=
| legacy_start (tid : string)
| legacy_tick (i : nat)
| legacy_finish (i : nat) (e : Legacy.IterEnv)
| legacy_pause (now : string)
| legacy_resume (now : string)
| legacy_stop (now : string).

Definition legacy_step (ev : LegacyEvent) (s : System) : option System :=
  match ev with
  | legacy_start tid =>
      let m := Legacy.startMonitoring tid (length (closures s)) (shared s) in
      Some {| shared := bg m; closures := closures s ++ [closure_of m] |}
  | legacy_tick i =>
      match closures s !! i with
      | Some c =>
          if decide (monitoringInterval (shared s) = Some i) then
            if negb (c_flag c) && negb (isPaused (shared s))
            then Some (put i (snd (Legacy.iteration_enter
                                     (monitor_of (shared s) c))) s)
            else Some s
          else None
      | None => None
      end
  | legacy_finish i e =>
      match closures s !! i with
      | Some c =>
          match c_running c with
          | O => None
          | S _ =>
              Some (put i (Legacy.iteration_finish e
                             (monitor_of (shared s) c)) s)
          end
      | None => None
      end
  | legacy_pause now => Some (with_shared (pauseMonitoring now (shared s)) s)
  | legacy_resume now => Some (with_shared (resumeMonitoring now (shared s)) s)
  | legacy_stop now =>
      Some (with_shared (Legacy.stopMonitoring now (shared s)) s)
  end.

Fixpoint legacy_run (evs : list LegacyEvent) (s : System) : option System :=
  match evs with
  | [] => Some s
  | ev :: rest =>
      match legacy_step ev s with
      | Some s' => legacy_run rest s'
      | None => None
      end
  end.

(** The coordinator before any call of [startMonitoring]. *)
Definition idle (b : Bg) : System := {| shared := b; closures := [] |}.

(** The number of iteration bodies between start and exit for the task. *)
Definition executing (tid : string) (s : System) : nat :=
  sum_list_with
    (fun c => if String.eqb (c_task c) tid then c_running c else 0%nat)
    (closures s).

End Closures.

(** ** The page agent: dom/processor.ts *)

Module Processor.

(** [checkIfProcessingDone(task_id)]: [st] is the store as read by the
    function, [response] what the background answers to the
    [check_processing_status] message it may send. *)
Definition checkIfProcessingDone (st : gmap string JSON)
    (response : option JSON) : bool :=
  let sessionDone := is_str "completed" (prop "status" (st !! "activeSession")) in
  let lastUpdateDone :=
    is_true (prop "is_done" (prop "result" (prop "data"
               (st !! "lastUpdateResponse")))) in
  let processingDone :=
    is_str "completed" (prop "processingStatus" (st !! "taskState")) in
  if sessionDone || lastUpdateDone || processingDone then true
  else
    match prop "isDone" response with
    | Some (JBool b) => b
    | _ => false
    end.

(** The reply [{ isDone }] of a [check_processing_status] handler. *)
Definition reply (handler : Bg -> bool) (b : Bg) : option JSON :=
  Some (JObj [("isDone", JBool (handler b))]).

(** The end of [singleDOMProcessIteration] when the server said
    [is_done]: the stored session, if any, gets the status [completed] and
    the completion is announced.  The [stopMonitoring] message the page
    sends next is served by the listener of the background
    ([Background.cmd_stopMonitoring]). *)
Definition persist_completed (b : Bg) : Bg :=
  if truthy (storage b !! "activeSession")
  then store_set "activeSession"
         (JObj (obj_set "status" (JStr "completed")
                  (spread_or_empty (storage b !! "activeSession")))) b
  else b.

Definition announce_done (tid : string) (b : Bg) : Bg :=
  broadcast (processingStatusUpdate tid ps_completed) (persist_completed b).

End Processor.

(** ** The loop-based coordinator: server updates and reset *)

Module Updates.

Import Background.

Definition with_lastUpdateResponse (v : option JSON) (b : Bg) : Bg :=
  {| monitoringInterval := monitoringInterval b;
     currentIterations := currentIterations b;
     isPaused := isPaused b; lastUpdateResponse := v;
     activeSession := activeSession b; storage := storage b;
     broadcasts := broadcasts b; tabMessages := tabMessages b;
     navigations := navigations b; createCalls := createCalls b |}.

(** The body of [POST /tasks/update]. *)
Record UpdateRequest := {
  req_task_id : string;
  req_dom_data : JSON;
  req_result : list JSON;
  req_iterations : Z;
  req_structure : JSON;
  req_openTabsWithIds : list (Z * string);
  req_currentTab : Z * string
}.

(** What [POST /tasks/update] answers: the call throws (axios does so on a
    status outside 2xx) with a message, or resolves with the body. *)
Inductive UpdateOutcome :=
| update_throws (msg : string)
| update_data (data : JSON).

(** What the browser and the server answer during one [handleDOMUpdate];
    [ue_thrown] is the message of an exception raised by the engine or the
    browser inside the handler, [ue_now k] the [k]-th timestamp read. *)
Record UpdateEnv := {
  ue_active : QueryOutcome;
  ue_all : QueryOutcome;
  ue_server : UpdateOutcome;
  ue_stop_tabs : list Tab;
  ue_thrown : string;
  ue_now : nat -> string
}.

(** The value the handler returns, which the listener sends back. *)
Record UpdateResponse := {
  ur_success : bool;
  ur_data : option JSON;
  ur_error : option string
}.

Definition is_null (v : JSON) : bool :=
  match v with JNull => true | _ => false end.

(** [(stored.iterationResults || []).filter(r => r.task_id === task_id)];
    [None] when this throws (no [filter] on the stored value, or a [null]
    element). *)
Definition results_for (tid : string) (stored : option JSON)
  : option (list JSON) :=
  if truthy stored then
    match stored with
    | Some (JArr l) =>
        if existsb is_null l then None
        else Some (List.filter
                     (fun r => is_str tid (prop "task_id" (Some r))) l)
    | _ => None
    end
  else Some [].

(** [tab.id || -1] and [tab.url || '']. *)
Definition id_or_minus1 (t : Tab) : Z := if has_id t then id_of t else -1.
Definition url_or_empty (t : Tab) : string := url_of t.

Definition tab_entry (t : Tab) : Z * string := (id_or_minus1 t, url_or_empty t).

Definition currentTab_entry (tabs : list Tab) : Z * string :=
  match tabs with
  | t :: _ => tab_entry t
  | [] => (-1, "")
  end.

(** [dom_data.structure ?? {}] *)
Definition structure_of (dom_data : JSON) : JSON :=
  match prop "structure" (Some dom_data) with
  | None | Some JNull => JObj []
  | Some v => v
  end.

Definition pending_record (tid st : string) (extra : list (string * JSON))
  : JSON :=
  JObj ([("task_id", JStr tid); ("status", JStr st)] ++ extra).

Definition failure (msg : string) : UpdateResponse :=
  {| ur_success := false; ur_data := None; ur_error := Some msg |}.

(** The inner [try] of [handleDOMUpdate]: the round trip to the server. *)
Definition round_trip (tid : string) (e : UpdateEnv) (b : Bg)
  : UpdateResponse * Bg :=
  match ue_server e with
  | update_data data =>
      let lur := JObj [("timestamp", JStr (ue_now e 3));
                       ("task_id", JStr tid); ("data", data)] in
      let b := with_lastUpdateResponse (Some lur) b in
      let b := store_set "lastUpdateResponse" lur b in
      let b := store_set "currentDOMUpdate"
                 (pending_record tid "completed"
                    [("result", data);
                     ("completedTime", JStr (ue_now e 4))]) b in
      ({| ur_success := true; ur_data := Some data; ur_error := None |}, b)
  | update_throws msg =>
      let b := updateProcessingStatus tid ps_error (ue_now e 3) b in
      let b := store_set "currentDOMUpdate"
                 (pending_record tid "error"
                    [("error", JStr msg);
                     ("completedTime", JStr (ue_now e 4))]) b in
      (failure msg, stopMonitoring ts_error (ue_stop_tabs e) b)
  end.

(** [handleDOMUpdate(message)]: the response, the request posted (if the
    handler got that far) and the state afterwards. *)
Definition handleDOMUpdate (task_id : option string) (dom_data : option JSON)
    (e : UpdateEnv) (b : Bg)
  : UpdateResponse * option UpdateRequest * Bg :=
  let tid := default "" task_id in
  match dom_data with
  | Some dom =>
      if negb (String.eqb tid "") && truthy dom_data then
        let b := updateProcessingStatus tid ps_updating (ue_now e 0) b in
        let thrown :=
          (failure (ue_thrown e), None,
           stopMonitoring ts_error (ue_stop_tabs e) b) in
        match results_for tid (storage b !! "iterationResults"),
              ue_active e, ue_all e with
        | Some results, query_tabs activeTabs, query_tabs allTabs =>
            let req :=
              {| req_task_id := tid; req_dom_data := dom;
                 req_result := results;
                 req_iterations := currentIterations b;
                 req_structure := structure_of dom;
                 req_openTabsWithIds := map tab_entry allTabs;
                 req_currentTab := currentTab_entry activeTabs |} in
            let b := store_set "currentDOMUpdate"
                       (pending_record tid "waiting_for_server"
                          [("startTime", JStr (ue_now e 1))]) b in
            let b := updateProcessingStatus tid ps_waiting_for_server
                       (ue_now e 2) b in
            let '(resp, b) := round_trip tid e b in
            (resp, Some req, b)
        | _, _, _ => thrown
        end
      else
        (failure "Missing required fields", None,
         updateProcessingStatus tid ps_error (ue_now e 0) b)
  | None =>
      (failure "Missing required fields", None,
       updateProcessingStatus tid ps_error (ue_now e 0) b)
  end.

(** The [updateProcessingStatus] branch of the message listener: taken only
    when the message has a task id and a status. *)
Definition serve_updateProcessingStatus (tid : string) (st : ProcessingStatus)
    (now : string) (b : Bg) : Bg :=
  if negb (String.eqb tid "") then updateProcessingStatus tid st now b else b.

(** [resetWorkflow()]; [stop_tabs] answers the query made by the
    [stopMonitoring] it calls, [tabs] its own query. *)
Definition resetWorkflow (stop_tabs : list Tab) (tabs : QueryOutcome)
    (b : Bg) : Bg :=
  let b := stopMonitoring ts_idle stop_tabs b in
  let b := with_session None (with_iterations 0 b) in
  let b := store_set "lastUpdateResponse" JNull
             (store_set "currentDOMUpdate" JNull
                (store_set "taskState" JNull
                   (store_set "activeSession" JNull b))) in
  let b := broadcast workflowReset b in
  match tabs with
  | query_tabs (t :: _) =>
      if has_id t && has_url t && isValidUrl (url_of t)
      then tab_send (id_of t) tabWorkflowReset b
      else b
  | _ => b
  end.

End Updates.

(** ** The interval-based coordinator: server updates *)

Module LegacyUpdates.

Import Background.

(** The body of [POST /tasks/update]. *)
Record UpdateRequest := {
  req_task_id : string;
  req_dom_data : JSON;
  req_result : list JSON;
  req_iterations : Z;
  req_structure : JSON
}.

(** What one [handleDOMUpdate] meets: [fetch] or [response.json()] throws or
    the status is not ok (an error with a message), or the body is parsed;
    [lue_thrown] is the message of the engine's [TypeError], [lue_gt0 v]
    what the engine answers for [v > 0] on a value that is neither a number,
    a boolean nor [null], and [lue_now k] the [k]-th timestamp read. *)
Record UpdateEnv := {
  lue_server : Updates.UpdateOutcome;
  lue_thrown : string;
  lue_gt0 : JSON -> bool;
  lue_now : nat -> string
}.

(** [activeSession.status = 'error'; chrome.storage.local.set({activeSession})] *)
Definition mark_error (b : Bg) : Bg :=
  match activeSession b with
  | Some s =>
      persist_session
        (with_session
           (Some {| taskId := taskId s; status := error;
                    session_isPaused := session_isPaused s |}) b)
  | None => b
  end.

(** The outer [catch]. *)
Definition caught (tid msg now : string) (b : Bg)
  : Updates.UpdateResponse * Bg :=
  let b := mark_error b in
  let b :=
    if negb (String.eqb tid "") then updateProcessingStatus tid ps_error now b
    else b in
  (Updates.failure msg, b).

(** [data.result?.actions && data.result.actions.length > 0]; [None] when
    reading [data.result] throws. *)
Definition has_actions (gt0 : JSON -> bool) (data : JSON) : option bool :=
  match data with
  | JNull => None
  | _ =>
      let actions := prop "actions" (prop "result" (Some data)) in
      Some (truthy actions && length_gt0 gt0 actions)
  end.

Definition is_done_of (data : JSON) : bool :=
  truthy (prop "is_done" (prop "result" (Some data))).

(** [Array.isArray(message.result) ? message.result : []] *)
Definition result_or_empty (result : option JSON) : list JSON :=
  match result with
  | Some (JArr l) => l
  | _ => []
  end.

Definition is_some_session (b : Bg) : bool :=
  match activeSession b with Some _ => true | None => false end.

(** [handleDOMUpdate(message)]: the response, the request posted (if the
    handler got that far) and the state afterwards. *)
Definition handleDOMUpdate (task_id : option string)
    (dom_data result : option JSON) (e : UpdateEnv) (b : Bg)
  : Updates.UpdateResponse * option UpdateRequest * Bg :=
  let tid := default "" task_id in
  match dom_data with
  | Some dom =>
      if negb (String.eqb tid "") && truthy dom_data then
        let b := updateProcessingStatus tid ps_updating (lue_now e 0) b in
        let req :=
          {| req_task_id := tid; req_dom_data := dom;
             req_result := result_or_empty result;
             req_iterations := currentIterations b;
             req_structure := Updates.structure_of dom |} in
        let b := store_set "currentDOMUpdate"
                   (Updates.pending_record tid "waiting_for_server"
                      [("startTime", JStr (lue_now e 1))]) b in
        let b := updateProcessingStatus tid ps_waiting_for_server
                   (lue_now e 2) b in
        match lue_server e with
        | Updates.update_throws msg =>
            let b := updateProcessingStatus tid ps_error (lue_now e 3) b in
            let b := store_set "currentDOMUpdate"
                       (Updates.pending_record tid "error"
                          [("error", JStr msg);
                           ("completedTime", JStr (lue_now e 4))]) b in
            let '(resp, b) := caught tid msg (lue_now e 5) b in
            (resp, Some req, b)
        | Updates.update_data data =>
            let lur := JObj [("timestamp", JStr (lue_now e 3));
                             ("task_id", JStr tid); ("data", data)] in
            let b := Updates.with_lastUpdateResponse (Some lur) b in
            let b := store_set "lastUpdateResponse" lur b in
            let b := store_set "currentDOMUpdate"
                       (Updates.pending_record tid "completed"
                          [("result", data);
                           ("completedTime", JStr (lue_now e 4))]) b in
            match has_actions (lue_gt0 e) data with
            | None =>
                let '(resp, b) := caught tid (lue_thrown e) (lue_now e 5) b in
                (resp, Some req, b)
            | Some acts =>
                let b :=
                  updateProcessingStatus tid
                    (if acts then ps_executing_actions else ps_completed)
                    (lue_now e 5) b in
                let b :=
                  if is_done_of data && is_some_session b
                  then Legacy.stopMonitoring (lue_now e 6) (mark_completed b)
                  else b in
                ({| Updates.ur_success := true; Updates.ur_data := Some data;
                    Updates.ur_error := None |}, Some req, b)
            end
        end
      else
        (Updates.failure "Missing required fields", None,
         updateProcessingStatus tid ps_error (lue_now e 0) b)
  | None =>
      (Updates.failure "Missing required fields", None,
       updateProcessingStatus tid ps_error (lue_now e 0) b)
  end.

End LegacyUpdates.

(** ** The page agent: automation/index.ts and the rest of dom/processor.ts *)

Module Page.

Import Background.

(** [ExecuteActionResult] *)
Record ActionResult := {
  action_success : bool;
  action_message : option string
}.

Definition ActionResult_json (r : ActionResult) : JSON :=
  JObj (("success", JBool (action_success r)) ::
        match action_message r with
        | Some m => [("message", JStr m)]
        | None => []
        end).

(** How [automationHandler.executeActions] fares in the race against the
    120 second timer. *)
Inductive ExecOutcome :=
| exec_results (results : list ActionResult)
| exec_throws (msg : string)
| exec_timed_out.

(** [handleAutomationActions(actions)]: the results, or the message of the
    error thrown; [handler] tells whether [initAutomationHandler] succeeded. *)
Definition handleAutomationActions (handler : bool) (exec : ExecOutcome)
    (actions : list JSON) : list ActionResult + string :=
  match actions with
  | [] => inr "Invalid actions array"
  | _ :: _ =>
      if negb handler then inr "AutomationHandler not available"
      else
        match exec with
        | exec_results results => inl results
        | exec_throws msg => inr msg
        | exec_timed_out => inr "Action execution timed out after 120 seconds"
        end
  end.

(** [getLatestUpdateResult(task_id)] on the store it reads. *)
Inductive LatestResult :=
| latest (data : option JSON)
| no_latest (msg : string).

Definition getLatestUpdateResult (tid : string) (st : gmap string JSON)
  : LatestResult :=
  let cdu := st !! "currentDOMUpdate" in
  let lur := st !! "lastUpdateResponse" in
  if is_str tid (prop "task_id" cdu) && is_str "completed" (prop "status" cdu)
  then latest (prop "result" cdu)
  else if is_str tid (prop "task_id" lur)
  then latest (prop "data" lur)
  else no_latest "No update result found".

(** [waitForProcessingStatus(task_id, targetStatus)]: [msgs] are the runtime
    messages that arrive before the timer fires, in order. *)
Definition ProcessingStatus_eqb (a b : ProcessingStatus) : bool :=
  String.eqb (ProcessingStatus_str a) (ProcessingStatus_str b).

Fixpoint waitForProcessingStatus (tid : string) (target : ProcessingStatus)
    (msgs : list Broadcast) : bool :=
  match msgs with
  | [] => false
  | processingStatusUpdate t st :: rest =>
      if String.eqb t tid then
        if ProcessingStatus_eqb st target then true
        else if ProcessingStatus_eqb st ps_error then false
        else waitForProcessingStatus tid target rest
      else waitForProcessingStatus tid target rest
  | _ :: rest => waitForProcessingStatus tid target rest
  end.

(** What the page captures: [captureIframeContents] or [parseDOMonServer]
    throws, or the document is captured and parsed. *)
Inductive Capture :=
| capture_throws (msg : string)
| captured (url html title timestamp : string) (structure : JSON).

(** What one [singleDOMProcessIteration] meets: the capture, whether the
    [dom_update] message reaches the background ([None]) or ends with
    [chrome.runtime.lastError], what the background meets while it serves
    the update, the automation handler, the timestamps of the status updates
    and the tabs seen by the stop the page asks for; [pe_gt0 v] is what the
    engine answers for [v > 0] on a value that is neither a number, a
    boolean nor [null]. *)
Record PageEnv := {
  pe_capture : Capture;
  pe_lastError : option (option string);
  pe_update : Updates.UpdateEnv;
  pe_handler : bool;
  pe_exec : ExecOutcome;
  pe_now : nat -> string;
  pe_stop_tabs : list Tab;
  pe_gt0 : JSON -> bool
}.

Definition domData (url html title timestamp : string) (structure : JSON)
  : JSON :=
  JObj [("url", JStr url); ("html", JStr html); ("title", JStr title);
        ("timestamp", JStr timestamp); ("structure", structure)].

(** [data?.result?.actions]: its elements when it is an array, and whether
    it is a value other than an array that passes the test
    [actions && actions.length > 0] (a string, or an object with a
    [length]); and [!!data?.result?.is_done]. *)
Definition actions_of (data : option JSON) : list JSON :=
  match prop "actions" (prop "result" data) with
  | Some (JArr l) => l
  | _ => []
  end.

Definition malformed_actions (gt0 : JSON -> bool) (data : option JSON)
  : bool :=
  match prop "actions" (prop "result" data) with
  | Some (JArr _) => false
  | v => truthy v && length_gt0 gt0 v
  end.

Definition is_done_of (data : option JSON) : bool :=
  truthy (prop "is_done" (prop "result" data)).

(** [iterationResults.push({task_id, result})] on the stored list; [None]
    when the stored value has no [push]. *)
Definition push_results (tid : string) (results : list ActionResult)
    (stored : option JSON) : option JSON :=
  let entry := JObj [("task_id", JStr tid);
                     ("result", JArr (map ActionResult_json results))] in
  if truthy stored then
    match stored with
    | Some (JArr l) => Some (JArr (l ++ [entry]))
    | _ => None
    end
  else Some (JArr [entry]).

Definition failed (msg : string) : Response :=
  {| success := false; isDone := false; response_error := Some msg |}.

(** The part of [singleDOMProcessIteration] that handles the actions of the
    plan: [None] when it went through, the message of the error otherwise. *)
Definition run_actions (tid : string) (e : PageEnv) (actions : list JSON)
    (b : Bg) : option string * Bg :=
  match actions with
  | [] =>
      (None, Updates.serve_updateProcessingStatus tid ps_completed
               (pe_now e 0) b)
  | _ :: _ =>
      let b := Updates.serve_updateProcessingStatus tid ps_executing_actions
                 (pe_now e 0) b in
      match handleAutomationActions (pe_handler e) (pe_exec e) actions with
      | inl results =>
          match push_results tid results (storage b !! "iterationResults") with
          | Some v =>
              let b := store_set "iterationResults" v b in
              (None, Updates.serve_updateProcessingStatus tid ps_completed
                       (pe_now e 1) b)
          | None =>
              (Some (Updates.ue_thrown (pe_update e)),
               Updates.serve_updateProcessingStatus tid ps_error
                 (pe_now e 1) b)
          end
      | inr msg =>
          (Some msg,
           Updates.serve_updateProcessingStatus tid ps_error (pe_now e 1) b)
      end
  end.

(** The same part for actions that are not an array:
    [handleAutomationActions] rejects them. *)
Definition reject_actions (tid : string) (e : PageEnv) (b : Bg)
  : option string * Bg :=
  let b := Updates.serve_updateProcessingStatus tid ps_executing_actions
             (pe_now e 0) b in
  (Some "Invalid actions array",
   Updates.serve_updateProcessingStatus tid ps_error (pe_now e 1) b).

(** [singleDOMProcessIteration(task_id)], with the background serving the
    messages the page sends to it: the reply and the state afterwards. *)
Definition singleDOMProcessIteration (tid : string) (e : PageEnv) (b : Bg)
  : Response * Bg :=
  match pe_capture e with
  | capture_throws msg => (failed msg, b)
  | captured url html title timestamp structure =>
      match pe_lastError e with
      | Some msg => (failed (default "DOM update failed" 
                               (match msg with
                                | Some m => if String.eqb m "" then None
                                            else Some m
                                | None => None
                                end)), b)
      | None =>
          let '(resp, _, b) :=
            Updates.handleDOMUpdate (Some tid)
              (Some (domData url html title timestamp structure))
              (pe_update e) b in
          if negb (Updates.ur_success resp) then
            (failed (match Updates.ur_error resp with
                     | Some m => if String.eqb m "" then "DOM update failed"
                                 else m
                     | None => "DOM update failed"
                     end), b)
          else
            let done := is_done_of (Updates.ur_data resp) in
            match
              if malformed_actions (pe_gt0 e) (Updates.ur_data resp)
              then reject_actions tid e b
              else run_actions tid e (actions_of (Updates.ur_data resp)) b
            with
            | (Some msg, b) => (failed msg, b)
            | (None, b) =>
                let b :=
                  if done
                  then handle (cmd_stopMonitoring (pe_stop_tabs e))
                         (Processor.announce_done tid b)
                  else b in
                ({| success := true; isDone := done;
                    response_error := None |}, b)
            end
      end
  end.

End Page.

(** ** The popup: its message listener and its restore from the store *)

Module Popup.

(** The [state] of the popup is a JavaScript object; when the component is
    mounted it is this [TaskState]. *)
Definition initialState : JSON :=
  JObj [("taskId", JNull); ("status", JStr "idle"); ("task", JStr "");
        ("isRunning", JBool false); ("isPaused", JBool false);
        ("iterations", JNum 0)].

(** [{...prev, status: 'completed', isRunning: false}] *)
Definition completed_state (prev : JSON) : JSON :=
  JObj (obj_set "isRunning" (JBool false)
          (obj_set "status" (JStr "completed") (spread prev))).

(** [messageListener(message)]: the state after the update it queues,
    applied to [prev], and the task state it writes to the store, if any.
    [mounted] is the [state] the listener closes over: the effect that
    creates the listener runs once, when the component is mounted.  A
    property set to [undefined] reads like an absent one and is left out. *)
Definition messageListener (mounted : JSON) (m : Broadcast) (prev : JSON)
  : JSON * option JSON :=
  match m with
  | iterationUpdate n =>
      (JObj (if n =? 0 then spread prev
             else obj_set "iterations" (JNum n) (spread prev)), None)
  | stopMonitoringMsg _ =>
      (completed_state prev, Some (completed_state mounted))
  | pauseStateChanged p =>
      (JObj (obj_set "status" (JStr (if p then "paused" else "running"))
               (obj_set "isPaused" (JBool p) (spread prev))), None)
  | _ => (prev, None)
  end.

(** [x || false] *)
Definition or_false (v : option JSON) : JSON :=
  match v with
  | Some j => if truthy v then j else JBool false
  | None => JBool false
  end.

(** The callback that reads the store when the component is mounted: the
    stored task state, if any, replaces the state, and a stored session
    with a task id then overrides four of its fields.  (The minimized flag
    it also restores is a state of its own.) *)
Definition restoreSession (st : gmap string JSON) (prev : JSON) : JSON :=
  let base :=
    match st !! "taskState" with
    | Some j => if truthy (Some j) then j else prev
    | None => prev
    end in
  let session := st !! "activeSession" in
  match prop "taskId" session with
  | Some id =>
      if truthy (Some id) then
        JObj
          (obj_set "isPaused" (or_false (prop "isPaused" session))
             (obj_set "isRunning"
                (JBool (is_str "active" (prop "status" session)))
                (obj_set "status"
                   (JStr
                      (if is_str "completed" (prop "status" session)
                       then "completed"
                       else if is_str "error" (prop "status" session)
                       then "error"
                       else if truthy (prop "isPaused" session)
                       then "paused"
                       else "running"))
                   (obj_set "taskId" id (spread base)))))
      else base
  | None => base
  end.

End Popup.

(** ** Vocabulary of the statements *)

(** The three completion signals, as facts about the durable store. *)
Definition session_completed (st : gmap string JSON) : Prop :=
  exists fs, st !! "activeSession" = Some (JObj fs) /\
             obj_get "status" fs = Some (JStr "completed").

Definition server_said_done (st : gmap string JSON) : Prop :=
  exists r d x,
    st !! "lastUpdateResponse" = Some (JObj r) /\
    obj_get "data" r = Some (JObj d) /\
    obj_get "result" d = Some (JObj x) /\
    obj_get "is_done" x = Some (JBool true).

Definition processing_completed (st : gmap string JSON) : Prop :=
  exists fs, st !! "taskState" = Some (JObj fs) /\
             obj_get "processingStatus" fs = Some (JStr "completed").

(** A store in which only the last server response says the task is done. *)
Definition store_only_is_done : gmap string JSON :=
  {[ "activeSession" :=
       JObj [("taskId", JStr "t1"); ("status", JStr "active");
             ("isPaused", JBool false)];
     "lastUpdateResponse" :=
       JObj [("timestamp", JStr "2025-01-01T00:00:00.000Z");
             ("task_id", JStr "t1");
             ("data", JObj [("result", JObj [("actions", JArr []);
                                             ("is_done", JBool true)])])] ]}.

(** The module variables and the durable store, without the logs of the
    messages sent. *)
Definition state_of (b : Bg) :=
  (monitoringInterval b, currentIterations b, isPaused b,
   lastUpdateResponse b, activeSession b, storage b).

(** The task state that [stopMonitoring(finalStatus)] writes. *)
Definition stopped_taskState (finalStatus : TaskStatus) (b : Bg)
  : list (string * JSON) :=
  obj_set "isPaused" (JBool false)
    (obj_set "isRunning" (JBool false)
       (obj_set "status" (JStr (TaskStatus_str finalStatus))
          (spread_or_empty (storage b !! "taskState")))).

(** A running session with its durable mirror. *)
Definition session_t1 : Session :=
  {| taskId := "t1"; status := active; session_isPaused := Some false |}.

Definition running_t1 : Bg :=
  store_set "taskState"
    (JObj [("taskId", JStr "t1"); ("status", JStr "running");
           ("task", JStr "find the login button");
           ("isRunning", JBool true); ("iterations", JNum 0);
           ("isPaused", JBool false)])
    (persist_session (with_session (Some session_t1) initial)).

(** The session with its pause flag set to [p], and a freshly created one. *)
Definition flagged (p : bool) (s : Session) : Session :=
  {| taskId := taskId s; status := status s; session_isPaused := Some p |}.

Definition new_session (id : string) : Session :=
  {| taskId := id; status := active; session_isPaused := Some false |}.

(** An attempt that meets the back/forward-cache condition: the delivery
    resolves with a failure whose reason contains the indication. *)
Definition stale (e : Background.AttemptEnv) : Prop :=
  exists r msg,
    fst (Background.attemptSend e) = Background.attempt_resolved (Some r) /\
    Background.success r = false /\
    Background.response_error r = Some msg /\
    includes msg "back/forward cache" = true.

(** A page that was restored from the back/forward cache and stays stale,
    and one whose agent cannot be reached for another reason. *)
Definition bfcache_page (_ : nat) : Background.AttemptEnv :=
  {| Background.ping_ok := true; Background.inject_ok := true;
     Background.delivery :=
       Background.lastError
         (Some "The page keeping the extension port is moved into back/forward cache, so the message channel is closed.") |}.

Definition unreachable_page (_ : nat) : Background.AttemptEnv :=
  {| Background.ping_ok := false; Background.inject_ok := true;
     Background.delivery :=
       Background.lastError
         (Some "Could not establish connection. Receiving end does not exist.") |}.

(** The delays [1000 * j] for [j] from [from] on, [n] of them. *)
Definition linear_delays (from n : nat) : list Z :=
  map (fun j => 1000 * Z.of_nat j) (seq from n).

(** The delays of the tab locator: one second, then growing by a factor of
    1.5, one before each attempt after the first. *)
Definition tab_delays : list float := [1000; 1500; 2250; 3375]%float.

(** Attempt number [i] (from 1) does not find a usable active tab. *)
Definition attempt_fails (queries : nat -> Background.QueryOutcome) (i : nat)
  : Prop :=
  Background.try_active_tab (queries i) = None.

(** The guard agrees with the number of iteration bodies in flight. *)
Definition guarded (m : Background.Monitor) : Prop :=
  (Background.isUpdateInProgress m = true /\ Background.in_flight m = 1%nat) \/
  (Background.isUpdateInProgress m = false /\ Background.in_flight m = 0%nat).

(** A settled content tab, and a browser that reports it at once. *)
Definition example_tab : Tab :=
  {| tab_id := Some 7; tab_url := Some "https://example.com/login";
     tab_status := Some "complete"; tab_active := true |}.

Definition settled_start : Background.StartEnv :=
  {| Background.start_queries := fun _ => Background.query_tabs [example_tab];
     Background.start_allTabs := Background.query_tabs [example_tab];
     Background.start_navigate_ok := true;
     Background.start_stop_tabs := [example_tab] |}.

(** The page answers the unit of work with the given reply. *)
Definition replying (r : Background.Response) : Background.IterEnv :=
  {| Background.env_queries := fun _ => Background.query_tabs [example_tab];
     Background.env_allTabs := Background.query_tabs [example_tab];
     Background.env_page := fun _ =>
       {| Background.ping_ok := true; Background.inject_ok := true;
          Background.delivery := Background.delivered (Some r) |};
     Background.env_stop_tabs := [example_tab] |}.

Definition reply_continue : Background.Response :=
  {| Background.success := true; Background.isDone := false;
     Background.response_error := None |}.

Definition reply_done : Background.Response :=
  {| Background.success := true; Background.isDone := true;
     Background.response_error := None |}.

Definition reply_failed : Background.Response :=
  {| Background.success := false; Background.isDone := false;
     Background.response_error := Some "DOM update failed" |}.

Definition legacy_env (d : Background.Delivery) : Legacy.IterEnv :=
  {| Legacy.env_tabs := [example_tab];
     Legacy.env_page :=
       {| Background.ping_ok := true; Background.inject_ok := true;
          Background.delivery := d |};
     Legacy.env_now := "2025-01-01T00:00:02.000Z" |}.

(** The closure built for the session [t1]. *)
Definition idle_monitor (b : Bg) : Background.Monitor :=
  {| Background.bg := b; Background.task_id := "t1";
     Background.isUpdateInProgress := false; Background.in_flight := 0 |}.

Definition started_monitor : Background.Monitor :=
  match Background.startMonitoring "t1" settled_start running_t1 with
  | inr m => m
  | inl b => idle_monitor b
  end.

(** The guard of a closure agrees with the number of its iteration bodies
    in flight. *)
Definition closure_guarded (c : Closures.Closure) : Prop :=
  (Closures.c_flag c = true /\ Closures.c_running c = 1%nat) \/
  (Closures.c_flag c = false /\ Closures.c_running c = 0%nat).

(** The closures created for a task. *)
Definition closures_for (tid : string) (s : Closures.System)
  : list Closures.Closure :=
  filter (fun c => Closures.c_task c = tid) (Closures.closures s).

(** Schedules with a second [startMonitoring] message for the task [t1]
    while the iteration of the first call is in flight. *)
Definition duplicate_starts : list Closures.Event :=
  [Closures.start "t1" settled_start; Closures.trigger 0; Closures.trigger 0;
   Closures.start "t1" settled_start; Closures.trigger 1; Closures.trigger 0;
   Closures.trigger 1].

Definition legacy_duplicate_starts : list Closures.LegacyEvent :=
  [Closures.legacy_start "t1"; Closures.legacy_tick 0;
   Closures.legacy_start "t1"; Closures.legacy_tick 1].

(** The session once the server said the task is done. *)
Definition finished (s : Session) : Session :=
  {| taskId := taskId s; status := completed;
     session_isPaused := session_isPaused s |}.

(** Number of [stopMonitoring] broadcasts that carry the status
    [completed]. *)
Definition completed_stops (l : list Broadcast) : nat :=
  length (List.filter
            (fun m => match m with
                      | stopMonitoringMsg ts_completed => true
                      | _ => false
                      end) l).

(** A key that does not begin with a decimal digit (the keys an object
    spread gives to the elements of an array or string all do). *)
Definition is_digit (c : Ascii.ascii) : bool :=
  (48 <=? Ascii.nat_of_ascii c)%nat && (Ascii.nat_of_ascii c <=? 57)%nat.

Definition named_key (k : string) : bool :=
  match k with
  | EmptyString => true
  | String c _ => negb (is_digit c)
  end.

(** A captured document, a server plan and the surroundings of an update. *)
Definition example_dom : JSON :=
  Page.domData "https://example.com/login" "<html></html>" "Login"
    "2025-01-01T00:00:01.000Z" (JObj [("root", JStr "n0")]).

Definition plan (actions : list JSON) (is_done : bool) : JSON :=
  JObj [("result", JObj [("actions", JArr actions);
                         ("is_done", JBool is_done)])].

Definition click_action : JSON :=
  JObj [("type", JStr "click"); ("element_id", JStr "n7")].

Definition update_env (srv : Updates.UpdateOutcome) : Updates.UpdateEnv :=
  {| Updates.ue_active := Background.query_tabs [example_tab];
     Updates.ue_all := Background.query_tabs [example_tab];
     Updates.ue_server := srv;
     Updates.ue_stop_tabs := [example_tab];
     Updates.ue_thrown := "TypeError";
     Updates.ue_now := fun _ => "2025-01-01T00:00:02.000Z" |}.

Definition page_env (srv : Updates.UpdateOutcome) (exec : Page.ExecOutcome)
  : Page.PageEnv :=
  {| Page.pe_capture :=
       Page.captured "https://example.com/login" "<html></html>" "Login"
         "2025-01-01T00:00:01.000Z" (JObj [("root", JStr "n0")]);
     Page.pe_lastError := None;
     Page.pe_update := update_env srv;
     Page.pe_handler := true;
     Page.pe_exec := exec;
     Page.pe_now := fun _ => "2025-01-01T00:00:03.000Z";
     Page.pe_stop_tabs := [example_tab];
     Page.pe_gt0 := fun _ => false |}.

(** The last broadcast emitted. *)
Definition last_broadcast (b : Bg) : option Broadcast := last (broadcasts b).

(** The state in which [handleDOMUpdate] meets the server. *)
Definition before_post (tid : string) (e : Updates.UpdateEnv) (b : Bg) : Bg :=
  Background.updateProcessingStatus tid ps_waiting_for_server
    (Updates.ue_now e 2)
    (store_set "currentDOMUpdate"
       (Updates.pending_record tid "waiting_for_server"
          [("startTime", JStr (Updates.ue_now e 1))])
       (Background.updateProcessingStatus tid ps_updating
          (Updates.ue_now e 0) b)).

(** A browser in which no tab can be found, and one whose only tab shows
    an internal page. *)
Definition no_tab_env : Background.IterEnv :=
  {| Background.env_queries := fun _ => Background.query_throws;
     Background.env_allTabs := Background.query_tabs [];
     Background.env_page := bfcache_page;
     Background.env_stop_tabs := [] |}.





(** The state in which the page, having run the actions of the plan, ends
    its iteration: unchanged, or (when the server said the task is done)
    after its announcement and the stop it asks the background for. *)
Definition page_end (tid : string) (e : Page.PageEnv) (done : bool) (b : Bg)
  : Bg :=
  if done
  then Background.handle (Background.cmd_stopMonitoring (Page.pe_stop_tabs e))
         (Processor.announce_done tid b)
  else b.

(** The entry the page adds to the stored results. *)
Definition results_entry (tid : string) (results : list Page.ActionResult)
  : JSON :=
  JObj [("task_id", JStr tid);
        ("result", JArr (map Page.ActionResult_json results))].

Definition failing_result : Page.ActionResult :=
  {| Page.action_success := false;
     Page.action_message := Some "Element not found" |}.

(** The list held under [iterationResults], empty when there is none. *)
Definition stored_results (b : Bg) : list JSON :=
  match storage b !! "iterationResults" with
  | Some (JArr l) => l
  | _ => []
  end.

(** What an iteration of the interval-based coordinator gets from the
    page: the reply to [singleDOMProcess], if the message was sent and
    answered. *)
Definition legacy_reply (e : Legacy.IterEnv) : option Background.Response :=
  match Legacy.usable_tab (Legacy.env_tabs e) with
  | None => None
  | Some _ =>
      if negb (Background.ping_ok (Legacy.env_page e))
         && negb (Background.inject_ok (Legacy.env_page e))
      then None
      else
        match Background.delivery (Legacy.env_page e) with
        | Background.lastError msg =>
            Some {| Background.success := false; Background.isDone := false;
                    Background.response_error := msg |}
        | Background.delivered r => r
        end
  end.

(** The background state without the log of messages sent to tabs. *)
Definition apart_from_tab_messages (b : Bg) :=
  (state_of b, broadcasts b, navigations b, createCalls b).

(** The popup reacting to a runtime message: its new state, and the store
    after the write of the listener, if it makes one. *)
Definition popup_react (mounted : JSON) (m : Broadcast) (p : JSON * Bg)
  : JSON * Bg :=
  (fst (Popup.messageListener mounted m (fst p)),
   match snd (Popup.messageListener mounted m (fst p)) with
   | Some v => store_set "taskState" v (snd p)
   | None => snd p
   end).

(** The popup's state and the store after it has received the given runtime
    messages in order. *)
Definition popup_after (mounted : JSON) (msgs : list Broadcast)
    (p : JSON * Bg) : JSON * Bg :=
  foldl (fun p m => popup_react mounted m p) p msgs.

(** The value that the mount callback starts from: the stored task state
    when there is one, else the state the popup had. *)
Definition restored_base (taskState : option JSON) (prev : JSON)
  : option JSON :=
  if truthy taskState then taskState else Some prev.

(** The fields that the mount callback takes from the stored session. *)
Definition session_fields : list string :=
  ["taskId"; "status"; "isRunning"; "isPaused"].

(** Delays that start at [d], each further one being the product of the
    one before and 1.5 in binary64 arithmetic. *)
Fixpoint geometric (d : float) (ds : list float) : Prop :=
  match ds with
  | [] => True
  | x :: rest => x = d /\ geometric (d * 1.5)%float rest
  end.

(** A cycle of the loop during whose wait no command arrives. *)
Definition no_commands (c : Background.Cycle) : Prop :=
  Background.cycle_commands c = [].

(** The monitor of a closure whose coordinator state is replaced by what a
    pause, and then a resume, leave. *)
Definition paused_at (now : string) (m : Background.Monitor)
  : Background.Monitor :=
  Background.with_bg (Background.pauseMonitoring now (Background.bg m)) m.

Definition resumed_at (now : string) (m : Background.Monitor)
  : Background.Monitor :=
  Background.with_bg (Background.resumeMonitoring now (Background.bg m)) m.

(** The session marked as failed. *)
Definition errored (s : Session) : Session :=
  {| taskId := taskId s; status := error;
     session_isPaused := session_isPaused s |}.

(** The state in which the interval-based [handleDOMUpdate] meets the
    server, and a server answering at once. *)
Definition legacy_posted (tid : string) (e : LegacyUpdates.UpdateEnv) (b : Bg)
  : Bg :=
  Background.updateProcessingStatus tid ps_waiting_for_server
    (LegacyUpdates.lue_now e 2)
    (store_set "currentDOMUpdate"
       (Updates.pending_record tid "waiting_for_server"
          [("startTime", JStr (LegacyUpdates.lue_now e 1))])
       (Background.updateProcessingStatus tid ps_updating
          (LegacyUpdates.lue_now e 0) b)).

Definition legacy_update_env (srv : Updates.UpdateOutcome)
  : LegacyUpdates.UpdateEnv :=
  {| LegacyUpdates.lue_server := srv;
     LegacyUpdates.lue_thrown := "TypeError";
     LegacyUpdates.lue_gt0 := fun _ => false;
     LegacyUpdates.lue_now := fun _ => "2025-01-01T00:00:02.000Z" |}.

(** The interval-based coordinator running task [t1] under timer 1. *)
Definition legacy_running : Bg := with_interval (Some 1%nat) running_t1.

(** The tab locator, described on the answers of the browser alone.  The
    query [q] for the active tab is answered with a list whose first tab is
    [t], and [t] has an id, a URL and the status [complete] or [loading]. *)
Definition ready_answer (q : Background.QueryOutcome) (t : Tab) : Prop :=
  (exists rest, q = Background.query_tabs (t :: rest)) /\
  has_id t = true /\ has_url t = true /\
  (tab_status t = Some "complete" \/ tab_status t = Some "loading").

(** [t] is the first tab of [l] that satisfies [p]. *)
Definition first_such (p : Tab -> bool) (l : list Tab) (t : Tab) : Prop :=
  exists pre post,
    l = pre ++ t :: post /\ p t = true /\ Forall (fun x => p x = false) pre.

(** A tab with an id and a URL, and one whose URL moreover does not start
    with [chrome://]. *)
Definition addressable (t : Tab) : bool := has_id t && has_url t.

Definition outside_chrome (t : Tab) : bool :=
  has_id t && has_url t && negb (startsWith (url_of t) "chrome://").

(** What the two fallback tiers yield on the list [l] of all open tabs: the
    first tab flagged active when it has an id and a URL; otherwise the
    first tab with an id and a URL outside [chrome://]. *)
Definition fallback_yields (l : list Tab) (t : Tab) : Prop :=
  (first_such tab_active l t /\ addressable t = true) \/
  ((forall a, first_such tab_active l a -> addressable a = false) /\
   first_such outside_chrome l t).

(** An active tab that has no URL yet, and an inactive tab on an internal
    page of the browser. *)
Definition blank_active_tab : Tab :=
  {| tab_id := Some 3; tab_url := None; tab_status := Some "loading";
     tab_active := true |}.

Definition settings_tab : Tab :=
  {| tab_id := Some 4; tab_url := Some "edge://settings";
     tab_status := Some "complete"; tab_active := false |}.

(** [handleStartTask] of the loop-based coordinator does not get as far as
    the server: its query for the active tab throws, or the first tab of
    the answer shows a page that [isValidUrl] rejects and the navigation
    away from it fails. *)
Definition start_blocked (e : Background.StartTaskEnv) : Prop :=
  Background.task_tabs e = Background.query_throws \/
  exists t rest,
    Background.task_tabs e = Background.query_tabs (t :: rest) /\
    has_url t = true /\ isValidUrl (url_of t) = false /\
    Background.task_navigate_ok e = false.

(** A browser and a server that answer a start request at once. *)
Definition start_env (srv : Background.CreateOutcome)
  : Background.StartTaskEnv :=
  {| Background.task_tabs := Background.query_tabs [example_tab];
     Background.task_navigate_ok := true;
     Background.task_stop_tabs := [example_tab];
     Background.task_server := srv;
     Background.task_catch_tabs := [example_tab] |}.

(** * Properties *)

(** ** Object literals *)

Lemma obj_get_set_eq k v fs : obj_get k (obj_set k v fs) = Some v.
Proof.
  induction fs as [|[k' v'] r IH]; simpl.
  - now rewrite String.eqb_refl.
  - destruct (String.eqb k k') eqn:E; simpl; rewrite ?E; auto.
    now rewrite String.eqb_refl.
Qed.

Lemma obj_get_set_ne k k' v fs :
  k <> k' -> obj_get k (obj_set k' v fs) = obj_get k fs.
Proof.
  intros Hne. induction fs as [|[k2 v2] r IH]; simpl.
  - destruct (String.eqb k k') eqn:E; auto.
    apply String.eqb_eq in E. contradiction.
  - destruct (String.eqb k' k2) eqn:E; simpl.
    + apply String.eqb_eq in E. subst k2.
      destruct (String.eqb k k') eqn:E2; auto.
      apply String.eqb_eq in E2. contradiction.
    + now rewrite IH.
Qed.

Lemma obj_set_id k v fs : obj_get k fs = Some v -> obj_set k v fs = fs.
Proof.
  induction fs as [|[k' v'] r IH]; simpl; [discriminate|].
  destruct (String.eqb k k') eqn:E.
  - apply String.eqb_eq in E. now intros [= ->]; subst.
  - intros H. now rewrite IH.
Qed.

Lemma is_str_spec lit v : is_str lit v = true <-> v = Some (JStr lit).
Proof.
  destruct v as [[]|]; simpl; split; try discriminate; try congruence.
  - intros H. apply String.eqb_eq in H. now subst.
  - intros [= ->]. apply String.eqb_refl.
Qed.

Lemma is_true_spec v : is_true v = true <-> v = Some (JBool true).
Proof.
  destruct v as [[| [] | | | |]|]; simpl; split; congruence.
Qed.

Lemma prop_spec k v x :
  prop k v = Some x <-> exists fs, v = Some (JObj fs) /\ obj_get k fs = Some x.
Proof.
  split.
  - destruct v as [[]|]; simpl; try discriminate. eauto.
  - intros (fs & -> & H). exact H.
Qed.

(** ** The URL predicate *)

(** C10. [isValidUrl] accepts a string exactly when it starts with none of
    the six internal-browser prefixes [chrome://], [chrome-extension://],
    [chrome-search://], [about:], [edge://], [brave://]; the empty string
    and text that is no URL at all are therefore accepted. *)
Theorem isValidUrl_rejects_only_internal_prefixes :
  internal_prefixes =
    ["chrome://"; "chrome-extension://"; "chrome-search://";
     "about:"; "edge://"; "brave://"] /\
  (forall url : string,
     isValidUrl url = true <->
     forall p, In p internal_prefixes -> startsWith url p = false) /\
  isValidUrl "" = true /\
  isValidUrl "find the login button" = true /\
  isValidUrl "chrome://settings" = false.
Proof.
  split; [reflexivity|]. split; [|repeat split; reflexivity].
  intros url. unfold isValidUrl, internal_prefixes. split.
  - intros H p Hp. rewrite !andb_true_iff, !negb_true_iff in H.
    simpl in Hp. intuition (subst; assumption).
  - intros H. rewrite !andb_true_iff, !negb_true_iff.
    repeat split; apply H; simpl; tauto.
Qed.

(** ** Completion check *)

Lemma sessionDone_spec st :
  Background.sessionDone st = true <-> session_completed st.
Proof.
  unfold Background.sessionDone, session_completed.
  rewrite is_str_spec, prop_spec. reflexivity.
Qed.

Lemma lastUpdateDone_spec st :
  Background.lastUpdateDone st = true <-> server_said_done st.
Proof.
  unfold Background.lastUpdateDone, server_said_done.
  rewrite is_true_spec, prop_spec. split.
  - intros (x & Hx & Hd). apply prop_spec in Hx as (d & Hd' & Hr).
    apply prop_spec in Hd' as (r & Hs & Hdata). eauto 10.
  - intros (r & d & x & Hs & Hdata & Hr & Hd). exists x. split; [|exact Hd].
    apply prop_spec. exists d. split; [|exact Hr].
    apply prop_spec. eauto.
Qed.

Lemma processingDone_spec st :
  Background.processingDone st = true <-> processing_completed st.
Proof.
  unfold Background.processingDone, processing_completed.
  rewrite is_str_spec, prop_spec. reflexivity.
Qed.

Lemma checkIfProcessingDone_unfold st response :
  Processor.checkIfProcessingDone st response =
  if Background.sessionDone st || Background.lastUpdateDone st
     || Background.processingDone st
  then true
  else match prop "isDone" response with
       | Some (JBool b) => b
       | _ => false
       end.
Proof. reflexivity. Qed.

(** C3 (as amended). The [check_processing_status] handler of the loop-based
    coordinator answers done exactly when the stored session has status
    [completed], or the last stored server response carries [is_done = true],
    or the stored processing status is [completed]; so does
    [checkIfProcessingDone], whichever coordinator answers its backup
    question.  The handler of the interval-based coordinator answers done
    exactly when the stored session has status [completed]. *)
Theorem completion_check_signals (b : Bg) :
  let st := storage b in
  let any := session_completed st \/ server_said_done st
             \/ processing_completed st in
  (Background.check_processing_status b = true <-> any) /\
  (Processor.checkIfProcessingDone st
     (Processor.reply Background.check_processing_status b) = true <-> any) /\
  (Processor.checkIfProcessingDone st
     (Processor.reply Legacy.check_processing_status b) = true <-> any) /\
  (Legacy.check_processing_status b = true <-> session_completed st).
Proof.
  cbv zeta.
  assert (Hany : Background.check_processing_status b = true <->
                 session_completed (storage b) \/ server_said_done (storage b)
                 \/ processing_completed (storage b)).
  { unfold Background.check_processing_status.
    rewrite !orb_true_iff, sessionDone_spec, lastUpdateDone_spec,
      processingDone_spec. tauto. }
  split; [exact Hany|].
  assert (Hleg : Legacy.check_processing_status b = true <->
                 session_completed (storage b)).
  { apply sessionDone_spec. }
  repeat split.
  - rewrite checkIfProcessingDone_unfold. intros H. apply Hany.
    unfold Background.check_processing_status in *.
    destruct (_ || _ || _) eqn:E; [reflexivity|].
    simpl in H. rewrite E in H. discriminate.
  - intros H. apply Hany in H. rewrite checkIfProcessingDone_unfold.
    unfold Background.check_processing_status in H. now rewrite H.
  - rewrite checkIfProcessingDone_unfold. intros H. apply Hany.
    unfold Background.check_processing_status.
    destruct (_ || _ || _) eqn:E; [reflexivity|].
    simpl in H. apply orb_false_iff in E as [E _].
    apply orb_false_iff in E as [E _].
    unfold Legacy.check_processing_status in H.
    unfold Background.sessionDone in E. rewrite E in H. discriminate.
  - intros H. apply Hany in H. rewrite checkIfProcessingDone_unfold.
    unfold Background.check_processing_status in H. now rewrite H.
  - apply Hleg.
  - apply Hleg.
Qed.

(** C3, counterexample: with an active session and a last server response
    carrying [is_done = true], the handler of the interval-based coordinator
    answers not done although one of the three signals holds. *)
Lemma legacy_check_ignores_is_done :
  server_said_done store_only_is_done /\
  Legacy.check_processing_status (with_storage store_only_is_done initial)
  = false.
Proof.
  split; [|vm_compute; reflexivity].
  apply lastUpdateDone_spec. vm_compute. reflexivity.
Qed.

(** ** Stop *)

Lemma stop_storage f tabs b :
  storage (Background.stopMonitoring f tabs b) =
  foldr delete (<["taskState" := JObj (stopped_taskState f b)]> (storage b))
    Background.stop_keys.
Proof.
  unfold Background.stopMonitoring.
  destruct tabs as [|t ?]; [|destruct (has_id t)]; reflexivity.
Qed.

Lemma stop_memory f tabs b :
  monitoringInterval (Background.stopMonitoring f tabs b)
    = monitoringInterval b /\
  currentIterations (Background.stopMonitoring f tabs b) = 0 /\
  isPaused (Background.stopMonitoring f tabs b) = false /\
  lastUpdateResponse (Background.stopMonitoring f tabs b)
    = lastUpdateResponse b /\
  activeSession (Background.stopMonitoring f tabs b) = None.
Proof.
  unfold Background.stopMonitoring.
  destruct tabs as [|t ?]; [|destruct (has_id t)]; repeat split.
Qed.

Lemma stop_broadcasts f tabs b :
  broadcasts (Background.stopMonitoring f tabs b) =
  broadcasts b ++ [stopMonitoringMsg f].
Proof.
  unfold Background.stopMonitoring.
  destruct tabs as [|t ?]; [|destruct (has_id t)]; reflexivity.
Qed.

Lemma stop_createCalls f tabs b :
  createCalls (Background.stopMonitoring f tabs b) = createCalls b.
Proof.
  unfold Background.stopMonitoring.
  destruct tabs as [|t ?]; [|destruct (has_id t)]; reflexivity.
Qed.

Lemma stop_storage_lookup f tabs b (k : string) :
  storage (Background.stopMonitoring f tabs b) !! k =
  if decide (k ∈ Background.stop_keys) then None
  else if decide (k = "taskState") then Some (JObj (stopped_taskState f b))
  else storage b !! k.
Proof.
  rewrite stop_storage. unfold Background.stop_keys. simpl foldr.
  rewrite !lookup_delete, lookup_insert.
  repeat destruct (decide _); subst; try reflexivity; try congruence;
    exfalso;
    match goal with
    | H : _ ∈ _ |- _ =>
        rewrite !elem_of_cons, elem_of_nil in H; decompose [or] H;
        solve [discriminate | congruence | contradiction]
    | H : _ ∉ _ |- _ => apply H; rewrite !elem_of_cons; tauto
    end.
Qed.

Lemma stop_status_lookup f tabs b :
  prop "status" (storage (Background.stopMonitoring f tabs b) !! "taskState")
  = Some (JStr (TaskStatus_str f)).
Proof.
  rewrite stop_storage_lookup.
  change (prop "status"
            (if decide ("taskState" ∈ Background.stop_keys) then None
             else if decide ("taskState" = "taskState")
                  then Some (JObj (stopped_taskState f b))
                  else storage b !! "taskState"))
    with (obj_get "status" (stopped_taskState f b)).
  unfold stopped_taskState.
  rewrite !obj_get_set_ne by discriminate. apply obj_get_set_eq.
Qed.

Lemma stopped_taskState_fixed f tabs b :
  stopped_taskState f (Background.stopMonitoring f tabs b)
  = stopped_taskState f b.
Proof.
  unfold stopped_taskState at 1.
  rewrite stop_storage_lookup.
  rewrite decide_False
    by (unfold Background.stop_keys; rewrite !elem_of_cons, elem_of_nil;
        intros H; decompose [or] H; discriminate || assumption).
  rewrite decide_True by reflexivity.
  change (spread_or_empty (Some (JObj (stopped_taskState f b))))
    with (stopped_taskState f b).
  rewrite (obj_set_id "status").
  2:{ unfold stopped_taskState.
      rewrite !obj_get_set_ne by discriminate. apply obj_get_set_eq. }
  rewrite (obj_set_id "isRunning").
  2:{ unfold stopped_taskState.
      rewrite obj_get_set_ne by discriminate. apply obj_get_set_eq. }
  apply obj_set_id. apply obj_get_set_eq.
Qed.

Lemma stop_storage_idempotent f tabs tabs' b :
  storage (Background.stopMonitoring f tabs'
             (Background.stopMonitoring f tabs b)) =
  storage (Background.stopMonitoring f tabs b).
Proof.
  apply map_eq. intros k.
  rewrite (stop_storage_lookup f tabs'), stopped_taskState_fixed.
  rewrite (stop_storage_lookup f tabs b).
  repeat destruct (decide _); reflexivity.
Qed.

(** C4 (as amended).  In the loop-based coordinator, a second
    [stopMonitoring] with the same final status leaves the module variables
    and the durable store as the first one left them; after one call the
    keys [activeSession], [currentDOMUpdate], [lastUpdateResponse] and
    [iterationResults] are absent from the store and the in-memory session
    is cleared.  The [stopMonitoring] of the interval-based coordinator only
    cancels the timer and, when a task state is stored, resets its
    processing status (with a new timestamp) and sets [currentDOMUpdate] to
    [null]: it sends nothing, keeps the session in memory and in the store,
    the counter, the pause flag and every other key, and without a stored
    task state it leaves the store as it is. *)
Theorem stopMonitoring_idempotent_and_clears
    (f : TaskStatus) (tabs tabs' : list Tab) (now : string) (b : Bg) :
  let once := Background.stopMonitoring f tabs b in
  let kept := Legacy.stopMonitoring now b in
  state_of (Background.stopMonitoring f tabs' once) = state_of once /\
  storage once !! "activeSession" = None /\
  storage once !! "currentDOMUpdate" = None /\
  storage once !! "lastUpdateResponse" = None /\
  storage once !! "iterationResults" = None /\
  activeSession once = None /\
  monitoringInterval kept = None /\
  activeSession kept = activeSession b /\
  storage kept !! "activeSession" = storage b !! "activeSession" /\
  (currentIterations kept, isPaused kept, lastUpdateResponse kept)
    = (currentIterations b, isPaused b, lastUpdateResponse b) /\
  (broadcasts kept, tabMessages kept, navigations kept, createCalls kept)
    = (broadcasts b, tabMessages b, navigations b, createCalls b) /\
  (forall k : string, k <> "taskState" -> k <> "currentDOMUpdate" ->
     storage kept !! k = storage b !! k) /\
  (truthy (storage b !! "taskState") = true ->
   prop "processingStatus" (storage kept !! "taskState")
     = Some (JStr "idle") /\
   prop "lastUpdateTimestamp" (storage kept !! "taskState")
     = Some (JStr now) /\
   storage kept !! "currentDOMUpdate" = Some JNull) /\
  (truthy (storage b !! "taskState") = false -> storage kept = storage b).
Proof.
  cbv zeta. split.
  { unfold state_of. rewrite stop_storage_idempotent.
    destruct (stop_memory f tabs' (Background.stopMonitoring f tabs b))
      as (-> & -> & -> & -> & ->).
    destruct (stop_memory f tabs b) as (_ & -> & -> & _ & ->).
    reflexivity. }
  rewrite !stop_storage_lookup.
  do 4 (split; [reflexivity|]). split; [apply stop_memory|].
  unfold Legacy.stopMonitoring.
  change (storage (with_interval None b)) with (storage b).
  destruct (truthy (storage b !! "taskState")) eqn:Et.
  - cbn [store_set with_storage with_interval monitoringInterval
         activeSession storage currentIterations isPaused lastUpdateResponse
         broadcasts tabMessages navigations createCalls].
    split; [reflexivity|]. split; [reflexivity|].
    split; [now rewrite !lookup_insert_ne by discriminate|].
    split; [reflexivity|]. split; [reflexivity|].
    split; [intros k H1 H2; now rewrite !lookup_insert_ne by congruence|].
    split; [|discriminate]. intros _.
    rewrite lookup_insert_eq.
    rewrite (lookup_insert_ne _ "currentDOMUpdate" "taskState")
      by discriminate.
    rewrite lookup_insert_eq. cbn [prop].
    split; [|split; [apply obj_get_set_eq|reflexivity]].
    rewrite obj_get_set_ne by discriminate. apply obj_get_set_eq.
  - do 5 (split; [reflexivity|]).
    split; [intros; reflexivity|]. split; [discriminate|reflexivity].
Qed.

(** C4, counterexample: in the interval-based coordinator, [stopMonitoring]
    leaves the session in memory and under [activeSession] in the store, and
    leaves [currentDOMUpdate] present (holding [null]). *)
Lemma legacy_stop_keeps_session :
  let after := Legacy.stopMonitoring "2025-01-01T00:00:00.000Z" running_t1 in
  activeSession after = Some session_t1 /\
  storage after !! "activeSession" = Some (Session_json session_t1) /\
  storage after !! "currentDOMUpdate" = Some JNull.
Proof. vm_compute. repeat split. Qed.

(** ** Pause and resume *)

Lemma when_taskState_frame st now b :
  isPaused (Background.when_taskState st now b) = isPaused b /\
  activeSession (Background.when_taskState st now b) = activeSession b /\
  currentIterations (Background.when_taskState st now b)
    = currentIterations b /\
  storage (Background.when_taskState st now b) !! "activeSession"
    = storage b !! "activeSession".
Proof.
  unfold Background.when_taskState, Background.updateProcessingStatus.
  destruct (truthy _); repeat split.
  simpl. now rewrite lookup_insert_ne.
Qed.

Lemma set_session_paused_spec p b :
  isPaused (Background.set_session_paused p b) = isPaused b /\
  currentIterations (Background.set_session_paused p b)
    = currentIterations b /\
  activeSession (Background.set_session_paused p b)
    = flagged p <$> activeSession b /\
  storage (Background.set_session_paused p b) !! "activeSession" =
    match activeSession b with
    | Some s => Some (Session_json (flagged p s))
    | None => storage b !! "activeSession"
    end.
Proof.
  unfold Background.set_session_paused.
  destruct (activeSession b) as [s|] eqn:E; simpl; rewrite ?E;
    repeat split.
  apply lookup_insert_eq.
Qed.

(** C5 (as amended).  [pauseMonitoring] sets the module flag [isPaused] and
    the [isPaused] field of the in-memory session to true and persists the
    session; [resumeMonitoring] sets both to false and persists; neither
    changes the session's [status] or [taskId], and without a session only
    the module flag changes. *)
Theorem pause_resume_flip_only_isPaused (now : string) (b : Bg) :
  let p := Background.pauseMonitoring now b in
  let r := Background.resumeMonitoring now b in
  isPaused p = true /\
  activeSession p = flagged true <$> activeSession b /\
  storage p !! "activeSession" =
    match activeSession b with
    | Some s => Some (Session_json (flagged true s))
    | None => storage b !! "activeSession"
    end /\
  isPaused r = false /\
  activeSession r = flagged false <$> activeSession b /\
  storage r !! "activeSession" =
    match activeSession b with
    | Some s => Some (Session_json (flagged false s))
    | None => storage b !! "activeSession"
    end /\
  status <$> activeSession p = status <$> activeSession b /\
  status <$> activeSession r = status <$> activeSession b /\
  taskId <$> activeSession p = taskId <$> activeSession b /\
  taskId <$> activeSession r = taskId <$> activeSession b.
Proof.
  cbv zeta. unfold Background.pauseMonitoring, Background.resumeMonitoring.
  repeat
    match goal with
    | |- context [Background.when_taskState ?st now ?x] =>
        let H := fresh in
        destruct (when_taskState_frame st now x) as (-> & -> & _ & ->)
    end.
  change (activeSession (broadcast ?m ?x)) with (activeSession x).
  change (isPaused (broadcast ?m ?x)) with (isPaused x).
  change (storage (broadcast ?m ?x)) with (storage x).
  destruct (set_session_paused_spec true (with_isPaused true b))
    as (-> & _ & -> & ->).
  destruct (set_session_paused_spec false (with_isPaused false b))
    as (-> & _ & -> & ->).
  simpl. destruct (activeSession b) as [s|]; repeat split.
Qed.

(** C5, counterexample: after [pauseMonitoring] on a running session the
    session has [isPaused = true] while its [status] is still [active]. *)
Lemma pause_leaves_status_active :
  let p := Background.pauseMonitoring "2025-01-01T00:00:00.000Z" running_t1 in
  activeSession p =
    Some {| taskId := "t1"; status := active;
            session_isPaused := Some true |} /\
  isPaused p = true /\
  status <$> activeSession p <> Some paused.
Proof. vm_compute. repeat split. discriminate. Qed.

(** ** Start *)

Lemma joinable_spec b s :
  Legacy.joinable b = Some s <->
  activeSession b = Some s /\ status s = active /\ taskId s <> "".
Proof.
  unfold Legacy.joinable. destruct (activeSession b) as [s'|]; [|split; [discriminate|intros [[=] _]]].
  destruct (String.eqb (taskId s') "") eqn:E; simpl.
  - apply String.eqb_eq in E. split; [discriminate|].
    intros ([= ->] & _ & H). contradiction.
  - apply String.eqb_neq in E.
    destruct (status s') eqn:Es; split;
      try discriminate; try (intros ([= ->] & H & _); congruence).
    intros [= ->]. auto.
Qed.

Lemma start_blocked_spec e :
  start_blocked e <->
  match Background.task_tabs e with
  | Background.query_throws => True
  | Background.query_tabs tabs =>
      match Background.on_internal_page tabs with
      | Some _ => Background.task_navigate_ok e = false
      | None => False
      end
  end.
Proof.
  unfold start_blocked, Background.on_internal_page.
  destruct (Background.task_tabs e) as [|[|t rest]].
  - tauto.
  - split; [intros [[=]|(t & r & [=] & _)]|contradiction].
  - destruct (has_url t) eqn:Eu; cbn [andb].
    + destruct (isValidUrl (url_of t)) eqn:Ev; cbn [negb].
      * split; [|contradiction].
        intros [[=]|(t' & r & [= <- <-] & _ & Hv & _)]. congruence.
      * split.
        -- intros [[=]|(t' & r & [= <- <-] & _ & _ & Hn)]. exact Hn.
        -- intros Hn. right. exists t, rest. auto.
    + split; [|contradiction].
      intros [[=]|(t' & r & [= <- <-] & Hu & _)]. congruence.
Qed.

(** C2 (as amended).  The interval-based coordinator answers a start request
    with the identifier of an existing session whose status is [active] (and
    whose identifier is not empty), leaving the state as it is and calling
    the server not at all; otherwise it posts one creation request and, when
    the server answers, records and persists a session with [status = active]
    and [isPaused = false].  The loop-based coordinator never joins.  When
    its query for the active tab fails, or that tab shows an internal page
    and the navigation away from it fails, it stops monitoring with status
    [error], answers the failure and posts nothing.  Otherwise it posts
    exactly one creation request, after stopping any existing session, and
    records and persists such a session when the answer has status 200; on
    any other answer no session is left. *)
Theorem start_task_behaviour
    (task : string) (e : Background.StartTaskEnv)
    (srv : Background.CreateOutcome) (b : Bg) :
  (forall s, Legacy.joinable b = Some s <->
             activeSession b = Some s /\ status s = active /\
             taskId s <> "") /\
  match Legacy.joinable b with
  | Some s => Legacy.handleStartTask task srv b
              = (Background.resp_task_id (taskId s), b)
  | None =>
      let '(resp, b') := Legacy.handleStartTask task srv b in
      createCalls b' = createCalls b ++ [task] /\
      match srv with
      | Background.create_response _ id =>
          resp = Background.resp_task_id id /\
          activeSession b' = Some (new_session id) /\
          storage b' !! "activeSession" = Some (Session_json (new_session id))
      | Background.create_throws =>
          resp = Background.resp_error "Failed to create task" /\
          activeSession b' = activeSession b
      end
  end /\
  let '(resp, b') := Background.handleStartTask task e b in
  (start_blocked e ->
   resp = Background.resp_error "Failed to create task" /\
   createCalls b' = createCalls b /\
   broadcasts b' = broadcasts b ++ [stopMonitoringMsg ts_error] /\
   activeSession b' = None /\
   storage b' !! "activeSession" = None /\
   prop "status" (storage b' !! "taskState") = Some (JStr "error")) /\
  (~ start_blocked e ->
   createCalls b' = createCalls b ++ [task] /\
   broadcasts b' =
     broadcasts b
     ++ match activeSession b with
        | Some _ => [stopMonitoringMsg ts_idle]
        | None => []
        end
     ++ match Background.task_server e with
        | Background.create_throws => [stopMonitoringMsg ts_error]
        | Background.create_response _ _ => []
        end /\
   match Background.task_server e with
   | Background.create_response code id =>
       if code =? 200 then
         resp = Background.resp_task_id id /\
         activeSession b' = Some (new_session id) /\
         storage b' !! "activeSession" = Some (Session_json (new_session id))
       else
         resp = Background.resp_error "Failed to create task" /\
         activeSession b' = None
   | Background.create_throws =>
       resp = Background.resp_error "Failed to create task" /\
       activeSession b' = None
   end).
Proof.
  split; [intros s; apply joinable_spec|].
  split.
  - unfold Legacy.handleStartTask.
    destruct (Legacy.joinable b) as [s|]; [reflexivity|].
    destruct srv as [|code id]; simpl; repeat split.
    apply lookup_insert_eq.
  - assert (Hcaught : forall x, createCalls x = createCalls b ->
      let '(resp, b') := Background.start_caught e x in
      resp = Background.resp_error "Failed to create task" /\
      createCalls b' = createCalls b /\
      broadcasts b' = broadcasts x ++ [stopMonitoringMsg ts_error] /\
      activeSession b' = None /\
      storage b' !! "activeSession" = None /\
      prop "status" (storage b' !! "taskState") = Some (JStr "error")).
    { intros x Hx. unfold Background.start_caught. split; [reflexivity|].
      split; [now rewrite stop_createCalls|].
      split; [apply stop_broadcasts|].
      split; [apply stop_memory|].
      split; [now rewrite stop_storage_lookup|].
      apply (stop_status_lookup ts_error). }
    assert (Hgo : forall x, createCalls x = createCalls b ->
      let '(resp, b') := Background.create_session task e x in
      createCalls b' = createCalls b ++ [task] /\
      broadcasts b' =
        broadcasts x
        ++ match activeSession x with
           | Some _ => [stopMonitoringMsg ts_idle]
           | None => []
           end
        ++ match Background.task_server e with
           | Background.create_throws => [stopMonitoringMsg ts_error]
           | Background.create_response _ _ => []
           end /\
      match Background.task_server e with
      | Background.create_response code id =>
          if code =? 200 then
            resp = Background.resp_task_id id /\
            activeSession b' = Some (new_session id) /\
            storage b' !! "activeSession"
              = Some (Session_json (new_session id))
          else
            resp = Background.resp_error "Failed to create task" /\
            activeSession b' = None
      | Background.create_throws =>
          resp = Background.resp_error "Failed to create task" /\
          activeSession b' = None
      end).
    { intros x Hx. unfold Background.create_session, Background.start_caught.
      set (b2 := match activeSession x with Some _ => _ | None => x end).
      assert (Hc2 : createCalls b2 = createCalls b).
      { subst b2. destruct (activeSession x); [|exact Hx].
        now rewrite stop_createCalls. }
      assert (Hs2 : activeSession b2 = None).
      { subst b2. destruct (activeSession x) eqn:E; [|exact E].
        apply stop_memory. }
      assert (Hb2 : broadcasts b2 =
                    broadcasts x
                    ++ match activeSession x with
                       | Some _ => [stopMonitoringMsg ts_idle]
                       | None => []
                       end).
      { subst b2. destruct (activeSession x);
          [apply stop_broadcasts|now rewrite app_nil_r]. }
      destruct (Background.task_server e) as [|code id].
      + split; [rewrite stop_createCalls; simpl; now rewrite Hc2|].
        split.
        { rewrite stop_broadcasts.
          change (broadcasts (post_create task b2)) with (broadcasts b2).
          now rewrite Hb2, <- app_assoc. }
        split; [reflexivity|apply stop_memory].
      + assert (Hb3 : broadcasts b2 =
                      broadcasts x
                      ++ match activeSession x with
                         | Some _ => [stopMonitoringMsg ts_idle]
                         | None => []
                         end ++ [])
          by now rewrite app_nil_r.
        destruct (code =? 200) eqn:E; simpl.
        * split; [now rewrite Hc2|]. split; [exact Hb3|].
          repeat split. apply lookup_insert_eq.
        * split; [now rewrite Hc2|]. split; [exact Hb3|].
          split; [reflexivity|exact Hs2]. }
    pose proof (start_blocked_spec e) as Hb.
    unfold Background.handleStartTask.
    destruct (Background.task_tabs e) as [|tabs].
    { specialize (Hcaught b eq_refl).
      destruct (Background.start_caught e b) as [resp b'].
      split; [intros _; exact Hcaught|]. intros Hn. tauto. }
    destruct (Background.on_internal_page tabs) as [t|].
    + destruct (Background.task_navigate_ok e).
      * specialize (Hgo (navigate (id_of t) "https://www.google.com" b)
                        eq_refl).
        destruct (Background.create_session _ _ _) as [resp b'].
        split; [intros H; apply Hb in H; discriminate|]. intros _. exact Hgo.
      * specialize (Hcaught b eq_refl).
        destruct (Background.start_caught e b) as [resp b'].
        split; [intros _; exact Hcaught|]. intros Hn. tauto.
    + specialize (Hgo b eq_refl).
      destruct (Background.create_session task e b) as [resp b'].
      split; [intros H; apply Hb in H; contradiction|]. intros _. exact Hgo.
Qed.

(** C2, counterexample: the loop-based coordinator, asked to start while the
    session [t1] is active, posts a second creation request and answers with
    the new identifier [t2]. *)
Lemma start_replaces_active_session :
  let '(resp, b') :=
    Background.handleStartTask "find the login button"
      (start_env (Background.create_response 200 "t2")) running_t1 in
  Background.session_active running_t1 = true /\
  taskId <$> activeSession running_t1 = Some "t1" /\
  resp = Background.resp_task_id "t2" /\
  createCalls b' = createCalls running_t1 ++ ["find the login button"] /\
  taskId <$> activeSession b' = Some "t2".
Proof. vm_compute. repeat split. Qed.

(** ** Content Bridge *)

Section SendLoop.
Import Background.

Lemma final_response_false r :
  final_response r = false <->
  success r = false /\
  exists msg, response_error r = Some msg /\
              includes msg "back/forward cache" = true.
Proof.
  unfold final_response. rewrite orb_false_iff, negb_false_iff.
  destruct (response_error r) as [msg|]; split.
  - intros [? ?]. eauto.
  - intros [? (m & [= <-] & ?)]. auto.
  - intros [_ ?]. discriminate.
  - intros [_ (m & [=] & _)].
Qed.

Lemma attempt_resolved_counts e x :
  fst (attemptSend e) = attempt_resolved x ->
  attempts_made (snd (attemptSend e)) = 1%nat /\
  pings_made (snd (attemptSend e)) = 1%nat /\
  backoffs (snd (attemptSend e)) = [].
Proof.
  unfold attemptSend.
  destruct (ping_ok e); [|destruct (inject_ok e)]; simpl;
    intros H; try discriminate; repeat split.
Qed.

Lemma attempt_threw_counts e :
  fst (attemptSend e) = attempt_threw ->
  attempts_made (snd (attemptSend e)) = 0%nat /\
  pings_made (snd (attemptSend e)) = 1%nat /\
  backoffs (snd (attemptSend e)) = [].
Proof.
  unfold attemptSend.
  destruct (ping_ok e); [|destruct (inject_ok e)]; simpl;
    destruct (delivery e); intros H; try discriminate; repeat split.
Qed.

Lemma attempts_made_app a b :
  attempts_made (a ++ b) = (attempts_made a + attempts_made b)%nat.
Proof. unfold attempts_made. now rewrite List.filter_app, length_app. Qed.

Lemma pings_made_app a b :
  pings_made (a ++ b) = (pings_made a + pings_made b)%nat.
Proof. unfold pings_made. now rewrite List.filter_app, length_app. Qed.

Lemma backoffs_app a b : backoffs (a ++ b) = backoffs a ++ backoffs b.
Proof. unfold backoffs. apply omap_app. Qed.

(** After [k] stale attempts the loop is where it would be had it started
    with [retryCount + k], having delivered [k] times and slept the
    linearly growing delays in between. *)
Lemma send_loop_stale_prefix (page : nat -> AttemptEnv) (maxRetries : nat) :
  forall (k left retryCount : nat),
    (k <= left)%nat ->
    (retryCount + left = maxRetries)%nat ->
    (forall i, (i < k)%nat -> stale (page (retryCount + i)%nat)) ->
    let rest := send_loop (left - k) (retryCount + k) maxRetries page in
    let all := send_loop left retryCount maxRetries page in
    fst all = fst rest /\
    attempts_made (snd all) = (k + attempts_made (snd rest))%nat /\
    pings_made (snd all) = (k + pings_made (snd rest))%nat /\
    backoffs (snd all) =
      linear_delays (S retryCount) (Nat.min k (left - 1))
      ++ backoffs (snd rest).
Proof.
  induction k as [|k IH]; intros left rc Hk Hmax Hst; cbv zeta.
  - rewrite Nat.sub_0_r, Nat.add_0_r. simpl. auto.
  - destruct left as [|left]; [lia|].
    destruct (Hst 0%nat ltac:(lia)) as (r & msg & Hr & Hs & He & Hi).
    rewrite Nat.add_0_r in Hr.
    assert (Hf : final_response r = false).
    { apply final_response_false. eauto. }
    destruct (attempt_resolved_counts _ _ Hr) as (Ha & Hp & Hb).
    specialize (IH left (S rc) ltac:(lia) ltac:(lia)).
    cbv zeta in IH.
    assert (Hst' : forall i, (i < k)%nat -> stale (page (S rc + i)%nat)).
    { intros i Hi'. replace (S rc + i)%nat with (rc + S i)%nat by lia.
      apply Hst. lia. }
    specialize (IH Hst').
    replace (S rc + k)%nat with (rc + S k)%nat in IH by lia.
    replace (S left - S k)%nat with (left - k)%nat by lia.
    destruct IH as (IH1 & IH2 & IH3 & IH4).
    destruct (attemptSend (page rc)) as [a tr] eqn:Ea. simpl in Hr.
    subst a. simpl in Ha, Hp, Hb.
    destruct (send_loop left (S rc) maxRetries page) as [res tr'] eqn:El.
    simpl in IH1, IH2, IH3, IH4.
    assert (Hall : send_loop (S left) rc maxRetries page =
                   (res, tr ++ (if (S rc <? maxRetries)%nat
                                then [backoff (1000 * Z.of_nat (S rc))]
                                else []) ++ tr')).
    { simpl. now rewrite Ea, Hf, El. }
    rewrite Hall. simpl fst. simpl snd.
    rewrite !attempts_made_app, !pings_made_app, !backoffs_app.
    rewrite Ha, Hp, Hb, IH2, IH3, IH4.
    split; [exact IH1|].
    destruct (S rc <? maxRetries)%nat eqn:Elt.
    + apply Nat.ltb_lt in Elt.
      split; [simpl; lia|]. split; [simpl; lia|].
      replace (Nat.min (S k) (S left - 1)) with (S (Nat.min k (left - 1)))
        by lia.
      reflexivity.
    + apply Nat.ltb_ge in Elt. assert (left = 0)%nat by lia. subst left.
      assert (k = 0)%nat by lia. subst k.
      split; [simpl; lia|]. split; [simpl; lia|]. reflexivity.
Qed.

End SendLoop.

(** C6. [sendProcessMessage] repeats the whole probe-inject-deliver cycle
    only after an attempt whose failure reason contains the back/forward
    cache indication, sleeping [1000 * retryCount] milliseconds in between;
    when the first [k] attempts are of that kind, then: with [k = 10] it
    fails (throws) after exactly 10 attempts; with [k < 10], whatever the
    next attempt yields that is not such a failure (a success, a failure
    with another or no reason, no reply, a failed injection) ends the call
    at once, without another attempt. *)
Theorem sendProcessMessage_retries_only_bfcache
    (page : nat -> Background.AttemptEnv) (k : nat) :
  (k <= 10)%nat ->
  (forall i, (i < k)%nat -> stale (page i)) ->
  let res := fst (Background.sendProcessMessage page) in
  let tr := snd (Background.sendProcessMessage page) in
  let next := fst (Background.attemptSend (page k)) in
  (k = 10%nat ->
     res = Background.send_threw Background.retries_exhausted /\
     Background.attempts_made tr = 10%nat /\
     Background.pings_made tr = 10%nat /\
     Background.backoffs tr =
       [1000; 2000; 3000; 4000; 5000; 6000; 7000; 8000; 9000]) /\
  ((k < 10)%nat ->
     forall r, next = Background.attempt_resolved (Some r) ->
       (Background.success r = true \/
        Background.response_error r = None \/
        exists msg, Background.response_error r = Some msg /\
                    includes msg "back/forward cache" = false) ->
       res = Background.send_returned r /\
       Background.attempts_made tr = S k /\
       Background.pings_made tr = S k /\
       Background.backoffs tr = linear_delays 1 k) /\
  ((k < 10)%nat -> next = Background.attempt_threw ->
     res = Background.send_threw Background.inject_failed /\
     Background.attempts_made tr = k /\
     Background.backoffs tr = linear_delays 1 k) /\
  ((k < 10)%nat -> next = Background.attempt_resolved None ->
     res = Background.send_threw Background.no_response /\
     Background.attempts_made tr = S k /\
     Background.backoffs tr = linear_delays 1 k).
Proof.
  intros Hk Hst. cbv zeta.
  unfold Background.sendProcessMessage, Background.sendProcessMessage_with.
  destruct (send_loop_stale_prefix page 10 k 10 0 Hk eq_refl Hst)
    as (H1 & H2 & H3 & H4).
  rewrite H1, H2, H3, H4. clear H1 H2 H3 H4. simpl (0 + k)%nat.
  split; [|split; [|split]].
  - intros ->. simpl. repeat split.
  - intros Hlt r Hr Hfin.
    destruct (10 - k)%nat as [|j] eqn:Ej; [lia|].
    replace (Nat.min k (10 - 1)) with k by lia.
    assert (Hf : Background.final_response r = true).
    { destruct (Background.final_response r) eqn:E; [reflexivity|].
      apply final_response_false in E as (Hs & msg & He & Hi).
      destruct Hfin as [?|[?|(m & Hm & Hn)]]; congruence. }
    destruct (attempt_resolved_counts _ _ Hr) as (Ha & Hp & Hb).
    simpl Background.send_loop.
    destruct (Background.attemptSend (page k)) as [a tr0]. simpl in *.
    subst a. rewrite Hf. simpl.
    rewrite Ha, Hp, Hb, app_nil_r. repeat split; lia.
  - intros Hlt Hr.
    destruct (10 - k)%nat as [|j] eqn:Ej; [lia|].
    replace (Nat.min k (10 - 1)) with k by lia.
    destruct (attempt_threw_counts _ Hr) as (Ha & Hp & Hb).
    simpl Background.send_loop.
    destruct (Background.attemptSend (page k)) as [a tr0]. simpl in *.
    subst a. simpl. rewrite Ha, Hb, app_nil_r. repeat split; lia.
  - intros Hlt Hr.
    destruct (10 - k)%nat as [|j] eqn:Ej; [lia|].
    replace (Nat.min k (10 - 1)) with k by lia.
    destruct (attempt_resolved_counts _ _ Hr) as (Ha & Hp & Hb).
    simpl Background.send_loop.
    destruct (Background.attemptSend (page k)) as [a tr0]. simpl in *.
    subst a. simpl. rewrite Ha, Hb, app_nil_r. repeat split; lia.
Qed.

Lemma bfcache_page_stale i : stale (bfcache_page i).
Proof.
  unfold stale. eexists _, _. vm_compute. repeat split.
Defined.

(** C6, witness: a page that always reports the back/forward-cache failure
    makes the call fail after exactly ten attempts; a page that cannot be
    reached for another reason gets one attempt. *)
Lemma sendProcessMessage_retries_witness :
  (fst (Background.sendProcessMessage bfcache_page)
     = Background.send_threw Background.retries_exhausted /\
   Background.attempts_made (snd (Background.sendProcessMessage bfcache_page))
     = 10%nat) /\
  (exists r,
     fst (Background.sendProcessMessage unreachable_page)
       = Background.send_returned r /\
     Background.success r = false) /\
  Background.attempts_made
    (snd (Background.sendProcessMessage unreachable_page)) = 1%nat.
Proof.
  destruct (sendProcessMessage_retries_only_bfcache bfcache_page 10
              (le_n 10) (fun i _ => bfcache_page_stale i)) as (H & _).
  destruct (H eq_refl) as (H1 & H2 & _).
  destruct (sendProcessMessage_retries_only_bfcache unreachable_page 0
              ltac:(lia) ltac:(intros i Hi; lia)) as (_ & H' & _).
  destruct (H' ltac:(lia) _ eq_refl) as (H3 & H4 & _).
  { right. right. eexists. split; [reflexivity|]. vm_compute. reflexivity. }
  repeat split; try assumption.
  eexists. split; [exact H3|reflexivity].
Defined.

(** ** Tab Locator *)

Lemma try_active_tab_spec q t :
  Background.try_active_tab q = Some t <->
  (exists rest, q = Background.query_tabs (t :: rest)) /\
  has_id t = true /\ has_url t = true /\
  (tab_status t = Some "complete" \/ tab_status t = Some "loading").
Proof.
  unfold Background.try_active_tab, Background.status_ready.
  destruct q as [|[|t' rest]].
  - split; [discriminate|]. intros [[? [=]] _].
  - split; [discriminate|]. intros [[? [=]] _].
  - destruct (has_id t') eqn:Ei, (has_url t') eqn:Eu; simpl;
      try (split; [discriminate|]; intros [[? [= <- _]] (? & ? & _)];
           congruence).
    destruct (tab_status t') as [s|] eqn:Es.
    + destruct (String.eqb s "complete") eqn:E1; simpl.
      * apply String.eqb_eq in E1. subst s. split.
        -- intros [= <-]. rewrite Es. eauto 10.
        -- intros [[? [= <- _]] _]. reflexivity.
      * destruct (String.eqb s "loading") eqn:E2.
        -- apply String.eqb_eq in E2. subst s. split.
           ++ intros [= <-]. rewrite Es. eauto 10.
           ++ intros [[? [= <- _]] _]. reflexivity.
        -- apply String.eqb_neq in E1, E2. split; [discriminate|].
           intros [[? [= <- _]] (_ & _ & [H'|H'])]; congruence.
    + split; [discriminate|].
      intros [[? [= <- _]] (_ & _ & [H'|H'])]; congruence.
Qed.

Lemma fallback_active_spec l t :
  Background.fallback_active l = Some t <->
  head (filter (fun t => tab_active t = true) l) = Some t /\
  has_id t = true /\ has_url t = true.
Proof.
  unfold Background.fallback_active.
  destruct (filter _ l) as [|t' ?]; simpl.
  - split; [discriminate|]. intros [[=] _].
  - destruct (has_id t') eqn:Ei, (has_url t') eqn:Eu; simpl; split;
      try discriminate; try (intros [[= <-] (? & ?)]; congruence).
    intros [= <-]. auto.
Qed.

Lemma fallback_any_Some l t :
  Background.fallback_any l = Some t ->
  t ∈ l /\ has_id t = true /\ has_url t = true /\
  startsWith (url_of t) "chrome://" = false.
Proof.
  unfold Background.fallback_any. intros H.
  apply head_Some_elem_of in H. apply list_elem_of_filter in H as [H ?].
  split; [assumption|].
  rewrite !andb_true_iff, negb_true_iff in H. tauto.
Qed.

Lemma fallback_any_None l :
  Background.fallback_any l = None <->
  forall t, t ∈ l ->
    has_id t && has_url t && negb (startsWith (url_of t) "chrome://") = false.
Proof.
  unfold Background.fallback_any. rewrite head_None. split.
  - intros H t Ht.
    destruct (has_id t && has_url t && _) eqn:E; [|reflexivity].
    assert (Hin : t ∈ filter (fun t => has_id t && has_url t
                     && negb (Background.startsWith_chrome t) = true) l).
    { apply list_elem_of_filter. split; assumption. }
    rewrite H in Hin. now apply elem_of_nil in Hin.
  - intros H.
    destruct (filter _ l) as [|t r] eqn:E; [reflexivity|exfalso].
    assert (Hin : t ∈ filter (fun t => has_id t && has_url t
                     && negb (Background.startsWith_chrome t) = true) l).
    { rewrite E. apply elem_of_cons. now left. }
    apply list_elem_of_filter in Hin as [Hp Hl]. specialize (H t Hl).
    unfold Background.startsWith_chrome in Hp. congruence.
Qed.

Lemma five_cases (P : nat -> Prop) :
  P 1%nat -> P 2%nat -> P 3%nat -> P 4%nat -> P 5%nat ->
  forall i, (1 <= i <= 5)%nat -> P i.
Proof.
  intros H1 H2 H3 H4 H5 i Hi.
  assert (i = 1 \/ i = 2 \/ i = 3 \/ i = 4 \/ i = 5)%nat as Hc by lia.
  decompose [or] Hc; subst; assumption.
Qed.

(** The run of [getValidTab] with its default arguments, by the attempt that
    succeeds or the fallback. *)
Lemma getValidTab_by_attempts
    (queries : nat -> Background.QueryOutcome)
    (all : Background.QueryOutcome) :
  let r := Background.getValidTab queries all in
  let n := Background.queries_made r in
  (1 <= n <= 5)%nat /\
  Background.delays r = take (n - 1) tab_delays /\
  (forall i, (1 <= i < n)%nat -> attempt_fails queries i) /\
  (Background.used_fallback r = false ->
     Background.resolved r = Background.try_active_tab (queries n) /\
     Background.resolved r <> None) /\
  (Background.used_fallback r = true <->
     forall i, (1 <= i <= 5)%nat -> attempt_fails queries i) /\
  (Background.used_fallback r = true ->
     n = 5%nat /\
     Background.resolved r =
       match all with
       | Background.query_throws => None
       | Background.query_tabs tabs =>
           match Background.fallback_active tabs with
           | Some t => Some t
           | None => Background.fallback_any tabs
           end
       end) /\
  (Background.resolved r = None <->
     (forall i, (1 <= i <= 5)%nat -> attempt_fails queries i) /\
     Background.tab_fallback all = None).
Proof.
  cbv zeta. unfold attempt_fails.
  unfold Background.getValidTab, Background.getValidTab_with.
  cbn [Background.tab_attempts Nat.ltb Nat.leb].
  destruct (Background.try_active_tab (queries 1%nat)) as [t1|] eqn:E1.
  { cbn. repeat split; try lia; try congruence; try discriminate.
    - intros H. specialize (H 1%nat ltac:(lia)). congruence.
    - intros [H _]. specialize (H 1%nat ltac:(lia)). congruence. }
  destruct (Background.try_active_tab (queries 2%nat)) as [t2|] eqn:E2.
  { cbn. repeat split; try lia; try congruence; try discriminate.
    - intros i Hi. assert (i = 1)%nat by lia. now subst.
    - intros H. specialize (H 2%nat ltac:(lia)). congruence.
    - intros [H _]. specialize (H 2%nat ltac:(lia)). congruence. }
  destruct (Background.try_active_tab (queries 3%nat)) as [t3|] eqn:E3.
  { cbn. repeat split; try lia; try congruence; try discriminate.
    - intros i Hi. assert (i = 1 \/ i = 2)%nat as [-> | ->] by lia; assumption.
    - intros H. specialize (H 3%nat ltac:(lia)). congruence.
    - intros [H _]. specialize (H 3%nat ltac:(lia)). congruence. }
  destruct (Background.try_active_tab (queries 4%nat)) as [t4|] eqn:E4.
  { cbn. repeat split; try lia; try congruence; try discriminate.
    - intros i Hi.
      assert (i = 1 \/ i = 2 \/ i = 3)%nat as [-> | [-> | ->]] by lia;
        assumption.
    - intros H. specialize (H 4%nat ltac:(lia)). congruence.
    - intros [H _]. specialize (H 4%nat ltac:(lia)). congruence. }
  destruct (Background.try_active_tab (queries 5%nat)) as [t5|] eqn:E5.
  { cbn. repeat split; try lia; try congruence; try discriminate.
    - intros i Hi.
      assert (i = 1 \/ i = 2 \/ i = 3 \/ i = 4)%nat
        as [-> | [-> | [-> | ->]]] by lia; assumption.
    - intros H. specialize (H 5%nat ltac:(lia)). congruence.
    - intros [H _]. specialize (H 5%nat ltac:(lia)). congruence. }
  assert (Hall : forall i, (1 <= i <= 5)%nat ->
                   Background.try_active_tab (queries i) = None).
  { apply five_cases; assumption. }
  cbn. repeat split; try lia; try congruence; try discriminate; auto.
  - intros i Hi. apply Hall. lia.
  - intros [_ H]. exact H.
Qed.

Lemma head_filter_first_such (p : Tab -> bool) l t :
  head (filter (fun x => p x = true) l) = Some t <-> first_such p l t.
Proof.
  unfold first_such. induction l as [|a l IH].
  - split; [discriminate|]. intros (pre & post & H & _). now destruct pre.
  - rewrite filter_cons. destruct (decide (p a = true)) as [Ha|Ha].
    + cbn [head]. split.
      * intros [= <-]. exists [], l. repeat split; [exact Ha|constructor].
      * intros (pre & post & H & Ht & Hpre). destruct pre as [|x pre].
        -- now injection H as ->.
        -- injection H as Hx _. subst x. inversion Hpre; congruence.
    + apply not_true_is_false in Ha. rewrite IH. split.
      * intros (pre & post & -> & Ht & Hpre). exists (a :: pre), post.
        repeat split; [exact Ht|now constructor].
      * intros (pre & post & H & Ht & Hpre). destruct pre as [|x pre].
        -- injection H as Hx _. congruence.
        -- injection H as Hx Hl. inversion Hpre; subst. eauto.
Qed.

Lemma head_filter_none (p : Tab -> bool) l :
  head (filter (fun x => p x = true) l) = None <->
  forall x, x ∈ l -> p x = false.
Proof.
  rewrite head_None. split.
  - intros H x Hx. destruct (p x) eqn:E; [|reflexivity].
    assert (Hin : x ∈ filter (fun x => p x = true) l)
      by (apply list_elem_of_filter; split; assumption).
    rewrite H in Hin. now apply elem_of_nil in Hin.
  - intros H. destruct (filter _ l) as [|x r] eqn:E; [reflexivity|exfalso].
    assert (Hin : x ∈ filter (fun x => p x = true) l)
      by (rewrite E; apply elem_of_cons; now left).
    apply list_elem_of_filter in Hin as [Hp Hl]. specialize (H x Hl).
    congruence.
Qed.

Lemma fallback_active_first l t :
  Background.fallback_active l = Some t <->
  first_such tab_active l t /\ addressable t = true.
Proof.
  rewrite fallback_active_spec, <- head_filter_first_such.
  unfold addressable. rewrite andb_true_iff. tauto.
Qed.

Lemma fallback_active_none l :
  Background.fallback_active l = None <->
  forall a, first_such tab_active l a -> addressable a = false.
Proof.
  split.
  - intros H a Ha. destruct (addressable a) eqn:E; [|reflexivity].
    assert (Background.fallback_active l = Some a)
      by (apply fallback_active_first; auto).
    congruence.
  - intros H. destruct (Background.fallback_active l) as [t|] eqn:E;
      [|reflexivity].
    apply fallback_active_first in E as [Hf Ha].
    specialize (H t Hf). congruence.
Qed.

Lemma fallback_any_first l t :
  Background.fallback_any l = Some t <-> first_such outside_chrome l t.
Proof.
  unfold Background.fallback_any.
  exact (head_filter_first_such outside_chrome l t).
Qed.

Lemma fallback_any_outside l :
  Background.fallback_any l = None <->
  forall x, x ∈ l -> outside_chrome x = false.
Proof.
  unfold Background.fallback_any.
  exact (head_filter_none outside_chrome l).
Qed.

Lemma tab_fallback_yields l t :
  Background.tab_fallback (Background.query_tabs l) = Some t <->
  fallback_yields l t.
Proof.
  unfold fallback_yields. cbn [Background.tab_fallback].
  destruct (Background.fallback_active l) as [a|] eqn:E.
  - apply fallback_active_first in E as [Hf Ha]. split.
    + intros [= <-]. left. auto.
    + intros [[Hf' _]|[Hn _]].
      * apply head_filter_first_such in Hf, Hf'. congruence.
      * specialize (Hn a Hf). congruence.
  - rewrite fallback_any_first.
    pose proof (proj1 (fallback_active_none l) E) as Hn. split.
    + intros H. right. auto.
    + intros [[Hf Ha]|[_ H]]; [|exact H].
      specialize (Hn t Hf). congruence.
Qed.

Lemma attempt_fails_ready queries i :
  attempt_fails queries i <-> forall x, ~ ready_answer (queries i) x.
Proof.
  unfold attempt_fails, ready_answer. split.
  - intros H x Hx. apply try_active_tab_spec in Hx. congruence.
  - intros H. destruct (Background.try_active_tab (queries i)) as [t|] eqn:E;
      [|reflexivity].
    apply try_active_tab_spec in E. now apply H in E.
Qed.

(** C7 (as amended).  [getValidTab] queries the active tab of the current
    window at most 5 times, sleeping 1000, 1500, 2250 and 3375 milliseconds
    between the attempts, and returns the first tab of the first answer
    whose first tab has an id, a URL and the status [complete] or
    [loading].  Only when all five attempts fail does it query all open tabs
    once: it returns the first tab flagged active if that tab has an id and
    a URL; otherwise the first tab, active or not, that has an id and a URL
    not starting with [chrome://].  It returns [null] exactly when the five
    attempts fail and that query throws or yields no such tab. *)
Theorem getValidTab_three_tiers
    (queries : nat -> Background.QueryOutcome)
    (all : Background.QueryOutcome) :
  let r := Background.getValidTab queries all in
  let n := Background.queries_made r in
  (1 <= n <= 5)%nat /\
  Background.delays r = take (n - 1) tab_delays /\
  (forall i x, (1 <= i < n)%nat -> ~ ready_answer (queries i) x) /\
  (Background.used_fallback r = false ->
     exists t, Background.resolved r = Some t /\
               ready_answer (queries n) t) /\
  (Background.used_fallback r = true <->
     forall i x, (1 <= i <= 5)%nat -> ~ ready_answer (queries i) x) /\
  (Background.used_fallback r = true ->
     n = 5%nat /\
     forall t, Background.resolved r = Some t <->
       exists l, all = Background.query_tabs l /\ fallback_yields l t) /\
  (Background.resolved r = None <->
     (forall i x, (1 <= i <= 5)%nat -> ~ ready_answer (queries i) x) /\
     forall l, all = Background.query_tabs l ->
       (forall a, first_such tab_active l a -> addressable a = false) /\
       (forall x, x ∈ l -> outside_chrome x = false)).
Proof.
  cbv zeta.
  destruct (getValidTab_by_attempts queries all)
    as (Hn & Hd & Hbefore & Hfound & Hfb & Hfall & Hnone).
  set (r := Background.getValidTab queries all) in *.
  assert (Hall : (forall i, (1 <= i <= 5)%nat -> attempt_fails queries i) <->
                 (forall i x, (1 <= i <= 5)%nat ->
                    ~ ready_answer (queries i) x)).
  { split.
    - intros H i x Hi. now apply attempt_fails_ready, H.
    - intros H i Hi. apply attempt_fails_ready. intros x. now apply H. }
  split; [exact Hn|]. split; [exact Hd|]. split.
  { intros i x Hi. now apply attempt_fails_ready, Hbefore. }
  split.
  { intros Hu. destruct (Hfound Hu) as [Hr Hne].
    destruct (Background.resolved r) as [t|] eqn:Et; [|contradiction].
    exists t. split; [reflexivity|].
    symmetry in Hr. now apply try_active_tab_spec in Hr. }
  split; [now rewrite Hfb|]. split.
  { intros Hu. destruct (Hfall Hu) as [H5 Hr]. split; [exact H5|].
    intros t. rewrite Hr. destruct all as [|l].
    - split; [discriminate|]. intros (l & [=] & _).
    - change (match Background.fallback_active l with
              | Some t0 => Some t0
              | None => Background.fallback_any l
              end) with (Background.tab_fallback (Background.query_tabs l)).
      rewrite tab_fallback_yields. split.
      + intros H. exists l. auto.
      + intros (l' & [= <-] & H). exact H. }
  rewrite Hnone, Hall. apply and_iff_compat_l.
  destruct all as [|l].
  - split; [intros _ l [=]|reflexivity].
  - cbn [Background.tab_fallback]. split.
    + intros H l' [= <-].
      destruct (Background.fallback_active l) as [a|] eqn:E; [discriminate|].
      split; [now apply fallback_active_none|now apply fallback_any_outside].
    + intros H. destruct (H l eq_refl) as [Ha Ho].
      apply fallback_active_none in Ha. rewrite Ha.
      now apply fallback_any_outside.
Qed.

(** C7, counterexample: no attempt finds an active tab, and the open tabs
    are an active tab without a URL, an inactive tab on [edge://settings]
    and an active tab on a web page.  [getValidTab] returns the inactive
    internal page, although a tab flagged active with an id and a URL is
    open: the scan for an active tab stops at the first one, and the last
    tier excludes only [chrome://]. *)
Lemma getValidTab_returns_inactive_internal_tab :
  let r :=
    Background.getValidTab (fun _ => Background.query_tabs [])
      (Background.query_tabs [blank_active_tab; settings_tab; example_tab]) in
  Background.resolved r = Some settings_tab /\
  tab_active settings_tab = false /\
  isValidUrl (url_of settings_tab) = false /\
  tab_active example_tab = true /\
  addressable example_tab = true /\
  isValidUrl (url_of example_tab) = true.
Proof. vm_compute. repeat split. Qed.

(** ** The in-progress guard *)

Section Guard.
Import Background.

Lemma enter_guarded m : guarded m -> guarded (snd (iteration_enter m)).
Proof.
  intros G. unfold iteration_enter.
  destruct (negb (session_active (bg m))); [exact G|].
  destruct (isPaused (bg m)); [exact G|].
  destruct (isUpdateInProgress m) eqn:E; [exact G|].
  destruct G as [[? ?]|[_ G]]; [congruence|].
  left. simpl. rewrite G. auto.
Qed.

Lemma legacy_enter_guarded m :
  guarded m -> guarded (snd (Legacy.iteration_enter m)).
Proof.
  intros G. unfold Legacy.iteration_enter.
  destruct (isPaused (bg m)); [exact G|].
  destruct (isUpdateInProgress m) eqn:E; [exact G|].
  destruct G as [[? ?]|[_ G]]; [congruence|].
  left. simpl. rewrite G. auto.
Qed.

Lemma finish_flag e m :
  isUpdateInProgress (snd (iteration_finish e m)) = false /\
  in_flight (snd (iteration_finish e m)) = pred (in_flight m).
Proof.
  unfold iteration_finish. destruct (iteration_body e (bg m)). split; reflexivity.
Qed.

Lemma startMonitoring_guarded tid e b m :
  startMonitoring tid e b = inr m -> guarded m.
Proof.
  unfold startMonitoring.
  destruct (resolved _) as [t|]; [|discriminate].
  destruct (isValidUrl _); [|destruct (start_navigate_ok e)];
    intros [= <-]; right; auto.
Qed.

Lemma guarded_bound m :
  guarded m ->
  (in_flight m <= 1)%nat /\
  (isUpdateInProgress m = true <-> in_flight m = 1%nat).
Proof.
  intros [[-> ->]|[-> ->]]; split; try lia; split; congruence.
Qed.

End Guard.

Section ClosureGuard.
Import Background.

Lemma closure_guarded_monitor b c :
  closure_guarded c <-> guarded (Closures.monitor_of b c).
Proof. reflexivity. Qed.

Lemma guarded_closure m :
  guarded m <-> closure_guarded (Closures.closure_of m).
Proof. reflexivity. Qed.

Lemma put_guarded i m s :
  guarded m -> Forall closure_guarded (Closures.closures s) ->
  Forall closure_guarded (Closures.closures (Closures.put i m s)).
Proof.
  intros Hm Hs. cbn [Closures.put Closures.closures].
  apply Forall_insert; [exact Hs|now apply guarded_closure].
Qed.

Lemma finish_guarded e m n :
  guarded m -> in_flight m = S n -> guarded (snd (iteration_finish e m)).
Proof.
  intros G En. destruct (finish_flag e m) as [Hf Hn].
  destruct G as [[_ G]|[_ G]]; [|congruence].
  right. rewrite Hf, Hn, G. auto.
Qed.

Lemma legacy_finish_guarded e m n :
  guarded m -> in_flight m = S n -> guarded (Legacy.iteration_finish e m).
Proof.
  intros G En. destruct G as [[_ G]|[_ G]]; [|congruence].
  right. cbn. rewrite G. auto.
Qed.

Lemma system_step_guarded ev s s' :
  Forall closure_guarded (Closures.closures s) ->
  Closures.step ev s = Some s' ->
  Forall closure_guarded (Closures.closures s').
Proof.
  intros Hs. destruct ev as [tid e|i|i e|c]; cbn [Closures.step].
  - destruct (startMonitoring tid e (Closures.shared s)) as [b|m] eqn:E;
      intros [= <-]; [exact Hs|].
    cbn [Closures.closures]. apply Forall_app. split; [exact Hs|].
    constructor; [|constructor].
    apply guarded_closure. eapply startMonitoring_guarded; exact E.
  - destruct (Closures.closures s !! i) as [c|] eqn:Ec; [|discriminate].
    intros [= <-]. apply put_guarded; [|exact Hs].
    apply enter_guarded.
    apply (proj1 (closure_guarded_monitor (Closures.shared s) c)).
    exact (Forall_lookup_1 _ _ _ _ Hs Ec).
  - destruct (Closures.closures s !! i) as [c|] eqn:Ec; [|discriminate].
    destruct (Closures.c_running c) as [|n] eqn:En; [discriminate|].
    intros [= <-]. apply put_guarded; [|exact Hs].
    apply (finish_guarded _ _ n); [|exact En].
    apply (proj1 (closure_guarded_monitor (Closures.shared s) c)).
    exact (Forall_lookup_1 _ _ _ _ Hs Ec).
  - intros [= <-]. exact Hs.
Qed.

Lemma system_run_guarded evs :
  forall s s', Forall closure_guarded (Closures.closures s) ->
               Closures.run evs s = Some s' ->
               Forall closure_guarded (Closures.closures s').
Proof.
  induction evs as [|ev evs IH]; cbn [Closures.run]; intros s s' Hs.
  - now intros [= <-].
  - destruct (Closures.step ev s) as [s1|] eqn:E; [|discriminate].
    apply IH. eapply system_step_guarded; eassumption.
Qed.

Lemma legacy_system_step_guarded ev s s' :
  Forall closure_guarded (Closures.closures s) ->
  Closures.legacy_step ev s = Some s' ->
  Forall closure_guarded (Closures.closures s').
Proof.
  intros Hs. destruct ev as [tid|i|i e|now|now|now];
    cbn [Closures.legacy_step]; try (intros [= <-]; exact Hs).
  - intros [= <-]. cbn [Closures.closures]. apply Forall_app.
    split; [exact Hs|]. constructor; [|constructor].
    apply guarded_closure. unfold Legacy.startMonitoring.
    apply legacy_enter_guarded. right. auto.
  - destruct (Closures.closures s !! i) as [c|] eqn:Ec; [|discriminate].
    destruct (decide _); [|discriminate].
    destruct (_ && _); intros [= <-]; [|exact Hs].
    apply put_guarded; [|exact Hs].
    apply legacy_enter_guarded.
    apply (proj1 (closure_guarded_monitor (Closures.shared s) c)).
    exact (Forall_lookup_1 _ _ _ _ Hs Ec).
  - destruct (Closures.closures s !! i) as [c|] eqn:Ec; [|discriminate].
    destruct (Closures.c_running c) as [|n] eqn:En; [discriminate|].
    intros [= <-]. apply put_guarded; [|exact Hs].
    apply (legacy_finish_guarded _ _ n); [|exact En].
    apply (proj1 (closure_guarded_monitor (Closures.shared s) c)).
    exact (Forall_lookup_1 _ _ _ _ Hs Ec).
Qed.

Lemma legacy_system_run_guarded evs :
  forall s s', Forall closure_guarded (Closures.closures s) ->
               Closures.legacy_run evs s = Some s' ->
               Forall closure_guarded (Closures.closures s').
Proof.
  induction evs as [|ev evs IH]; cbn [Closures.legacy_run]; intros s s' Hs.
  - now intros [= <-].
  - destruct (Closures.legacy_step ev s) as [s1|] eqn:E; [|discriminate].
    apply IH. eapply legacy_system_step_guarded; eassumption.
Qed.

Lemma closure_guarded_bound c :
  closure_guarded c ->
  (Closures.c_running c <= 1)%nat /\
  (Closures.c_flag c = true <-> Closures.c_running c = 1%nat).
Proof.
  intros [[-> ->]|[-> ->]]; split; try lia; split; congruence.
Qed.

Lemma executing_bound tid s :
  Forall closure_guarded (Closures.closures s) ->
  (Closures.executing tid s <= length (closures_for tid s))%nat.
Proof.
  unfold Closures.executing, closures_for.
  induction 1 as [|c l Hc _ IH]; [reflexivity|].
  cbn [sum_list_with]. rewrite filter_cons.
  destruct (decide (Closures.c_task c = tid)) as [->|Hne].
  - rewrite String.eqb_refl. cbn [length].
    apply closure_guarded_bound in Hc. lia.
  - apply String.eqb_neq in Hne. rewrite Hne. exact IH.
Qed.

Lemma put_same i c s :
  Closures.closures s !! i = Some c ->
  Closures.put i (Closures.monitor_of (Closures.shared s) c) s = s.
Proof.
  intros H. unfold Closures.put. destruct s as [b l]. cbn in *.
  f_equal. destruct c. now apply list_insert_id.
Qed.

End ClosureGuard.

(** C1 (as amended).  Whatever the order of [startMonitoring] messages,
    triggers, completions and commands, each call of [startMonitoring] has
    at most one of its iteration bodies between start and exit, and its
    in-progress flag is set exactly while one is; so the iterations
    executing for a task are never more than the calls made for it.  A call
    of [processOneIteration] that finds the flag of its closure set returns
    without changing anything, a body starts only from a call that found
    the flag clear, and the flag is clear after the body on each of its exit
    paths.  This holds for the loop-based and for the interval-based
    coordinator. *)
Theorem at_most_one_iteration_in_flight
    (b : Bg) (evs : list Closures.Event) (levs : list Closures.LegacyEvent)
    (s sl : Closures.System) :
  Closures.run evs (Closures.idle b) = Some s ->
  Closures.legacy_run levs (Closures.idle b) = Some sl ->
  (forall c, c ∈ Closures.closures s \/ c ∈ Closures.closures sl ->
     (Closures.c_running c <= 1)%nat /\
     (Closures.c_flag c = true <-> Closures.c_running c = 1%nat)) /\
  (forall tid,
     (Closures.executing tid s <= length (closures_for tid s))%nat /\
     (Closures.executing tid sl <= length (closures_for tid sl))%nat) /\
  (forall i c,
     Closures.c_flag c = true ->
     (Closures.closures s !! i = Some c ->
      Closures.step (Closures.trigger i) s = Some s) /\
     (Closures.closures sl !! i = Some c ->
      forall sl', Closures.legacy_step (Closures.legacy_tick i) sl = Some sl' ->
                  sl' = sl)) /\
  (forall x, Background.isUpdateInProgress x = true ->
     snd (Background.iteration_enter x) = x /\
     fst (Background.iteration_enter x) <> Background.entry_started /\
     snd (Legacy.iteration_enter x) = x /\
     fst (Legacy.iteration_enter x) <> Background.entry_started) /\
  (forall x,
     (fst (Background.iteration_enter x) = Background.entry_started ->
      Background.isUpdateInProgress x = false) /\
     (fst (Legacy.iteration_enter x) = Background.entry_started ->
      Background.isUpdateInProgress x = false)) /\
  (forall x env lenv,
     Background.isUpdateInProgress
       (snd (Background.iteration_finish env x)) = false /\
     Background.isUpdateInProgress (Legacy.iteration_finish lenv x) = false).
Proof.
  intros Hrun Hlrun.
  assert (Hs : Forall closure_guarded (Closures.closures s))
    by (eapply system_run_guarded; [|exact Hrun]; constructor).
  assert (Hsl : Forall closure_guarded (Closures.closures sl))
    by (eapply legacy_system_run_guarded; [|exact Hlrun]; constructor).
  assert (Henter : forall x, Background.isUpdateInProgress x = true ->
     snd (Background.iteration_enter x) = x /\
     fst (Background.iteration_enter x) <> Background.entry_started /\
     snd (Legacy.iteration_enter x) = x /\
     fst (Legacy.iteration_enter x) <> Background.entry_started).
  { intros x Hx. unfold Background.iteration_enter, Legacy.iteration_enter.
    rewrite Hx.
    destruct (negb _), (isPaused (Background.bg x)); simpl;
      repeat split; discriminate. }
  split; [|split; [|split; [|split; [exact Henter|split]]]].
  - intros c [Hc|Hc]; apply closure_guarded_bound;
      [rewrite Forall_forall in Hs|rewrite Forall_forall in Hsl]; auto.
  - intros tid. split; now apply executing_bound.
  - intros i c Hf. split.
    + intros Hc. cbn [Closures.step]. rewrite Hc.
      destruct (Henter (Closures.monitor_of (Closures.shared s) c) Hf)
        as (-> & _).
      now rewrite put_same.
    + intros Hc sl'. cbn [Closures.legacy_step]. rewrite Hc, Hf.
      destruct (decide _); [|discriminate]. cbn [negb andb].
      now intros [= <-].
  - intros x. unfold Background.iteration_enter, Legacy.iteration_enter.
    destruct (Background.isUpdateInProgress x); [|auto].
    destruct (negb _), (isPaused (Background.bg x)); simpl;
      split; discriminate.
  - intros x env lenv. split; [apply finish_flag|reflexivity].
Qed.

(** C1, witness: two start messages for the task [t1] with triggers that
    overlap the iterations in flight, in both coordinators. *)
Lemma at_most_one_iteration_in_flight_witness :
  (Closures.executing "t1"
     (default (Closures.idle running_t1)
        (Closures.run duplicate_starts (Closures.idle running_t1)))
   <= 2)%nat /\
  (Closures.executing "t1"
     (default (Closures.idle running_t1)
        (Closures.legacy_run legacy_duplicate_starts
           (Closures.idle running_t1)))
   <= 2)%nat.
Proof.
  destruct (at_most_one_iteration_in_flight running_t1
              duplicate_starts legacy_duplicate_starts
              (default (Closures.idle running_t1)
                 (Closures.run duplicate_starts (Closures.idle running_t1)))
              (default (Closures.idle running_t1)
                 (Closures.legacy_run legacy_duplicate_starts
                    (Closures.idle running_t1))))
    as (_ & H & _).
  - vm_compute. reflexivity.
  - vm_compute. reflexivity.
  - destruct (H "t1") as [H1 H2]. split.
    + etransitivity; [exact H1|]. vm_compute. lia.
    + etransitivity; [exact H2|]. vm_compute. lia.
Defined.

(** C1, counterexample: a second [startMonitoring] message for the task
    [t1] arrives while the iteration of the first call is in flight; the
    new call has a flag of its own, and two iterations of the task execute
    at the same time, in both coordinators. *)
Lemma duplicate_start_runs_two_iterations :
  Closures.executing "t1"
    (default (Closures.idle running_t1)
       (Closures.run duplicate_starts (Closures.idle running_t1))) = 2%nat /\
  Closures.executing "t1"
    (default (Closures.idle running_t1)
       (Closures.legacy_run legacy_duplicate_starts
          (Closures.idle running_t1))) = 2%nat.
Proof. vm_compute. split; reflexivity. Qed.

(** ** The iteration body *)

Section Iteration.
Import Background.
Local Opaque getValidTab sendProcessMessage.

Lemma record_iterations_frame b :
  currentIterations (record_iterations b) = currentIterations b /\
  activeSession (record_iterations b) = activeSession b /\
  isPaused (record_iterations b) = isPaused b /\
  broadcasts (record_iterations b) =
    broadcasts b ++ [iterationUpdate (currentIterations b)] /\
  storage (record_iterations b) !! "activeSession" =
    storage b !! "activeSession".
Proof.
  unfold record_iterations. destruct (truthy _); repeat split.
  simpl. now rewrite lookup_insert_ne.
Qed.

Lemma mark_completed_frame b :
  currentIterations (mark_completed b) = currentIterations b /\
  broadcasts (mark_completed b) = broadcasts b /\
  activeSession (mark_completed b) = finished <$> activeSession b /\
  storage (mark_completed b) !! "activeSession" =
    match activeSession b with
    | Some s => Some (Session_json (finished s))
    | None => storage b !! "activeSession"
    end.
Proof.
  unfold mark_completed.
  destruct (activeSession b) as [s|] eqn:E; simpl; rewrite ?E;
    repeat split.
  apply lookup_insert_eq.
Qed.

(** The body never adds to the counter: it leaves it, or stops monitoring,
    which resets it. *)
Lemma iteration_body_counter e b :
  let '(continue, b') := iteration_body e b in
  (continue = true -> currentIterations b' = currentIterations b) /\
  (currentIterations b' = currentIterations b \/ currentIterations b' = 0).
Proof.
  unfold iteration_body.
  destruct (resolved (getValidTab (env_queries e) (env_allTabs e)))
    as [t|]; [|split; auto].
  destruct (negb (isValidUrl (url_of t))); [split; [discriminate|auto]|].
  destruct (fst (sendProcessMessage (env_page e))) as [r|why].
  - destruct (record_iterations_frame b) as (Hc & _).
    destruct (success r); [destruct (isDone r)|].
    + split; [discriminate|]. right. apply stop_memory.
    + split; intros; [|left]; exact Hc.
    + split; [discriminate|]. right. apply stop_memory.
  - split; [discriminate|]. right. apply stop_memory.
Qed.

Lemma handle_counter c b :
  currentIterations (handle c b) = currentIterations b \/
  currentIterations (handle c b) = 0.
Proof.
  destruct c as [now|now|tabs|]; cbn [handle].
  - left. unfold pauseMonitoring.
    destruct (when_taskState_frame ps_paused now
                (broadcast (pauseStateChanged true)
                   (set_session_paused true (with_isPaused true b))))
      as (_ & _ & -> & _).
    change (currentIterations (broadcast ?m ?x)) with (currentIterations x).
    now destruct (set_session_paused_spec true (with_isPaused true b))
      as (_ & -> & _).
  - left. unfold resumeMonitoring.
    destruct (when_taskState_frame ps_idle now
                (broadcast (pauseStateChanged false)
                   (set_session_paused false (with_isPaused false b))))
      as (_ & _ & -> & _).
    change (currentIterations (broadcast ?m ?x)) with (currentIterations x).
    now destruct (set_session_paused_spec false (with_isPaused false b))
      as (_ & -> & _).
  - right. apply stop_memory.
  - right. reflexivity.
Qed.

Lemma legacy_stop_counter now b :
  currentIterations (Legacy.stopMonitoring now b) = currentIterations b.
Proof.
  unfold Legacy.stopMonitoring. now destruct (truthy _).
Qed.

Lemma legacy_record_counter b :
  currentIterations (Legacy.record_iterations b) = currentIterations b.
Proof.
  unfold Legacy.record_iterations. now destruct (truthy _).
Qed.

Lemma legacy_body_counter tid e b :
  let c' := currentIterations (Legacy.iteration_body tid e b) in
  c' = currentIterations b \/
  (c' = currentIterations b + 1 /\
   Legacy.usable_tab (Legacy.env_tabs e) <> None /\
   exists r, delivery (Legacy.env_page e) = delivered (Some r) /\
             success r = true).
Proof.
  cbv zeta. unfold Legacy.iteration_body.
  destruct (Legacy.usable_tab _) as [t|]; [|now left].
  destruct (_ && _); [now left|].
  destruct (delivery (Legacy.env_page e)) as [msg|[r|]] eqn:Ed;
    cbv beta iota zeta; cbn [success]; try (now left).
  destruct (success r) eqn:Es; [|now left].
  assert (forall x, currentIterations
                      (tab_send (id_of t) (singleDOMProcess tid)
                         (tab_send (id_of t) ping x))
                    = currentIterations x) as Hsend by reflexivity.
  right. split; [|split; [discriminate|eauto]].
  destruct (isDone r).
  - rewrite legacy_stop_counter. unfold Legacy.mark_completed.
    rewrite (proj1 (mark_completed_frame _)), legacy_record_counter.
    cbn [currentIterations with_iterations]. now rewrite Hsend.
  - rewrite legacy_record_counter.
    cbn [currentIterations with_iterations]. now rewrite Hsend.
Qed.

End Iteration.

(** ** The iteration counter *)

(** C9 (as amended).  In the loop-based coordinator the counter is zero after
    [startMonitoring]; a call of [processOneIteration] that passes the guards
    adds exactly one to it, before tab resolution and dispatch, and a call
    that does not pass them changes nothing; the rest of the iteration,
    whatever the number of delivery retries, leaves the counter as it is or
    (when it stops monitoring) resets it to zero, and so does every command
    (stop and resetIterations reset it).  In the interval-based coordinator
    the counter is zero after [startMonitoring], entering an iteration does
    not change it, and the iteration leaves it unchanged or adds one, the
    latter only when a usable tab was found and the page replied with
    success. *)
Theorem iteration_counter_writes
    (tid : string) (se : Background.StartEnv) (timer : nat) (b : Bg)
    (m : Background.Monitor) (env : Background.IterEnv)
    (lenv : Legacy.IterEnv) (c : Background.Command) :
  let counter x := currentIterations (Background.bg x) in
  match Background.startMonitoring tid se b with
  | inl b' => currentIterations b' = 0
  | inr m' => counter m' = 0
  end /\
  counter (Legacy.startMonitoring tid timer b) = 0 /\
  match Background.iteration_enter m with
  | (Background.entry_started, m') => counter m' = counter m + 1
  | (Background.entry_returned _, m') => m' = m
  end /\
  (let '(continue, m') := Background.iteration_finish env m in
   (continue = true -> counter m' = counter m) /\
   (counter m' = counter m \/ counter m' = 0)) /\
  (currentIterations (Background.handle c b) = currentIterations b \/
   currentIterations (Background.handle c b) = 0) /\
  Background.bg (snd (Legacy.iteration_enter m)) = Background.bg m /\
  (let m' := Legacy.iteration_finish lenv m in
   counter m' = counter m \/
   (counter m' = counter m + 1 /\
    Legacy.usable_tab (Legacy.env_tabs lenv) <> None /\
    exists r,
      Background.delivery (Legacy.env_page lenv)
        = Background.delivered (Some r) /\
      Background.success r = true)).
Proof.
  cbv zeta. split; [|split; [|split; [|split; [|split; [|split]]]]].
  - unfold Background.startMonitoring.
    destruct (Background.resolved _) as [t|]; [|apply stop_memory].
    destruct (isValidUrl _); [reflexivity|].
    destruct (Background.start_navigate_ok se);
      [reflexivity|apply stop_memory].
  - unfold Legacy.startMonitoring, Legacy.iteration_enter.
    cbn [Background.bg isPaused with_interval with_isPaused
         Background.isUpdateInProgress snd]. reflexivity.
  - unfold Background.iteration_enter.
    destruct (negb _); [reflexivity|].
    destruct (isPaused _); [reflexivity|].
    destruct (Background.isUpdateInProgress m); reflexivity.
  - unfold Background.iteration_finish.
    pose proof (iteration_body_counter env (Background.bg m)) as H.
    destruct (Background.iteration_body env (Background.bg m)) as [k b'].
    exact H.
  - apply handle_counter.
  - unfold Legacy.iteration_enter.
    destruct (isPaused _); [reflexivity|].
    destruct (Background.isUpdateInProgress m); reflexivity.
  - apply (legacy_body_counter (Background.task_id m) lenv (Background.bg m)).
Qed.

(** C9, counterexample: in the interval-based coordinator an iteration that
    was entered and whose dispatch fails leaves the counter at zero; in the
    loop-based coordinator such an iteration brings the counter from one back
    to zero. *)
Lemma failed_iteration_not_counted :
  let m0 := Legacy.startMonitoring "t1" 1 running_t1 in
  let m1 :=
    Legacy.iteration_finish
      (legacy_env
         (Background.lastError
            (Some "Could not establish connection. Receiving end does not exist.")))
      m0 in
  let n1 := snd (Background.iteration_enter started_monitor) in
  let n2 := snd (Background.iteration_finish (replying reply_failed) n1) in
  Background.in_flight m0 = 1%nat /\
  currentIterations (Background.bg m0) = 0 /\
  Background.in_flight m1 = 0%nat /\
  currentIterations (Background.bg m1) = 0 /\
  fst (Background.iteration_enter started_monitor)
    = Background.entry_started /\
  currentIterations (Background.bg n1) = 1 /\
  currentIterations (Background.bg n2) = 0.
Proof. vm_compute. repeat split. Qed.

(** ** Completion of the task *)

Section Completion.
Import Background.
Local Opaque getValidTab sendProcessMessage.

(** The exit of the body when the page replies success with
    [isDone = true], from any state in which the reply arrives. *)
Lemma iteration_body_done e b t r :
  resolved (getValidTab (env_queries e) (env_allTabs e)) = Some t ->
  isValidUrl (url_of t) = true ->
  fst (sendProcessMessage (env_page e)) = send_returned r ->
  success r = true -> isDone r = true ->
  iteration_body e b =
    (false, stopMonitoring ts_completed (env_stop_tabs e)
              (mark_completed (record_iterations b))).
Proof.
  intros Ht Hu Hs Hok Hd. unfold iteration_body.
  now rewrite Ht, Hu, Hs, Hok, Hd.
Qed.

Lemma completed_stops_app a b :
  completed_stops (a ++ b) = (completed_stops a + completed_stops b)%nat.
Proof. unfold completed_stops. now rewrite List.filter_app, length_app. Qed.

Lemma done_broadcasts tabs b :
  broadcasts (stopMonitoring ts_completed tabs
                (mark_completed (record_iterations b))) =
  broadcasts b ++ [iterationUpdate (currentIterations b);
                   stopMonitoringMsg ts_completed].
Proof.
  rewrite stop_broadcasts.
  destruct (mark_completed_frame (record_iterations b)) as (_ & -> & _).
  destruct (record_iterations_frame b) as (_ & _ & _ & -> & _).
  now rewrite <- app_assoc.
Qed.


End Completion.




(** * Further properties of the coordinators, the page agent and the popup *)

(** ** Object spreads *)

Lemma pretty_N_go_digit_head x s :
  ((0 < x)%N \/ exists c r, s = String c r /\ is_digit c = true) ->
  exists c r, pretty_N_go x s = String c r /\ is_digit c = true.
Proof.
  revert s. induction (N.lt_wf_0 x) as [x _ IH]; intros s Hs.
  assert (x = 0 \/ 0 < x)%N as [->|Hx] by lia.
  - rewrite pretty_N_go_0. destruct Hs as [Hs|Hs]; [lia|exact Hs].
  - rewrite pretty_N_go_step by exact Hx. apply IH.
    + now apply N.div_lt.
    + right. eexists _, _. split; [reflexivity|].
      unfold pretty_N_char. repeat case_match; reflexivity.
Qed.

Lemma pretty_nat_digit_head (i : nat) :
  exists c r, pretty i = String c r /\ is_digit c = true.
Proof.
  unfold pretty, pretty_nat, pretty, pretty_N.
  destruct (decide (N.of_nat i = 0%N)).
  - eexists _, _. split; reflexivity.
  - apply pretty_N_go_digit_head. left. lia.
Qed.

Lemma obj_get_index_fields k l :
  named_key k = true -> forall i, obj_get k (index_fields i l) = None.
Proof.
  intros Hk. induction l as [|x l IH]; intros i; simpl; [reflexivity|].
  destruct (String.eqb k (pretty i)) eqn:E; [|apply IH].
  apply String.eqb_eq in E.
  destruct (pretty_nat_digit_head i) as (c & r & Hp & Hd).
  rewrite Hp in E. subst k. simpl in Hk. now rewrite Hd in Hk.
Qed.

(** A named property read through [v || {}] and a spread is the property
    of [v] itself. *)
Lemma obj_get_spread_or_empty k v :
  named_key k = true -> obj_get k (spread_or_empty v) = prop k v.
Proof.
  intros Hk. destruct v as [[| b | n | s | l | fs]|]; simpl; try reflexivity.
  - now destruct b.
  - now destruct (negb _).
  - destruct (negb _); [|reflexivity]. now apply obj_get_index_fields.
  - now apply obj_get_index_fields.
Qed.

(** ** Processing status *)

Lemma updateProcessingStatus_frame tid st now b :
  let b' := Background.updateProcessingStatus tid st now b in
  storage b' =
    <["taskState" :=
        JObj (obj_set "lastUpdateTimestamp" (JStr now)
                (obj_set "processingStatus" (JStr (ProcessingStatus_str st))
                   (spread_or_empty (storage b !! "taskState"))))]>
      (storage b) /\
  activeSession b' = activeSession b /\
  currentIterations b' = currentIterations b /\
  isPaused b' = isPaused b /\
  lastUpdateResponse b' = lastUpdateResponse b /\
  monitoringInterval b' = monitoringInterval b /\
  broadcasts b' = broadcasts b ++ [processingStatusUpdate tid st].
Proof. repeat split. Qed.

Lemma updateProcessingStatus_lookup tid st now b (k : string) :
  k <> "taskState" ->
  storage (Background.updateProcessingStatus tid st now b) !! k
  = storage b !! k.
Proof.
  intros Hk. rewrite (proj1 (updateProcessingStatus_frame tid st now b)).
  now rewrite lookup_insert_ne.
Qed.

Lemma updateProcessingStatus_status tid st now b :
  prop "processingStatus"
    (storage (Background.updateProcessingStatus tid st now b) !! "taskState")
  = Some (JStr (ProcessingStatus_str st)).
Proof.
  rewrite (proj1 (updateProcessingStatus_frame tid st now b)).
  rewrite lookup_insert_eq. cbn [prop].
  rewrite obj_get_set_ne by discriminate. apply obj_get_set_eq.
Qed.

Lemma is_completed_str st :
  String.eqb (ProcessingStatus_str st) "completed" =
  match st with ps_completed => true | _ => false end.
Proof. now destruct st. Qed.

(** X1. After [updateProcessingStatus] the stored task state carries the new
    processing status and a new timestamp and keeps every other named
    property it had (it is created if there was none); the completion check
    of the coordinator then answers done exactly when the session or
    last-response signal held before or the new status is [completed]. *)
Theorem updateProcessingStatus_read_back
    (tid : string) (st : ProcessingStatus) (now : string) (b : Bg) :
  let b' := Background.updateProcessingStatus tid st now b in
  prop "processingStatus" (storage b' !! "taskState")
    = Some (JStr (ProcessingStatus_str st)) /\
  prop "lastUpdateTimestamp" (storage b' !! "taskState") = Some (JStr now) /\
  (forall k, named_key k = true ->
     k <> "processingStatus" -> k <> "lastUpdateTimestamp" ->
     prop k (storage b' !! "taskState") = prop k (storage b !! "taskState")) /\
  Background.check_processing_status b' =
    Background.sessionDone (storage b) || Background.lastUpdateDone (storage b)
    || match st with ps_completed => true | _ => false end.
Proof.
  cbv zeta. split; [apply updateProcessingStatus_status|].
  split; [|split].
  - rewrite (proj1 (updateProcessingStatus_frame tid st now b)).
    rewrite lookup_insert_eq. cbn [prop]. apply obj_get_set_eq.
  - intros k Hn H1 H2.
    rewrite (proj1 (updateProcessingStatus_frame tid st now b)).
    rewrite lookup_insert_eq. cbn [prop].
    rewrite !obj_get_set_ne by assumption.
    now apply obj_get_spread_or_empty.
  - unfold Background.check_processing_status, Background.sessionDone,
      Background.lastUpdateDone, Background.processingDone.
    rewrite updateProcessingStatus_status.
    rewrite !updateProcessingStatus_lookup by discriminate.
    cbn [is_str]. now rewrite is_completed_str.
Qed.

(** ** What stop and reset leave of the completion signals *)

Lemma stopped_taskState_get f b k :
  named_key k = true -> k <> "status" -> k <> "isRunning" ->
  k <> "isPaused" ->
  obj_get k (stopped_taskState f b) = prop k (storage b !! "taskState").
Proof.
  intros Hn H1 H2 H3. unfold stopped_taskState.
  rewrite !obj_get_set_ne by assumption.
  now apply obj_get_spread_or_empty.
Qed.

Lemma stop_processing_lookup f tabs b :
  prop "processingStatus"
    (storage (Background.stopMonitoring f tabs b) !! "taskState")
  = prop "processingStatus" (storage b !! "taskState").
Proof.
  rewrite stop_storage_lookup.
  change (prop "processingStatus"
            (if decide ("taskState" ∈ Background.stop_keys) then None
             else if decide ("taskState" = "taskState")
                  then Some (JObj (stopped_taskState f b))
                  else storage b !! "taskState"))
    with (obj_get "processingStatus" (stopped_taskState f b)).
  now rewrite stopped_taskState_get.
Qed.

Lemma stop_check f tabs b :
  Background.check_processing_status (Background.stopMonitoring f tabs b)
  = Background.processingDone (storage b).
Proof.
  unfold Background.check_processing_status, Background.sessionDone,
    Background.lastUpdateDone, Background.processingDone.
  rewrite stop_processing_lookup. now rewrite !stop_storage_lookup.
Qed.

(** X2. After [stopMonitoring] of the loop-based coordinator, whatever the
    final status, the completion check answers what the processing-status
    signal alone said before: the session and last-response signals are
    gone, the stored processing status survives the stop. *)
Theorem stop_keeps_only_processing_signal
    (f : TaskStatus) (tabs : list Tab) (b : Bg) :
  let b' := Background.stopMonitoring f tabs b in
  Background.sessionDone (storage b') = false /\
  Background.lastUpdateDone (storage b') = false /\
  Background.check_processing_status b' = Background.processingDone (storage b) /\
  prop "status" (storage b' !! "taskState") = Some (JStr (TaskStatus_str f)).
Proof.
  cbv zeta.
  split; [unfold Background.sessionDone; now rewrite stop_storage_lookup|].
  split; [unfold Background.lastUpdateDone; now rewrite stop_storage_lookup|].
  split; [apply stop_check|apply stop_status_lookup].
Qed.

Lemma resetWorkflow_frame stop_tabs tabs b :
  let b' := Updates.resetWorkflow stop_tabs tabs b in
  storage b' =
    <["lastUpdateResponse" := JNull]>
      (<["currentDOMUpdate" := JNull]>
         (<["taskState" := JNull]>
            (<["activeSession" := JNull]>
               (storage (Background.stopMonitoring ts_idle stop_tabs b))))) /\
  activeSession b' = None /\
  currentIterations b' = 0 /\
  isPaused b' = false /\
  broadcasts b' = broadcasts b ++ [stopMonitoringMsg ts_idle; workflowReset].
Proof.
  cbv zeta. unfold Updates.resetWorkflow.
  assert (Hb : broadcasts (Background.stopMonitoring ts_idle stop_tabs b)
               ++ [workflowReset]
               = broadcasts b ++ [stopMonitoringMsg ts_idle; workflowReset]).
  { rewrite stop_broadcasts. now rewrite <- app_assoc. }
  destruct (stop_memory ts_idle stop_tabs b) as (_ & _ & Hp & _).
  destruct tabs as [|[|t ?]];
    [| |destruct (has_id t && has_url t && isValidUrl (url_of t))];
    (repeat split; [exact Hp|exact Hb]).
Qed.

(** X3. [resetWorkflow] leaves no completion signal: afterwards the
    completion check of the coordinator and the page's
    [checkIfProcessingDone] answer not done, whatever was stored before.
    The keys [activeSession], [taskState], [currentDOMUpdate] and
    [lastUpdateResponse] then hold [null], [iterationResults] is absent, the
    in-memory session is cleared, the counter is zero, and one
    [stopMonitoring] broadcast with status [idle] followed by one
    [workflowReset] broadcast were emitted. *)
Theorem resetWorkflow_clears_completion
    (stop_tabs : list Tab) (tabs : Background.QueryOutcome) (b : Bg) :
  let b' := Updates.resetWorkflow stop_tabs tabs b in
  Background.check_processing_status b' = false /\
  Processor.checkIfProcessingDone (storage b')
    (Processor.reply Background.check_processing_status b') = false /\
  storage b' !! "activeSession" = Some JNull /\
  storage b' !! "taskState" = Some JNull /\
  storage b' !! "currentDOMUpdate" = Some JNull /\
  storage b' !! "lastUpdateResponse" = Some JNull /\
  storage b' !! "iterationResults" = None /\
  activeSession b' = None /\
  currentIterations b' = 0 /\
  isPaused b' = false /\
  broadcasts b' = broadcasts b ++ [stopMonitoringMsg ts_idle; workflowReset].
Proof.
  cbv zeta.
  destruct (resetWorkflow_frame stop_tabs tabs b)
    as (Hst & Hs & Hc & Hp & Hb).
  assert (H1 : storage (Updates.resetWorkflow stop_tabs tabs b)
                 !! "activeSession" = Some JNull).
  { rewrite Hst. rewrite !lookup_insert_ne by discriminate.
    apply lookup_insert_eq. }
  assert (H2 : storage (Updates.resetWorkflow stop_tabs tabs b)
                 !! "taskState" = Some JNull).
  { rewrite Hst. rewrite !lookup_insert_ne by discriminate.
    apply lookup_insert_eq. }
  assert (H3 : storage (Updates.resetWorkflow stop_tabs tabs b)
                 !! "lastUpdateResponse" = Some JNull).
  { rewrite Hst. apply lookup_insert_eq. }
  assert (Hcheck : Background.check_processing_status
                     (Updates.resetWorkflow stop_tabs tabs b) = false).
  { unfold Background.check_processing_status, Background.sessionDone,
      Background.lastUpdateDone, Background.processingDone.
    now rewrite H1, H2, H3. }
  split; [exact Hcheck|]. split.
  { rewrite checkIfProcessingDone_unfold.
    unfold Background.check_processing_status in Hcheck. rewrite Hcheck.
    unfold Processor.reply. cbn [prop obj_get String.eqb].
    unfold Background.check_processing_status. now rewrite Hcheck. }
  split; [exact H1|]. split; [exact H2|]. split.
  { rewrite Hst. rewrite lookup_insert_ne by discriminate.
    apply lookup_insert_eq. }
  split; [exact H3|]. split.
  { rewrite Hst. rewrite !lookup_insert_ne by discriminate.
    now rewrite stop_storage_lookup. }
  auto.
Qed.

(** ** Server updates *)

Section DOMUpdate.
Import Background Updates.

Lemma handleDOMUpdate_missing task_id dom_data e b :
  String.eqb (default "" task_id) "" = true \/ truthy dom_data = false ->
  handleDOMUpdate task_id dom_data e b =
    (failure "Missing required fields", None,
     updateProcessingStatus (default "" task_id) ps_error (ue_now e 0) b).
Proof.
  intros H. unfold handleDOMUpdate.
  destruct dom_data as [dom|]; [|reflexivity].
  destruct H as [-> | ->]; [reflexivity|].
  now rewrite andb_false_r.
Qed.

Lemma handleDOMUpdate_cases tid dom e b :
  tid <> "" -> truthy (Some dom) = true ->
  let b1 := updateProcessingStatus tid ps_updating (ue_now e 0) b in
  match results_for tid (storage b !! "iterationResults"),
        ue_active e, ue_all e with
  | Some rs, query_tabs a, query_tabs l =>
      handleDOMUpdate (Some tid) (Some dom) e b =
        (fst (round_trip tid e (before_post tid e b)),
         Some {| req_task_id := tid; req_dom_data := dom; req_result := rs;
                 req_iterations := currentIterations b;
                 req_structure := structure_of dom;
                 req_openTabsWithIds := map tab_entry l;
                 req_currentTab := currentTab_entry a |},
         snd (round_trip tid e (before_post tid e b)))
  | _, _, _ =>
      handleDOMUpdate (Some tid) (Some dom) e b =
        (failure (ue_thrown e), None,
         stopMonitoring ts_error (ue_stop_tabs e) b1)
  end.
Proof.
  intros Ht Hd. cbv zeta. unfold handleDOMUpdate.
  apply String.eqb_neq in Ht.
  change (default "" (Some tid)) with tid. rewrite Ht, Hd. cbn [negb andb].
  rewrite updateProcessingStatus_lookup by discriminate.
  destruct (results_for tid (storage b !! "iterationResults")) as [rs|];
    [|reflexivity].
  destruct (ue_active e) as [|a]; [reflexivity|].
  destruct (ue_all e) as [|l]; [reflexivity|].
  unfold before_post.
  now destruct (round_trip tid e _).
Qed.

End DOMUpdate.

Section DOMUpdateProperties.
Import Background Updates.

Lemma handleDOMUpdate_failure_form tid dom e b :
  tid <> "" -> truthy (Some dom) = true ->
  ur_success (fst (fst (handleDOMUpdate (Some tid) (Some dom) e b))) = false ->
  exists x, snd (handleDOMUpdate (Some tid) (Some dom) e b)
            = stopMonitoring ts_error (ue_stop_tabs e) x.
Proof.
  intros Ht Hd. pose proof (handleDOMUpdate_cases tid dom e b Ht Hd) as H.
  cbv zeta in H.
  destruct (results_for tid (storage b !! "iterationResults")) as [rs|];
    [|rewrite H; eauto].
  destruct (ue_active e) as [|a]; [rewrite H; eauto|].
  destruct (ue_all e) as [|l]; [rewrite H; eauto|].
  rewrite H. cbn [fst snd]. unfold round_trip.
  destruct (ue_server e) as [msg|data]; cbn [fst snd ur_success].
  - eauto.
  - discriminate.
Qed.

Lemma latest_after_stop f tabs b t :
  Page.getLatestUpdateResult t (storage (stopMonitoring f tabs b))
  = Page.no_latest "No update result found".
Proof.
  unfold Page.getLatestUpdateResult. now rewrite !stop_storage_lookup.
Qed.

End DOMUpdateProperties.

(** X4. [handleDOMUpdate] of the loop-based coordinator, given a message
    without a task id (or an empty one) or without DOM data, answers with
    the failure [Missing required fields], posts nothing to the server and
    records the processing status [error]; it does not stop monitoring: the
    session, the counter and every stored key other than [taskState] are as
    before, and the only broadcast is the status update. *)
Theorem handleDOMUpdate_missing_fields
    (task_id : option string) (dom_data : option JSON)
    (e : Updates.UpdateEnv) (b : Bg) :
  String.eqb (default "" task_id) "" = true \/ truthy dom_data = false ->
  let '(resp, req, b') := Updates.handleDOMUpdate task_id dom_data e b in
  resp = Updates.failure "Missing required fields" /\
  req = None /\
  activeSession b' = activeSession b /\
  currentIterations b' = currentIterations b /\
  (forall k : string, k <> "taskState" -> storage b' !! k = storage b !! k) /\
  prop "processingStatus" (storage b' !! "taskState") = Some (JStr "error") /\
  broadcasts b' =
    broadcasts b ++ [processingStatusUpdate (default "" task_id) ps_error].
Proof.
  intros H. rewrite (handleDOMUpdate_missing task_id dom_data e b H).
  repeat split.
  - intros k Hk. now apply updateProcessingStatus_lookup.
  - apply updateProcessingStatus_status.
Qed.

(** X4, witness: a [dom_update] message without DOM data while the session
    [t1] runs. *)
Lemma handleDOMUpdate_missing_fields_witness :
  activeSession
    (snd (Updates.handleDOMUpdate (Some "t1") None
            (update_env (Updates.update_data (plan [] false))) running_t1))
  = Some session_t1.
Proof.
  pose proof (handleDOMUpdate_missing_fields (Some "t1") None
                (update_env (Updates.update_data (plan [] false)))
                running_t1 (or_intror eq_refl)) as H.
  destruct (Updates.handleDOMUpdate _ _ _ _) as [[resp req] b'].
  destruct H as (_ & _ & H & _). exact H.
Defined.

(** X5. Every failure of [handleDOMUpdate] past the validation of the
    message (the stored results cannot be filtered, a tab query throws, the
    server call throws) stops monitoring with status [error]: the in-memory
    session is cleared, the counter is zero, the keys [activeSession],
    [currentDOMUpdate], [lastUpdateResponse] and [iterationResults] are
    absent, the stored task status is [error], the last broadcast is
    [stopMonitoring] with status [error], and [getLatestUpdateResult] finds
    nothing for any task. *)
Theorem handleDOMUpdate_failure_stops
    (tid : string) (dom : JSON) (e : Updates.UpdateEnv) (b : Bg) :
  tid <> "" ->
  truthy (Some dom) = true ->
  Updates.ur_success
    (fst (fst (Updates.handleDOMUpdate (Some tid) (Some dom) e b))) = false ->
  let b' := snd (Updates.handleDOMUpdate (Some tid) (Some dom) e b) in
  activeSession b' = None /\
  currentIterations b' = 0 /\
  storage b' !! "activeSession" = None /\
  storage b' !! "currentDOMUpdate" = None /\
  storage b' !! "lastUpdateResponse" = None /\
  storage b' !! "iterationResults" = None /\
  prop "status" (storage b' !! "taskState") = Some (JStr "error") /\
  last_broadcast b' = Some (stopMonitoringMsg ts_error) /\
  forall t, Page.getLatestUpdateResult t (storage b')
            = Page.no_latest "No update result found".
Proof.
  intros Ht Hd Hf. cbv zeta.
  destruct (handleDOMUpdate_failure_form tid dom e b Ht Hd Hf) as (x & ->).
  destruct (stop_memory ts_error (Updates.ue_stop_tabs e) x)
    as (_ & Hc & _ & _ & Hs).
  pose proof (stop_status_lookup ts_error (Updates.ue_stop_tabs e) x)
    as Hst.
  split; [exact Hs|]. split; [exact Hc|].
  do 4 (split; [now rewrite stop_storage_lookup|]).
  split; [exact Hst|]. split.
  - unfold last_broadcast. rewrite stop_broadcasts. apply last_snoc.
  - intros t. apply latest_after_stop.
Qed.

(** X5, witness: the server answers the update of task [t1] with an
    error. *)
Lemma handleDOMUpdate_failure_stops_witness :
  activeSession
    (snd (Updates.handleDOMUpdate (Some "t1") (Some example_dom)
            (update_env (Updates.update_throws
                           "Request failed with status code 500"))
            running_t1)) = None.
Proof.
  apply (handleDOMUpdate_failure_stops "t1" example_dom
           (update_env (Updates.update_throws
                          "Request failed with status code 500"))
           running_t1).
  - discriminate.
  - reflexivity.
  - vm_compute. reflexivity.
Defined.

Section RoundTrip.
Import Background Updates.

Lemma before_post_lookup tid e b (k : string) :
  k <> "taskState" -> k <> "currentDOMUpdate" ->
  storage (before_post tid e b) !! k = storage b !! k.
Proof.
  intros H1 H2. unfold before_post.
  rewrite updateProcessingStatus_lookup by assumption.
  cbn [store_set storage with_storage].
  rewrite lookup_insert_ne by congruence.
  now apply updateProcessingStatus_lookup.
Qed.

Lemma before_post_frame tid e b :
  activeSession (before_post tid e b) = activeSession b /\
  currentIterations (before_post tid e b) = currentIterations b /\
  isPaused (before_post tid e b) = isPaused b /\
  broadcasts (before_post tid e b) =
    broadcasts b ++ [processingStatusUpdate tid ps_updating;
                     processingStatusUpdate tid ps_waiting_for_server] /\
  prop "processingStatus" (storage (before_post tid e b) !! "taskState")
    = Some (JStr "waiting_for_server").
Proof.
  repeat split.
  - unfold before_post. cbn [broadcasts updateProcessingStatus broadcast
      store_set with_storage]. now rewrite <- app_assoc.
  - unfold before_post. apply updateProcessingStatus_status.
Qed.

Lemma round_trip_success tid e x data :
  ue_server e = update_data data ->
  let lur := JObj [("timestamp", JStr (ue_now e 3));
                   ("task_id", JStr tid); ("data", data)] in
  round_trip tid e x =
    ({| ur_success := true; ur_data := Some data; ur_error := None |},
     store_set "currentDOMUpdate"
       (pending_record tid "completed"
          [("result", data); ("completedTime", JStr (ue_now e 4))])
       (store_set "lastUpdateResponse" lur
          (with_lastUpdateResponse (Some lur) x))).
Proof. intros H. unfold round_trip. now rewrite H. Qed.

End RoundTrip.

(** X6. When [handleDOMUpdate] gets an answer from the server, it returns
    that answer, and [getLatestUpdateResult] for the same task then yields
    the same data, while for any other task it finds nothing.  The request
    carried the stored results of this task and the current iteration
    count.  The session, the counter and the stored results are untouched,
    the processing status is left at [waiting_for_server], and the
    completion check answers done exactly when the stored session was
    already completed or the answer carries [is_done = true]. *)
Theorem handleDOMUpdate_success_round_trip
    (tid : string) (dom data : JSON) (e : Updates.UpdateEnv) (b : Bg)
    (rs : list JSON) (a l : list Tab) :
  tid <> "" ->
  truthy (Some dom) = true ->
  Updates.results_for tid (storage b !! "iterationResults") = Some rs ->
  Updates.ue_active e = Background.query_tabs a ->
  Updates.ue_all e = Background.query_tabs l ->
  Updates.ue_server e = Updates.update_data data ->
  let '(resp, req, b') :=
    Updates.handleDOMUpdate (Some tid) (Some dom) e b in
  resp = {| Updates.ur_success := true; Updates.ur_data := Some data;
            Updates.ur_error := None |} /\
  Updates.req_result <$> req = Some rs /\
  Updates.req_iterations <$> req = Some (currentIterations b) /\
  Updates.req_task_id <$> req = Some tid /\
  Page.getLatestUpdateResult tid (storage b') = Page.latest (Some data) /\
  (forall t, t <> tid ->
     Page.getLatestUpdateResult t (storage b')
     = Page.no_latest "No update result found") /\
  activeSession b' = activeSession b /\
  currentIterations b' = currentIterations b /\
  storage b' !! "activeSession" = storage b !! "activeSession" /\
  storage b' !! "iterationResults" = storage b !! "iterationResults" /\
  prop "processingStatus" (storage b' !! "taskState")
    = Some (JStr "waiting_for_server") /\
  Background.check_processing_status b' =
    Background.sessionDone (storage b)
    || is_true (prop "is_done" (prop "result" (Some data))).
Proof.
  intros Ht Hd Hrs Ha Hl Hsrv.
  pose proof (handleDOMUpdate_cases tid dom e b Ht Hd) as H.
  cbv zeta in H. rewrite Hrs, Ha, Hl in H. rewrite H. clear H.
  rewrite (round_trip_success tid e _ data Hsrv). cbn [fst snd].
  destruct (before_post_frame tid e b) as (Hs & Hc & _ & _ & Hps).
  set (x := before_post tid e b) in *.
  set (lur := JObj [("timestamp", JStr (Updates.ue_now e 3));
                    ("task_id", JStr tid); ("data", data)]).
  set (cdu := Updates.pending_record tid "completed"
                [("result", data);
                 ("completedTime", JStr (Updates.ue_now e 4))]).
  set (b' := store_set "currentDOMUpdate" cdu
               (store_set "lastUpdateResponse" lur
                  (Updates.with_lastUpdateResponse (Some lur) x))).
  assert (Hcd : storage b' !! "currentDOMUpdate" = Some cdu).
  { subst b'. cbn [store_set storage with_storage]. apply lookup_insert_eq. }
  assert (Hlu : storage b' !! "lastUpdateResponse" = Some lur).
  { subst b'. cbn [store_set storage with_storage].
    rewrite lookup_insert_ne by discriminate. apply lookup_insert_eq. }
  assert (Hot : forall k : string,
            k <> "currentDOMUpdate" -> k <> "lastUpdateResponse" ->
            storage b' !! k = storage x !! k).
  { intros k H1 H2. subst b'.
    cbn [store_set storage with_storage Updates.with_lastUpdateResponse].
    now rewrite !lookup_insert_ne by congruence. }
  assert (Hcdu : prop "task_id" (Some cdu) = Some (JStr tid)) by reflexivity.
  assert (Hcst : prop "status" (Some cdu) = Some (JStr "completed"))
    by reflexivity.
  assert (Hcre : prop "result" (Some cdu) = Some data) by reflexivity.
  assert (Hlur : prop "task_id" (Some lur) = Some (JStr tid)) by reflexivity.
  assert (Hlda : prop "data" (Some lur) = Some data) by reflexivity.
  split; [reflexivity|]. do 3 (split; [reflexivity|]).
  split; [|split].
  - unfold Page.getLatestUpdateResult. rewrite Hcd, Hcdu, Hcst, Hcre.
    cbn [is_str]. rewrite String.eqb_refl. reflexivity.
  - intros t Hne. unfold Page.getLatestUpdateResult.
    rewrite Hcd, Hlu, Hcdu, Hlur. cbn [is_str].
    assert (String.eqb tid t = false) as -> by (apply String.eqb_neq; auto).
    reflexivity.
  - split; [exact Hs|]. split; [exact Hc|].
    split; [rewrite Hot by discriminate; subst x;
            now apply before_post_lookup|].
    split; [rewrite Hot by discriminate; subst x;
            now apply before_post_lookup|].
    split; [rewrite Hot by discriminate; exact Hps|].
    unfold Background.check_processing_status, Background.sessionDone,
      Background.lastUpdateDone, Background.processingDone.
    rewrite Hlu, Hlda, !Hot by discriminate. rewrite Hps.
    subst x. rewrite before_post_lookup by discriminate.
    cbn [is_str]. now rewrite orb_false_r.
Qed.

(** X6, witness: the server answers the first update of task [t1] with a
    plan that has no actions and says the task is done. *)
Lemma handleDOMUpdate_success_round_trip_witness :
  Page.getLatestUpdateResult "t1"
    (storage
       (snd (Updates.handleDOMUpdate (Some "t1") (Some example_dom)
               (update_env (Updates.update_data (plan [] true)))
               running_t1)))
  = Page.latest (Some (plan [] true)).
Proof.
  pose proof (handleDOMUpdate_success_round_trip "t1" example_dom
                (plan [] true)
                (update_env (Updates.update_data (plan [] true)))
                running_t1 [] [example_tab] [example_tab]) as H.
  destruct (Updates.handleDOMUpdate _ _ _ _) as [[resp req] b'].
  destruct H as (_ & _ & _ & _ & H & _);
    try reflexivity; try discriminate.
  exact H.
Defined.

(** ** Exits of an iteration of the loop-based coordinator *)

Section IterationExits.
Import Background.
Local Opaque getValidTab sendProcessMessage.

Lemma processOneIteration_started e m :
  session_active (bg m) = true -> isPaused (bg m) = false ->
  isUpdateInProgress m = false ->
  processOneIteration e m =
    (fst (iteration_body e
            (with_iterations (currentIterations (bg m) + 1) (bg m))),
     {| bg := snd (iteration_body e
                     (with_iterations (currentIterations (bg m) + 1) (bg m)));
        task_id := task_id m; isUpdateInProgress := false;
        in_flight := in_flight m |}).
Proof.
  intros Ha Hp Hf. unfold processOneIteration, iteration_enter.
  rewrite Ha, Hp, Hf. cbn [negb]. unfold iteration_finish. cbn [bg].
  now destruct (iteration_body e _).
Qed.

Lemma monitoringLoop_break e cmds rest m :
  session_active (bg m) = true -> isPaused (bg m) = false ->
  fst (processOneIteration e m) = false ->
  monitoringLoop ({| cycle_env := e; cycle_commands := cmds |} :: rest) m
  = (loop_exited, snd (processOneIteration e m)).
Proof.
  intros Ha Hp Hf. cbn [monitoringLoop cycle_env]. rewrite Ha, Hp.
  cbn [negb]. destruct (processOneIteration e m) as [c m'].
  cbn [fst snd] in *. now subst c.
Qed.

End IterationExits.

(** X7. An iteration of the loop-based coordinator that finds no tab, or a
    tab whose URL [isValidUrl] rejects, makes [processOneIteration] return
    [false] and so ends [monitoringLoop], but does not stop monitoring: the
    session is still in memory with status [active], the store is
    unchanged, no [stopMonitoring] broadcast is emitted (only [invalidURL]
    in the second case), the counter has been incremented and the
    in-progress flag is clear. *)
Theorem iteration_without_usable_tab_leaves_session
    (e : Background.IterEnv) (m : Background.Monitor)
    (cmds : list Background.Command) (rest : list Background.Cycle) :
  Background.session_active (Background.bg m) = true ->
  isPaused (Background.bg m) = false ->
  Background.isUpdateInProgress m = false ->
  let found :=
    Background.resolved
      (Background.getValidTab (Background.env_queries e)
         (Background.env_allTabs e)) in
  match found with
  | None => True
  | Some t => isValidUrl (url_of t) = false
  end ->
  let '(continue, m') := Background.processOneIteration e m in
  continue = false /\
  Background.monitoringLoop
    ({| Background.cycle_env := e; Background.cycle_commands := cmds |}
       :: rest) m = (Background.loop_exited, m') /\
  activeSession (Background.bg m') = activeSession (Background.bg m) /\
  Background.session_active (Background.bg m') = true /\
  storage (Background.bg m') = storage (Background.bg m) /\
  broadcasts (Background.bg m') =
    broadcasts (Background.bg m)
    ++ match found with Some _ => [invalidURL] | None => [] end /\
  currentIterations (Background.bg m')
    = currentIterations (Background.bg m) + 1 /\
  Background.isUpdateInProgress m' = false.
Proof.
  intros Ha Hp Hf found Hfound.
  pose proof (monitoringLoop_break e cmds rest m Ha Hp) as Hloop.
  rewrite (processOneIteration_started e m Ha Hp Hf) in *.
  cbn [fst snd] in Hloop. cbn [Background.bg Background.isUpdateInProgress].
  assert (Hbody :
    Background.iteration_body e
      (with_iterations (currentIterations (Background.bg m) + 1)
         (Background.bg m)) =
    (false,
     match found with
     | Some _ => broadcast invalidURL
                   (with_iterations (currentIterations (Background.bg m) + 1)
                      (Background.bg m))
     | None => with_iterations (currentIterations (Background.bg m) + 1)
                 (Background.bg m)
     end)).
  { unfold Background.iteration_body. fold found.
    destruct found as [t|]; [|reflexivity]. now rewrite Hfound. }
  rewrite Hbody in *. cbn [fst snd] in *.
  split; [reflexivity|]. split; [now apply Hloop|].
  destruct found as [t|]; repeat split; trivial.
  cbn [broadcasts with_iterations]. now rewrite app_nil_r.
Qed.

(** X7, witness: every tab query throws and no tab is open. *)
Lemma iteration_without_usable_tab_witness :
  Background.session_active
    (Background.bg
       (snd (Background.processOneIteration no_tab_env started_monitor)))
  = true.
Proof.
  pose proof (iteration_without_usable_tab_leaves_session no_tab_env
                started_monitor [] []) as H.
  cbv zeta in H.
  destruct (Background.processOneIteration no_tab_env started_monitor)
    as [c m'].
  destruct H as (_ & _ & _ & H & _); try reflexivity.
  exact H.
Defined.

Section IterationOutcomes.
Import Background.
Local Opaque getValidTab sendProcessMessage.

Lemma iteration_body_failed e b t :
  resolved (getValidTab (env_queries e) (env_allTabs e)) = Some t ->
  isValidUrl (url_of t) = true ->
  match fst (sendProcessMessage (env_page e)) with
  | send_returned r => success r = false
  | send_threw _ => True
  end ->
  exists x, iteration_body e b
            = (false, stopMonitoring ts_error (env_stop_tabs e) x) /\
            broadcasts x = broadcasts b
              ++ match fst (sendProcessMessage (env_page e)) with
                 | send_returned _ => [iterationUpdate (currentIterations b)]
                 | send_threw _ => []
                 end.
Proof.
  intros Ht Hu Hs. unfold iteration_body. rewrite Ht, Hu. cbn [negb].
  destruct (fst (sendProcessMessage (env_page e))) as [r|why].
  - rewrite Hs. eexists. split; [reflexivity|].
    apply record_iterations_frame.
  - eexists. split; [reflexivity|]. now rewrite app_nil_r.
Qed.





End IterationOutcomes.

(** X8. An iteration of the loop-based coordinator whose dispatch fails (the
    page replies without success, or [sendProcessMessage] throws) stops
    monitoring with status [error]: [processOneIteration] returns [false],
    [monitoringLoop] leaves its loop, the session is cleared from memory
    and from the store, the stored task status is [error], the counter is
    back at zero, the last broadcast is [stopMonitoring] with status
    [error] and no [stopMonitoring] broadcast with status [completed] is
    added. *)
Theorem failed_dispatch_stops_with_error
    (e : Background.IterEnv) (m : Background.Monitor) (t : Tab)
    (cmds : list Background.Command) (rest : list Background.Cycle) :
  Background.session_active (Background.bg m) = true ->
  isPaused (Background.bg m) = false ->
  Background.isUpdateInProgress m = false ->
  Background.resolved
    (Background.getValidTab (Background.env_queries e)
       (Background.env_allTabs e)) = Some t ->
  isValidUrl (url_of t) = true ->
  match fst (Background.sendProcessMessage (Background.env_page e)) with
  | Background.send_returned r => Background.success r = false
  | Background.send_threw _ => True
  end ->
  let '(continue, m') := Background.processOneIteration e m in
  continue = false /\
  Background.monitoringLoop
    ({| Background.cycle_env := e; Background.cycle_commands := cmds |}
       :: rest) m = (Background.loop_exited, m') /\
  activeSession (Background.bg m') = None /\
  storage (Background.bg m') !! "activeSession" = None /\
  prop "status" (storage (Background.bg m') !! "taskState")
    = Some (JStr "error") /\
  currentIterations (Background.bg m') = 0 /\
  last_broadcast (Background.bg m') = Some (stopMonitoringMsg ts_error) /\
  completed_stops (broadcasts (Background.bg m'))
    = completed_stops (broadcasts (Background.bg m)) /\
  Background.isUpdateInProgress m' = false.
Proof.
  intros Ha Hp Hf Ht Hu Hs.
  pose proof (monitoringLoop_break e cmds rest m Ha Hp) as Hloop.
  rewrite (processOneIteration_started e m Ha Hp Hf) in *.
  destruct (iteration_body_failed e
              (with_iterations (currentIterations (Background.bg m) + 1)
                 (Background.bg m)) t Ht Hu Hs) as (x & Hbody & Hbx).
  rewrite Hbody in *. cbn [fst snd] in Hloop.
  cbn [fst snd Background.bg Background.isUpdateInProgress].
  destruct (stop_memory ts_error (Background.env_stop_tabs e) x)
    as (_ & Hc & _ & _ & Hsess).
  pose proof (stop_status_lookup ts_error (Background.env_stop_tabs e) x)
    as Hst.
  split; [reflexivity|]. split; [now apply Hloop|].
  split; [exact Hsess|]. split; [now rewrite stop_storage_lookup|].
  split; [exact Hst|]. split; [exact Hc|]. split; [|split; [|reflexivity]].
  - unfold last_broadcast. rewrite stop_broadcasts. apply last_snoc.
  - rewrite stop_broadcasts, completed_stops_app, Hbx, completed_stops_app.
    cbn [broadcasts with_iterations].
    destruct (fst (Background.sendProcessMessage (Background.env_page e)));
      cbn; lia.
Qed.

(** X8, witness: the page answers the first iteration of the session [t1]
    with a failure. *)
Lemma failed_dispatch_witness :
  last_broadcast
    (Background.bg
       (snd (Background.processOneIteration (replying reply_failed)
               started_monitor)))
  = Some (stopMonitoringMsg ts_error).
Proof.
  pose proof (failed_dispatch_stops_with_error (replying reply_failed)
                started_monitor example_tab [] []) as H.
  destruct (Background.processOneIteration (replying reply_failed)
              started_monitor) as [c m'].
  destruct H as (_ & _ & _ & _ & _ & _ & H & _);
    try (vm_compute; reflexivity).
  exact H.
Defined.







(** ** The page agent's iteration *)

Section PageBroadcasts.
Import Background Updates Page.

Lemma completed_stops_snoc_status l tid st :
  completed_stops (l ++ [processingStatusUpdate tid st]) = completed_stops l.
Proof. rewrite completed_stops_app. cbn. lia. Qed.

Lemma serve_completed_stops tid st now b :
  completed_stops (broadcasts (serve_updateProcessingStatus tid st now b))
  = completed_stops (broadcasts b).
Proof.
  unfold serve_updateProcessingStatus. destruct (negb _); [|reflexivity].
  rewrite (proj2 (proj2 (proj2 (proj2 (proj2 (proj2
             (updateProcessingStatus_frame tid st now b))))))).
  apply completed_stops_snoc_status.
Qed.

Lemma run_actions_completed_stops tid e actions b :
  completed_stops (broadcasts (snd (run_actions tid e actions b)))
  = completed_stops (broadcasts b).
Proof.
  unfold run_actions. destruct actions as [|a actions]; cbn [snd].
  - apply serve_completed_stops.
  - destruct (handleAutomationActions _ _ _) as [rs|msg].
    + destruct (push_results _ _ _); cbn [snd];
        rewrite serve_completed_stops;
        cbn [broadcasts store_set with_storage];
        apply serve_completed_stops.
    + cbn [snd]. rewrite !serve_completed_stops. reflexivity.
Qed.

Lemma handleDOMUpdate_success_stops tid dom e b resp req b2 :
  tid <> "" -> truthy (Some dom) = true ->
  handleDOMUpdate (Some tid) (Some dom) e b = (resp, req, b2) ->
  ur_success resp = true ->
  completed_stops (broadcasts b2) = completed_stops (broadcasts b).
Proof.
  intros Ht Hd Eh Hok.
  pose proof (handleDOMUpdate_cases tid dom e b Ht Hd) as H. cbv zeta in H.
  destruct (results_for tid (storage b !! "iterationResults")) as [rs|];
    [|rewrite H in Eh; injection Eh as <- _ _; discriminate].
  destruct (ue_active e);
    [rewrite H in Eh; injection Eh as <- _ _; discriminate|].
  destruct (ue_all e);
    [rewrite H in Eh; injection Eh as <- _ _; discriminate|].
  rewrite H in Eh. clear H.
  destruct (ue_server e) as [m|data] eqn:Es.
  - unfold round_trip in Eh. rewrite Es in Eh. cbn [fst snd] in Eh.
    injection Eh as <- _ _. discriminate.
  - rewrite (round_trip_success tid e _ data Es) in Eh. cbn [fst snd] in Eh.
    injection Eh as _ _ <-.
    cbn [broadcasts store_set with_storage with_lastUpdateResponse].
    destruct (before_post_frame tid e b) as (_ & _ & _ & -> & _).
    rewrite completed_stops_app. cbn. lia.
Qed.

Lemma record_iterations_processing b :
  prop "processingStatus" (storage (record_iterations b) !! "taskState")
  = prop "processingStatus" (storage b !! "taskState").
Proof.
  unfold record_iterations. destruct (truthy _); [|reflexivity].
  cbn [storage broadcast store_set with_storage].
  rewrite lookup_insert_eq. cbn [prop].
  rewrite obj_get_set_ne by discriminate.
  now apply obj_get_spread_or_empty.
Qed.

End PageBroadcasts.


Section PageIteration.
Import Background Updates Page.

Lemma serve_status tid st now b :
  tid <> "" ->
  prop "processingStatus"
    (storage (serve_updateProcessingStatus tid st now b) !! "taskState")
  = Some (JStr (ProcessingStatus_str st)).
Proof.
  intros Ht. unfold serve_updateProcessingStatus.
  apply String.eqb_neq in Ht. rewrite Ht. cbn [negb].
  apply updateProcessingStatus_status.
Qed.

Lemma serve_frame tid st now b :
  activeSession (serve_updateProcessingStatus tid st now b) = activeSession b /\
  currentIterations (serve_updateProcessingStatus tid st now b)
    = currentIterations b /\
  forall k : string, k <> "taskState" ->
    storage (serve_updateProcessingStatus tid st now b) !! k = storage b !! k.
Proof.
  unfold serve_updateProcessingStatus. destruct (negb _); [|auto].
  repeat split. intros k Hk. now apply updateProcessingStatus_lookup.
Qed.

(** When the actions went through, the last thing done was to record the
    processing status [completed]. *)
Lemma run_actions_ok tid e actions b b' :
  tid <> "" ->
  run_actions tid e actions b = (None, b') ->
  prop "processingStatus" (storage b' !! "taskState")
    = Some (JStr "completed") /\
  activeSession b' = activeSession b /\
  currentIterations b' = currentIterations b /\
  (forall k : string, k <> "taskState" -> k <> "iterationResults" ->
     storage b' !! k = storage b !! k).
Proof.
  intros Ht. unfold run_actions.
  destruct actions as [|a actions].
  - intros [= <-]. split; [now apply serve_status|].
    destruct (serve_frame tid ps_completed (pe_now e 0) b) as (Hs & Hc & Hk).
    repeat split; auto.
  - destruct (handleAutomationActions _ _ _) as [rs|msg]; [|discriminate].
    destruct (push_results _ _ _) as [v|]; [|discriminate].
    intros [= <-]. split; [now apply serve_status|].
    set (b1 := serve_updateProcessingStatus tid ps_executing_actions
                 (pe_now e 0) b).
    destruct (serve_frame tid ps_completed (pe_now e 1)
                (store_set "iterationResults" v b1)) as (Hs & Hc & Hk).
    destruct (serve_frame tid ps_executing_actions (pe_now e 0) b)
      as (Hs1 & Hc1 & Hk1).
    split; [rewrite Hs; exact Hs1|]. split; [rewrite Hc; exact Hc1|].
    intros k H1 H2. rewrite Hk by assumption.
    cbn [store_set storage with_storage].
    rewrite lookup_insert_ne by congruence. now apply Hk1.
Qed.

Lemma handleDOMUpdate_success_form tid dom e b resp req b2 :
  tid <> "" -> truthy (Some dom) = true ->
  handleDOMUpdate (Some tid) (Some dom) e b = (resp, req, b2) ->
  ur_success resp = true ->
  exists data rs,
    ue_server e = update_data data /\
    results_for tid (storage b !! "iterationResults") = Some rs /\
    resp = {| ur_success := true; ur_data := Some data; ur_error := None |} /\
    activeSession b2 = activeSession b /\
    currentIterations b2 = currentIterations b /\
    (forall k : string, k <> "taskState" -> k <> "currentDOMUpdate" ->
       k <> "lastUpdateResponse" -> storage b2 !! k = storage b !! k).
Proof.
  intros Ht Hd Eh Hok.
  pose proof (handleDOMUpdate_cases tid dom e b Ht Hd) as H. cbv zeta in H.
  destruct (results_for tid (storage b !! "iterationResults")) as [rs|];
    [|rewrite H in Eh; injection Eh as <- _ _; discriminate].
  destruct (ue_active e);
    [rewrite H in Eh; injection Eh as <- _ _; discriminate|].
  destruct (ue_all e);
    [rewrite H in Eh; injection Eh as <- _ _; discriminate|].
  rewrite H in Eh. clear H.
  destruct (ue_server e) as [m|data] eqn:Es.
  - unfold round_trip in Eh. rewrite Es in Eh. cbn [fst snd] in Eh.
    injection Eh as <- _ _. discriminate.
  - rewrite (round_trip_success tid e _ data Es) in Eh. cbn [fst snd] in Eh.
    injection Eh as <- _ <-.
    exists data, rs. split; [reflexivity|]. split; [reflexivity|].
    split; [reflexivity|].
    destruct (before_post_frame tid e b) as (Hs & Hc & _).
    split; [exact Hs|]. split; [exact Hc|].
    intros k H1 H2 H3.
    cbn [store_set storage with_storage with_lastUpdateResponse].
    rewrite !lookup_insert_ne by congruence.
    now apply before_post_lookup.
Qed.

(** The shape of a successful page iteration. *)
Lemma singleDOMProcessIteration_success tid e b :
  success (fst (singleDOMProcessIteration tid e b)) = true ->
  tid <> "" /\
  exists data rs b2 b3,
    ue_server (pe_update e) = update_data data /\
    results_for tid (storage b !! "iterationResults") = Some rs /\
    activeSession b2 = activeSession b /\
    currentIterations b2 = currentIterations b /\
    (forall k : string, k <> "taskState" -> k <> "currentDOMUpdate" ->
       k <> "lastUpdateResponse" -> storage b2 !! k = storage b !! k) /\
    completed_stops (broadcasts b3) = completed_stops (broadcasts b) /\
    run_actions tid e (actions_of (Some data)) b2 = (None, b3) /\
    singleDOMProcessIteration tid e b =
      ({| success := true; isDone := is_done_of (Some data);
          response_error := None |},
       page_end tid e (is_done_of (Some data)) b3).
Proof.
  unfold singleDOMProcessIteration.
  destruct (pe_capture e) as [msg|url html title ts structure];
    [discriminate|].
  destruct (pe_lastError e); [discriminate|].
  destruct (handleDOMUpdate (Some tid) _ (pe_update e) b)
    as [[resp req] b2] eqn:Eh.
  destruct (ur_success resp) eqn:Eok; cbn [negb]; [|discriminate].
  destruct (malformed_actions (pe_gt0 e) (ur_data resp));
    [unfold reject_actions; discriminate|].
  destruct (run_actions tid e (actions_of (ur_data resp)) b2)
    as [[msg|] b3] eqn:Er; [discriminate|].
  intros _.
  assert (Ht : tid <> "").
  { intros ->.
    rewrite (handleDOMUpdate_missing (Some "") _ (pe_update e) b
               (or_introl eq_refl)) in Eh.
    injection Eh as <- _ _. discriminate. }
  split; [exact Ht|].
  destruct (handleDOMUpdate_success_form tid
              (domData url html title ts structure) (pe_update e) b resp req
              b2 Ht eq_refl Eh Eok)
    as (data & rs & Hsrv & Hrs & -> & Hs & Hc & Hk).
  cbn [ur_data] in *.
  exists data, rs, b2, b3. repeat split; try assumption.
  pose proof (run_actions_completed_stops tid e (actions_of (Some data)) b2)
    as H3.
  rewrite Er in H3. cbn [snd] in H3. rewrite H3.
  exact (handleDOMUpdate_success_stops tid
           (domData url html title ts structure) (pe_update e) b _ req b2
           Ht eq_refl Eh eq_refl).
Qed.

Lemma announce_done_lookup tid b (k : string) :
  k <> "activeSession" ->
  storage (Processor.announce_done tid b) !! k = storage b !! k.
Proof.
  intros Hk. unfold Processor.announce_done, Processor.persist_completed.
  destruct (truthy _); [|reflexivity].
  cbn [storage broadcast store_set with_storage].
  now rewrite lookup_insert_ne by congruence.
Qed.

Lemma announce_done_broadcasts tid b :
  broadcasts (Processor.announce_done tid b)
  = broadcasts b ++ [processingStatusUpdate tid ps_completed].
Proof.
  unfold Processor.announce_done, Processor.persist_completed.
  now destruct (truthy _).
Qed.

Lemma page_end_processing tid e done b :
  Background.processingDone (storage b) = true ->
  Background.check_processing_status (page_end tid e done b) = true.
Proof.
  intros H. unfold page_end. destruct done.
  - cbn [handle]. rewrite stop_check. unfold Background.processingDone.
    rewrite announce_done_lookup by discriminate. exact H.
  - unfold check_processing_status. rewrite H. apply orb_true_r.
Qed.

End PageIteration.

(** X11. Whenever the page's [singleDOMProcessIteration] replies with
    success, the stored processing status is [completed] afterwards, so the
    completion check of the coordinator and [checkIfProcessingDone] answer
    done, also when the server said [is_done = false] and the reply carries
    [isDone = false]. *)
Theorem successful_page_iteration_reads_done
    (tid : string) (e : Page.PageEnv) (b : Bg) (response : option JSON) :
  Background.success (fst (Page.singleDOMProcessIteration tid e b)) = true ->
  let b' := snd (Page.singleDOMProcessIteration tid e b) in
  Background.check_processing_status b' = true /\
  Processor.checkIfProcessingDone (storage b') response = true /\
  prop "processingStatus" (storage b' !! "taskState")
    = Some (JStr "completed").
Proof.
  intros Hok. cbv zeta.
  destruct (singleDOMProcessIteration_success tid e b Hok)
    as (Ht & data & rs & b2 & b3 & _ & _ & _ & _ & _ & _ & Hrun & ->).
  cbn [snd].
  destruct (run_actions_ok tid e _ b2 b3 Ht Hrun) as (Hps & _).
  assert (Hpd : Background.processingDone (storage b3) = true).
  { unfold Background.processingDone. now rewrite Hps. }
  assert (Hcheck : Background.check_processing_status
                     (page_end tid e (Page.is_done_of (Some data)) b3)
                   = true) by now apply page_end_processing.
  split; [exact Hcheck|]. split.
  - rewrite checkIfProcessingDone_unfold.
    unfold Background.check_processing_status in Hcheck. now rewrite Hcheck.
  - unfold page_end. destruct (Page.is_done_of (Some data)); [|exact Hps].
    cbn [Background.handle]. rewrite stop_processing_lookup.
    now rewrite announce_done_lookup by discriminate.
Qed.

(** X11, witness: the server answers with no actions and
    [is_done = false]; the page replies [isDone = false], and the completion
    check answers done. *)
Lemma successful_page_iteration_witness :
  Background.isDone
    (fst (Page.singleDOMProcessIteration "t1"
            (page_env (Updates.update_data (plan [] false))
               (Page.exec_results [])) running_t1)) = false /\
  Background.check_processing_status
    (snd (Page.singleDOMProcessIteration "t1"
            (page_env (Updates.update_data (plan [] false))
               (Page.exec_results [])) running_t1)) = true.
Proof.
  split; [vm_compute; reflexivity|].
  apply (successful_page_iteration_reads_done "t1"
           (page_env (Updates.update_data (plan [] false))
              (Page.exec_results [])) running_t1 None).
  vm_compute. reflexivity.
Defined.


Lemma mark_completed_none b :
  activeSession b = None -> Background.mark_completed b = b.
Proof. intros H. unfold Background.mark_completed. now rewrite H. Qed.

(** X12. A whole iteration whose plan the server marks [is_done]: the
    background enters the iteration, the page runs it (update, actions,
    announcement, request to stop) and replies success with
    [isDone = true], and the background interprets the reply.  Then
    [processOneIteration] is left with [false], no session remains, the
    last four broadcasts are the page's [completed] status, the
    [stopMonitoring] with status [idle] of the stop the page asked for, an
    [iterationUpdate] announcing 0 (the stop has reset the counter) and one
    [stopMonitoring] with status [completed]; that one is the only such
    broadcast added, and the completion check answers done afterwards. *)
Theorem done_iteration_end_to_end
    (pe : Page.PageEnv) (ie : Background.IterEnv) (m : Background.Monitor)
    (t : Tab) :
  Background.session_active (Background.bg m) = true ->
  isPaused (Background.bg m) = false ->
  Background.isUpdateInProgress m = false ->
  let m1 := snd (Background.iteration_enter m) in
  let page :=
    Page.singleDOMProcessIteration (Background.task_id m) pe
      (Background.bg m1) in
  Background.success (fst page) = true ->
  Background.isDone (fst page) = true ->
  Background.resolved
    (Background.getValidTab (Background.env_queries ie)
       (Background.env_allTabs ie)) = Some t ->
  isValidUrl (url_of t) = true ->
  fst (Background.sendProcessMessage (Background.env_page ie))
    = Background.send_returned (fst page) ->
  let '(continue, m') :=
    Background.iteration_finish ie (Background.with_bg (snd page) m1) in
  continue = false /\
  activeSession (Background.bg m') = None /\
  currentIterations (Background.bg m') = 0 /\
  (exists pre,
     broadcasts (Background.bg m') =
       pre ++ [processingStatusUpdate (Background.task_id m) ps_completed;
               stopMonitoringMsg ts_idle;
               iterationUpdate 0;
               stopMonitoringMsg ts_completed]) /\
  completed_stops (broadcasts (Background.bg m'))
    = S (completed_stops (broadcasts (Background.bg m))) /\
  Background.check_processing_status (Background.bg m') = true /\
  Background.isUpdateInProgress m' = false.
Proof.
  intros Ha Hp Hf. cbv zeta. intros Hok Hdone Ht Hu Hs.
  assert (Hm1 : Background.bg (snd (Background.iteration_enter m)) =
                with_iterations (currentIterations (Background.bg m) + 1)
                  (Background.bg m)).
  { unfold Background.iteration_enter. now rewrite Ha, Hp, Hf. }
  destruct (singleDOMProcessIteration_success (Background.task_id m) pe
              (Background.bg (snd (Background.iteration_enter m))) Hok)
    as (Htid & data & rs & b2 & b3 & _ & _ & _ & _ & _ & Hcs & Hrun & Hpage).
  rewrite Hpage in Hdone, Hs |- *. cbn [fst snd Background.isDone] in *.
  rewrite Hdone in *. unfold page_end. cbn [Background.handle].
  set (tid := Background.task_id m) in *.
  set (stopped := Background.stopMonitoring ts_idle (Page.pe_stop_tabs pe)
                    (Processor.announce_done tid b3)).
  unfold Background.iteration_finish. cbn [Background.bg Background.with_bg].
  rewrite (iteration_body_done ie stopped t _ Ht Hu Hs eq_refl eq_refl).
  cbn [Background.bg Background.isUpdateInProgress].
  destruct (stop_memory ts_idle (Page.pe_stop_tabs pe)
              (Processor.announce_done tid b3)) as (_ & Hc0 & _ & _ & Hs0).
  fold stopped in Hc0, Hs0.
  destruct (run_actions_ok tid pe _ b2 b3 Htid Hrun) as (Hps & _).
  split; [reflexivity|]. split; [apply stop_memory|].
  split; [apply stop_memory|]. split; [|split; [|split; [|reflexivity]]].
  - exists (broadcasts b3). rewrite done_broadcasts, Hc0.
    subst stopped. rewrite stop_broadcasts, announce_done_broadcasts.
    now rewrite <- !app_assoc.
  - rewrite done_broadcasts, completed_stops_app.
    subst stopped.
    rewrite stop_broadcasts, announce_done_broadcasts,
      !completed_stops_app, Hcs, Hm1.
    cbn [broadcasts with_iterations]. cbn. lia.
  - rewrite stop_check. unfold Background.processingDone.
    rewrite mark_completed_none
      by (now rewrite (proj1 (proj2 (record_iterations_frame stopped)))).
    rewrite record_iterations_processing. subst stopped.
    rewrite stop_processing_lookup.
    rewrite announce_done_lookup by discriminate. now rewrite Hps.
Qed.

(** X12, witness: the first iteration of the session [t1], answered by the
    server with no actions and [is_done = true]. *)
Lemma done_iteration_end_to_end_witness :
  completed_stops
    (broadcasts
       (Background.bg
          (snd (Background.iteration_finish (replying reply_done)
                  (Background.with_bg
                     (snd (Page.singleDOMProcessIteration "t1"
                             (page_env (Updates.update_data (plan [] true))
                                (Page.exec_results []))
                             (Background.bg
                                (snd (Background.iteration_enter
                                        started_monitor)))))
                     (snd (Background.iteration_enter started_monitor)))))))
  = 1%nat.
Proof.
  pose proof (done_iteration_end_to_end
                (page_env (Updates.update_data (plan [] true))
                   (Page.exec_results []))
                (replying reply_done) started_monitor example_tab) as H.
  cbv zeta in H.
  destruct (Background.iteration_finish _ _) as [c m'].
  destruct H as (_ & _ & _ & _ & H & _); try (vm_compute; reflexivity).
  exact H.
Defined.

Section Accumulation.
Import Background Updates Page.

Lemma results_for_push tid results stored old v :
  results_for tid stored = Some old ->
  push_results tid results stored = Some v ->
  v = JArr (match stored with Some (JArr l) => l | _ => [] end
            ++ [results_entry tid results]) /\
  results_for tid (Some v) = Some (old ++ [results_entry tid results]).
Proof.
  unfold results_for, push_results. fold (results_entry tid results).
  assert (He : is_str tid (prop "task_id" (Some (results_entry tid results)))
               = true).
  { cbn. apply String.eqb_refl. }
  destruct (truthy stored) eqn:Etr.
  - destruct stored as [[| | | | l |]|]; try discriminate.
    destruct (existsb is_null l) eqn:En; [discriminate|].
    intros [= <-] [= <-]. split; [reflexivity|].
    cbn [truthy]. rewrite existsb_app, En. cbn [existsb is_null
      results_entry orb]. rewrite List.filter_app. cbn [List.filter].
    now rewrite He.
  - intros [= <-] [= <-]. split.
    + destruct stored as [[| | | | l |]|]; try reflexivity; discriminate.
    + cbn [truthy existsb is_null results_entry orb List.filter].
      now rewrite He.
Qed.

End Accumulation.

(** X13. A page iteration that replies with success for a plan with actions
    that is not the last one has stored exactly one more entry under
    [iterationResults]: the results the executor reported for this plan,
    those of failed actions included, after the entries stored before.  The
    next update for the task therefore carries the results already sent and
    the new ones. *)
Theorem page_iteration_accumulates_results
    (tid : string) (e : Page.PageEnv) (b : Bg) (data first : JSON)
    (others : list JSON) :
  Background.success (fst (Page.singleDOMProcessIteration tid e b)) = true ->
  Updates.ue_server (Page.pe_update e) = Updates.update_data data ->
  Page.actions_of (Some data) = first :: others ->
  Page.is_done_of (Some data) = false ->
  let b' := snd (Page.singleDOMProcessIteration tid e b) in
  exists results old,
    Page.pe_exec e = Page.exec_results results /\
    Updates.results_for tid (storage b !! "iterationResults") = Some old /\
    stored_results b'
      = stored_results b ++ [results_entry tid results] /\
    Updates.results_for tid (storage b' !! "iterationResults")
      = Some (old ++ [results_entry tid results]).
Proof.
  intros Hok Hsrv Hacts Hnd. cbv zeta.
  destruct (singleDOMProcessIteration_success tid e b Hok)
    as (Ht & data' & old & b2 & b3 & Hsrv' & Hold & _ & _ & Hk & _
        & Hrun & ->).
  rewrite Hsrv in Hsrv'. injection Hsrv' as <-.
  rewrite Hnd. unfold page_end. cbn [snd].
  rewrite Hacts in Hrun. unfold Page.run_actions in Hrun.
  destruct (Page.handleAutomationActions _ _ _) as [results|msg] eqn:Eh;
    [|discriminate].
  unfold Page.handleAutomationActions in Eh.
  destruct (negb (Page.pe_handler e)); [discriminate|].
  destruct (Page.pe_exec e) as [results'| |] eqn:Eex; try discriminate.
  injection Eh as ->.
  set (b2' := Updates.serve_updateProcessingStatus tid ps_executing_actions
                (Page.pe_now e 0) b2) in *.
  assert (Hst : storage b2' !! "iterationResults"
                = storage b !! "iterationResults").
  { subst b2'.
    rewrite (proj2 (proj2 (serve_frame tid ps_executing_actions
                             (Page.pe_now e 0) b2))) by discriminate.
    now apply Hk. }
  destruct (Page.push_results tid results (storage b2' !! "iterationResults"))
    as [v|] eqn:Ep; [|discriminate].
  injection Hrun as <-.
  rewrite Hst in Ep.
  destruct (results_for_push tid results _ old v Hold Ep) as (Hv & Hr).
  assert (Hfinal : storage
                     (Updates.serve_updateProcessingStatus tid ps_completed
                        (Page.pe_now e 1)
                        (store_set "iterationResults" v b2'))
                     !! "iterationResults" = Some v).
  { rewrite (proj2 (proj2 (serve_frame tid ps_completed (Page.pe_now e 1)
                             (store_set "iterationResults" v b2'))))
      by discriminate.
    cbn [store_set storage with_storage]. apply lookup_insert_eq. }
  exists results, old. split; [reflexivity|]. split; [exact Hold|].
  split.
  - unfold stored_results. rewrite Hfinal. now rewrite Hv.
  - now rewrite Hfinal.
Qed.

(** X13, witness: the plan has one action, which the executor reports as
    failed. *)
Lemma page_iteration_accumulates_witness :
  stored_results
    (snd (Page.singleDOMProcessIteration "t1"
            (page_env (Updates.update_data (plan [click_action] false))
               (Page.exec_results [failing_result])) running_t1))
  = [results_entry "t1" [failing_result]].
Proof.
  destruct (page_iteration_accumulates_results "t1"
              (page_env (Updates.update_data (plan [click_action] false))
                 (Page.exec_results [failing_result])) running_t1
              (plan [click_action] false) click_action [])
    as (results & old & Hex & _ & H & _);
    [vm_compute; reflexivity ..|].
  injection Hex as <-. exact H.
Defined.

(** ** Exits of an iteration of the interval-based coordinator *)

Section LegacyExits.
Import Background.

Lemma legacy_body_by_reply tid e b :
  match legacy_reply e with
  | Some r =>
      if success r then
        exists x,
          apart_from_tab_messages x = apart_from_tab_messages b /\
          Legacy.iteration_body tid e b =
            let counted :=
              Legacy.record_iterations
                (with_iterations (currentIterations x + 1) x) in
            if isDone r
            then Legacy.stopMonitoring (Legacy.env_now e)
                   (Legacy.mark_completed counted)
            else counted
      else apart_from_tab_messages (Legacy.iteration_body tid e b)
           = apart_from_tab_messages b
  | None => apart_from_tab_messages (Legacy.iteration_body tid e b)
            = apart_from_tab_messages b
  end.
Proof.
  unfold legacy_reply, Legacy.iteration_body.
  destruct (Legacy.usable_tab (Legacy.env_tabs e)) as [t|]; [|reflexivity].
  destruct (negb (ping_ok (Legacy.env_page e))
            && negb (inject_ok (Legacy.env_page e))); [reflexivity|].
  destruct (delivery (Legacy.env_page e)) as [msg|[r|]];
    cbv beta iota zeta; cbn [success]; try reflexivity.
  destruct (success r); [|reflexivity].
  exists (tab_send (id_of t) (singleDOMProcess tid)
            (tab_send (id_of t) ping b)).
  split; reflexivity.
Qed.

Lemma legacy_record_frame b :
  monitoringInterval (Legacy.record_iterations b) = monitoringInterval b /\
  activeSession (Legacy.record_iterations b) = activeSession b /\
  isPaused (Legacy.record_iterations b) = isPaused b /\
  broadcasts (Legacy.record_iterations b)
    = broadcasts b ++ [iterationUpdate (currentIterations b)] /\
  storage (Legacy.record_iterations b) !! "activeSession"
    = storage b !! "activeSession".
Proof.
  unfold Legacy.record_iterations. destruct (truthy _); repeat split.
  cbn [storage broadcast store_set with_storage].
  now rewrite lookup_insert_ne.
Qed.

Lemma legacy_stop_frame now b :
  monitoringInterval (Legacy.stopMonitoring now b) = None /\
  activeSession (Legacy.stopMonitoring now b) = activeSession b /\
  isPaused (Legacy.stopMonitoring now b) = isPaused b /\
  broadcasts (Legacy.stopMonitoring now b) = broadcasts b /\
  storage (Legacy.stopMonitoring now b) !! "activeSession"
    = storage b !! "activeSession".
Proof.
  unfold Legacy.stopMonitoring. destruct (truthy _); repeat split.
  cbn [storage store_set with_storage with_interval].
  now rewrite !lookup_insert_ne by discriminate.
Qed.

End LegacyExits.

(** X14. In the interval-based coordinator an iteration that is answered
    with success and [isDone = true] cancels the timer, so that no further
    tick runs, and adds one to the counter; a session in memory gets the
    status [completed], stays in memory and is written to the store, so
    that the completion check of this coordinator answers done afterwards.
    The only broadcast is the [iterationUpdate] with the new count. *)
Theorem legacy_done_iteration_completes
    (e : Legacy.IterEnv) (m : Background.Monitor) (r : Background.Response)
    (s : Session) :
  legacy_reply e = Some r ->
  Background.success r = true ->
  Background.isDone r = true ->
  activeSession (Background.bg m) = Some s ->
  let m' := Legacy.iteration_finish e m in
  monitoringInterval (Background.bg m') = None /\
  Legacy.step Legacy.tick m' = None /\
  activeSession (Background.bg m') = Some (finished s) /\
  storage (Background.bg m') !! "activeSession"
    = Some (Session_json (finished s)) /\
  Legacy.check_processing_status (Background.bg m') = true /\
  currentIterations (Background.bg m')
    = currentIterations (Background.bg m) + 1 /\
  broadcasts (Background.bg m')
    = broadcasts (Background.bg m)
      ++ [iterationUpdate (currentIterations (Background.bg m) + 1)] /\
  Background.isUpdateInProgress m' = false.
Proof.
  intros Hr Hok Hd Hs. cbv zeta.
  pose proof (legacy_body_by_reply (Background.task_id m) e
                (Background.bg m)) as H.
  rewrite Hr, Hok in H. destruct H as (x & Hx & Hbody).
  cbv zeta in Hbody. rewrite Hd in Hbody.
  unfold Legacy.iteration_finish, Legacy.step.
  cbn [Background.bg Background.isUpdateInProgress]. rewrite Hbody.
  injection Hx as Hi Hc Hp Hl Hsx Hstx Hbx _ _.
  set (counted := Legacy.record_iterations
                    (with_iterations (currentIterations x + 1) x)).
  destruct (legacy_stop_frame (Legacy.env_now e)
              (Legacy.mark_completed counted))
    as (Hti & Hts & _ & Htb & Htst).
  destruct (mark_completed_frame counted) as (Hmc & Hmb & Hms & Hmst).
  destruct (legacy_record_frame (with_iterations (currentIterations x + 1) x))
    as (_ & Hrs & _ & Hrb & _).
  fold counted in Hrs, Hrb.
  assert (Hsess : activeSession counted = Some s).
  { rewrite Hrs. cbn [activeSession with_iterations]. now rewrite Hsx. }
  rewrite Hsess in Hms, Hmst.
  assert (Hstore : storage
                     (Legacy.stopMonitoring (Legacy.env_now e)
                        (Legacy.mark_completed counted))
                     !! "activeSession" = Some (Session_json (finished s))).
  { rewrite Htst. exact Hmst. }
  split; [exact Hti|]. split; [now rewrite Hti|].
  split; [rewrite Hts; exact Hms|]. split; [exact Hstore|].
  split; [|split; [|split; [|reflexivity]]].
  - unfold Legacy.check_processing_status. rewrite Hstore.
    destruct s as [id st p]. now destruct p.
  - rewrite legacy_stop_counter. unfold Legacy.mark_completed.
    rewrite Hmc. subst counted. rewrite legacy_record_counter.
    cbn [currentIterations with_iterations]. now rewrite Hc.
  - rewrite Htb. unfold Legacy.mark_completed. rewrite Hmb, Hrb.
    cbn [broadcasts currentIterations with_iterations].
    now rewrite Hbx, Hc.
Qed.

(** X14, witness: the first iteration of the session [t1] under the
    interval-based coordinator is answered with [isDone = true]. *)
Lemma legacy_done_iteration_witness :
  Legacy.check_processing_status
    (Background.bg
       (Legacy.iteration_finish
          (legacy_env (Background.delivered (Some reply_done)))
          (Legacy.startMonitoring "t1" 1 running_t1))) = true.
Proof.
  apply (legacy_done_iteration_completes
           (legacy_env (Background.delivered (Some reply_done)))
           (Legacy.startMonitoring "t1" 1 running_t1) reply_done session_t1);
    vm_compute; reflexivity.
Defined.

(** X15. In the interval-based coordinator an iteration that does not get a
    reply with success (no usable tab, the content script cannot be
    injected, the delivery fails, the page replies nothing or a failure)
    changes nothing but the log of messages sent to the tab: the timer, the
    session, the counter, the pause flag, the store and the broadcasts are
    as before, and the in-progress flag is clear, so that the next tick
    starts another iteration. *)
Theorem legacy_failed_iteration_changes_nothing
    (e : Legacy.IterEnv) (m : Background.Monitor) (timer : nat) :
  match legacy_reply e with
  | Some r => Background.success r = false
  | None => True
  end ->
  monitoringInterval (Background.bg m) = Some timer ->
  isPaused (Background.bg m) = false ->
  let m' := Legacy.iteration_finish e m in
  apart_from_tab_messages (Background.bg m')
    = apart_from_tab_messages (Background.bg m) /\
  Background.isUpdateInProgress m' = false /\
  exists m'', Legacy.step Legacy.tick m' = Some m'' /\
              Background.isUpdateInProgress m'' = true /\
              Background.in_flight m''
                = S (Background.in_flight m').
Proof.
  intros Hr Ht Hp. cbv zeta.
  pose proof (legacy_body_by_reply (Background.task_id m) e
                (Background.bg m)) as H.
  assert (Hsame : apart_from_tab_messages
                    (Legacy.iteration_body (Background.task_id m) e
                       (Background.bg m))
                  = apart_from_tab_messages (Background.bg m)).
  { destruct (legacy_reply e) as [r|]; [|exact H].
    rewrite Hr in H. exact H. }
  split; [exact Hsame|]. split; [reflexivity|].
  injection Hsame as Hi _ Hpa _ _ _ _ _ _.
  unfold Legacy.step, Legacy.iteration_finish.
  cbn [Background.bg Background.isUpdateInProgress Background.in_flight].
  rewrite Hi, Ht, Hpa, Hp. cbn [negb andb].
  unfold Legacy.iteration_enter.
  cbn [Background.bg Background.isUpdateInProgress]. rewrite Hpa, Hp.
  eexists. split; [reflexivity|]. split; reflexivity.
Qed.

(** X15, witness: the delivery to the page fails during the first iteration
    of the session [t1]. *)
Lemma legacy_failed_iteration_witness :
  apart_from_tab_messages
    (Background.bg
       (Legacy.iteration_finish
          (legacy_env
             (Background.lastError
                (Some "Could not establish connection. Receiving end does not exist.")))
          (Legacy.startMonitoring "t1" 1 running_t1)))
  = apart_from_tab_messages
      (Background.bg (Legacy.startMonitoring "t1" 1 running_t1)).
Proof.
  apply (legacy_failed_iteration_changes_nothing
           (legacy_env
              (Background.lastError
                 (Some "Could not establish connection. Receiving end does not exist.")))
           (Legacy.startMonitoring "t1" 1 running_t1) 1);
    vm_compute; reflexivity.
Defined.

(** ** The popup *)

Lemma obj_get_spread k v :
  named_key k = true -> obj_get k (spread v) = prop k (Some v).
Proof.
  intros Hk. destruct v as [| b | n | s | l | fs]; try reflexivity;
    now apply obj_get_index_fields.
Qed.

Lemma completed_state_fields prev :
  prop "status" (Some (Popup.completed_state prev))
    = Some (JStr "completed") /\
  prop "isRunning" (Some (Popup.completed_state prev))
    = Some (JBool false) /\
  forall k, named_key k = true -> k <> "status" -> k <> "isRunning" ->
            prop k (Some (Popup.completed_state prev)) = prop k (Some prev).
Proof.
  unfold Popup.completed_state. cbn [prop]. split; [|split].
  - rewrite obj_get_set_ne by discriminate. apply obj_get_set_eq.
  - apply obj_get_set_eq.
  - intros k Hk H1 H2. rewrite !obj_get_set_ne by assumption.
    now apply obj_get_spread.
Qed.

Lemma completed_state_again prev :
  Popup.completed_state (Popup.completed_state prev)
  = Popup.completed_state prev.
Proof.
  unfold Popup.completed_state. cbn [spread]. f_equal.
  rewrite (obj_set_id "status").
  2:{ rewrite obj_get_set_ne by discriminate. apply obj_get_set_eq. }
  apply obj_set_id, obj_get_set_eq.
Qed.

(** X16. Whatever final status [stopMonitoring] of the loop-based
    coordinator is called with ([error] and [idle] included), the popup
    that receives its broadcast shows the status [completed] and not
    running and keeps every other named property of its state (task, task
    id, pause flag, iteration count).  Its listener then overwrites the
    stored task state with the state it had when it was mounted, marked
    [completed] and not running, and touches no other key.  The state shown
    is the same after the three broadcasts that end a finished iteration (a
    stop, an [iterationUpdate] announcing 0 and the stop with status
    [completed]): the count shown is not reset by the 0. *)
Theorem popup_shows_completed_after_any_stop
    (f : TaskStatus) (tabs : list Tab) (b : Bg) (mounted st : JSON) :
  let stopped := Background.stopMonitoring f tabs b in
  let emitted := drop (length (broadcasts b)) (broadcasts stopped) in
  let shown := fst (popup_after mounted emitted (st, stopped)) in
  let b' := snd (popup_after mounted emitted (st, stopped)) in
  let ended :=
    fst (popup_after mounted
           [stopMonitoringMsg f; iterationUpdate 0;
            stopMonitoringMsg ts_completed] (st, stopped)) in
  emitted = [stopMonitoringMsg f] /\
  prop "status" (Some shown) = Some (JStr "completed") /\
  prop "isRunning" (Some shown) = Some (JBool false) /\
  (forall k, named_key k = true -> k <> "status" -> k <> "isRunning" ->
     prop k (Some shown) = prop k (Some st)) /\
  prop "status" (storage b' !! "taskState") = Some (JStr "completed") /\
  prop "isRunning" (storage b' !! "taskState") = Some (JBool false) /\
  (forall k, named_key k = true -> k <> "status" -> k <> "isRunning" ->
     prop k (storage b' !! "taskState") = prop k (Some mounted)) /\
  (forall k : string, k <> "taskState" ->
     storage b' !! k = storage stopped !! k) /\
  ended = shown.
Proof.
  cbv zeta. rewrite stop_broadcasts, drop_app_length.
  cbn [popup_after foldl popup_react Popup.messageListener fst snd].
  change (0 =? 0) with true. cbv iota.
  change (spread (Popup.completed_state st))
    with (obj_set "isRunning" (JBool false)
            (obj_set "status" (JStr "completed") (spread st))).
  fold (Popup.completed_state st). rewrite completed_state_again.
  destruct (completed_state_fields st) as (H1 & H2 & H3).
  destruct (completed_state_fields mounted) as (M1 & M2 & M3).
  split; [reflexivity|]. split; [exact H1|]. split; [exact H2|].
  split; [exact H3|].
  cbn [storage store_set with_storage]. rewrite lookup_insert_eq.
  split; [exact M1|]. split; [exact M2|]. split; [exact M3|].
  split; [|reflexivity].
  intros k Hk. now rewrite lookup_insert_ne by congruence.
Qed.

Section PopupRestore.
Import Background.

Lemma session_store_fields s :
  prop "taskId" (Some (Session_json s)) = Some (JStr (taskId s)) /\
  prop "status" (Some (Session_json s))
    = Some (JStr (SessionStatus_str (status s))) /\
  prop "isPaused" (Some (Session_json s)) = JBool <$> session_isPaused s.
Proof. destruct s as [id st [p|]]; repeat split. Qed.

Lemma paused_store p st now b s :
  activeSession b = Some s ->
  let b' :=
    when_taskState st now
      (broadcast (pauseStateChanged p)
         (set_session_paused p (with_isPaused p b))) in
  storage b' !! "activeSession" = Some (Session_json (flagged p s)) /\
  storage b' !! "taskState" =
    if truthy (storage b !! "taskState")
    then Some (JObj (obj_set "lastUpdateTimestamp" (JStr now)
                       (obj_set "processingStatus"
                          (JStr (ProcessingStatus_str st))
                          (spread_or_empty (storage b !! "taskState")))))
    else storage b !! "taskState".
Proof.
  intros Hs. cbv zeta.
  rewrite (proj2 (proj2 (proj2 (when_taskState_frame st now _)))).
  cbn [storage broadcast].
  rewrite (proj2 (proj2 (proj2 (set_session_paused_spec p
                                  (with_isPaused p b))))).
  cbn [activeSession with_isPaused]. rewrite Hs. split; [reflexivity|].
  assert (Hts : storage (broadcast (pauseStateChanged p)
                           (set_session_paused p (with_isPaused p b)))
                !! "taskState" = storage b !! "taskState").
  { cbn [storage broadcast]. unfold set_session_paused.
    cbn [activeSession with_isPaused]. rewrite Hs.
    cbn [persist_session store_set with_storage with_session storage
         with_isPaused].
    now rewrite lookup_insert_ne by discriminate. }
  unfold when_taskState. rewrite Hts.
  destruct (truthy (storage b !! "taskState")); [|exact Hts].
  rewrite (proj1 (updateProcessingStatus_frame _ st now _)).
  rewrite lookup_insert_eq. now rewrite Hts.
Qed.

Lemma restoreSession_fields stored prev s :
  stored !! "activeSession" = Some (Session_json s) ->
  status s = active -> taskId s <> "" ->
  forall p, session_isPaused s = Some p ->
  let shown := Popup.restoreSession stored prev in
  prop "taskId" (Some shown) = Some (JStr (taskId s)) /\
  prop "status" (Some shown)
    = Some (JStr (if p then "paused" else "running")) /\
  prop "isRunning" (Some shown) = Some (JBool true) /\
  prop "isPaused" (Some shown) = Some (JBool p) /\
  forall k, named_key k = true -> k ∉ session_fields ->
            prop k (Some shown)
            = prop k (restored_base (stored !! "taskState") prev).
Proof.
  intros Hst Ha Hid p Hp. cbv zeta. unfold Popup.restoreSession.
  rewrite Hst.
  destruct (session_store_fields s) as (-> & -> & ->).
  rewrite Ha, Hp. cbn [SessionStatus_str fmap option_fmap option_map].
  change (truthy (Some (JStr (taskId s))))
    with (negb (String.eqb (taskId s) "")).
  apply String.eqb_neq in Hid. rewrite Hid. cbn [negb].
  change (is_str "completed" (Some (JStr "active"))) with false.
  change (is_str "error" (Some (JStr "active"))) with false.
  change (is_str "active" (Some (JStr "active"))) with true.
  cbv iota. cbn [prop].
  split; [|split; [|split; [|split]]].
  - rewrite !obj_get_set_ne by discriminate. apply obj_get_set_eq.
  - rewrite !obj_get_set_ne by discriminate.
    rewrite obj_get_set_eq. now destruct p.
  - rewrite obj_get_set_ne by discriminate. apply obj_get_set_eq.
  - rewrite obj_get_set_eq. now destruct p.
  - intros k Hk Hn. unfold session_fields in Hn.
    rewrite !not_elem_of_cons in Hn. destruct Hn as (N1 & N2 & N3 & N4 & _).
    rewrite !obj_get_set_ne by assumption. rewrite obj_get_spread by exact Hk.
    unfold restored_base.
    destruct (stored !! "taskState") as [j|]; [|reflexivity].
    now destruct (truthy (Some j)).
Qed.

End PopupRestore.

(** X17. The popup reads back what the background persisted.  For a session
    with status [active] and a task id, after [pauseMonitoring] the mount
    callback of the popup shows that task id, status [paused], running and
    paused; after [resumeMonitoring] it shows status [running], running
    and not paused.  Every other named property shown (the task and the
    iteration count among them) is that of the stored task state when one
    is stored, and else that of the state the popup had; with a stored
    task state the popup also shows the processing status that the pause or
    the resume recorded. *)
Theorem popup_restores_pause_state
    (now : string) (b : Bg) (s : Session) (prev : JSON) :
  activeSession b = Some s ->
  status s = active ->
  taskId s <> "" ->
  let paused := Popup.restoreSession
                  (storage (Background.pauseMonitoring now b)) prev in
  let resumed := Popup.restoreSession
                   (storage (Background.resumeMonitoring now b)) prev in
  let base := restored_base (storage b !! "taskState") prev in
  prop "taskId" (Some paused) = Some (JStr (taskId s)) /\
  prop "status" (Some paused) = Some (JStr "paused") /\
  prop "isRunning" (Some paused) = Some (JBool true) /\
  prop "isPaused" (Some paused) = Some (JBool true) /\
  prop "taskId" (Some resumed) = Some (JStr (taskId s)) /\
  prop "status" (Some resumed) = Some (JStr "running") /\
  prop "isRunning" (Some resumed) = Some (JBool true) /\
  prop "isPaused" (Some resumed) = Some (JBool false) /\
  (forall k, named_key k = true -> k ∉ session_fields ->
     k <> "processingStatus" -> k <> "lastUpdateTimestamp" ->
     prop k (Some paused) = prop k base /\
     prop k (Some resumed) = prop k base) /\
  (truthy (storage b !! "taskState") = true ->
   prop "processingStatus" (Some paused) = Some (JStr "paused") /\
   prop "processingStatus" (Some resumed) = Some (JStr "idle")).
Proof.
  intros Hs Hst Hid. cbv zeta.
  destruct (paused_store true ps_paused now b s Hs) as [Hpa Hpt].
  destruct (paused_store false ps_idle now b s Hs) as [Hra Hrt].
  fold (Background.pauseMonitoring now b) in Hpa, Hpt.
  fold (Background.resumeMonitoring now b) in Hra, Hrt.
  destruct (restoreSession_fields
              (storage (Background.pauseMonitoring now b)) prev
              (flagged true s) Hpa Hst Hid true eq_refl)
    as (P1 & P2 & P3 & P4 & P5).
  destruct (restoreSession_fields
              (storage (Background.resumeMonitoring now b)) prev
              (flagged false s) Hra Hst Hid false eq_refl)
    as (R1 & R2 & R3 & R4 & R5).
  do 8 (split; [assumption|]).
  assert (Hbase : forall st k,
    named_key k = true ->
    k <> "processingStatus" -> k <> "lastUpdateTimestamp" ->
    prop k (restored_base
              (if truthy (storage b !! "taskState")
               then Some (JObj (obj_set "lastUpdateTimestamp" (JStr now)
                                  (obj_set "processingStatus"
                                     (JStr (ProcessingStatus_str st))
                                     (spread_or_empty
                                        (storage b !! "taskState")))))
               else storage b !! "taskState") prev)
    = prop k (restored_base (storage b !! "taskState") prev)).
  { intros st k Hk H1 H2. unfold restored_base.
    destruct (truthy (storage b !! "taskState")) eqn:Et.
    - cbn [truthy prop]. rewrite !obj_get_set_ne by assumption.
      now apply obj_get_spread_or_empty.
    - now rewrite Et. }
  split.
  - intros k Hk Hn H1 H2. rewrite P5, R5 by assumption.
    rewrite Hpt, Hrt. split; now apply Hbase.
  - intros Et. rewrite P5, R5; try reflexivity;
      try (unfold session_fields; rewrite !not_elem_of_cons;
           repeat split; try discriminate; apply not_elem_of_nil).
    rewrite Hpt, Hrt, Et. unfold restored_base. cbn [truthy prop].
    split; (rewrite obj_get_set_ne by discriminate; apply obj_get_set_eq).
Qed.

(** X17, witness: the session [t1], whose stored task state holds the task
    and the iteration count. *)
Lemma popup_restores_pause_state_witness :
  let shown :=
    Popup.restoreSession
      (storage (Background.pauseMonitoring "2025-01-01T00:00:01.000Z"
                  running_t1)) Popup.initialState in
  prop "status" (Some shown) = Some (JStr "paused") /\
  prop "task" (Some shown) = Some (JStr "find the login button").
Proof.
  destruct (popup_restores_pause_state "2025-01-01T00:00:01.000Z" running_t1
              session_t1 Popup.initialState)
    as (_ & H & _ & _ & _ & _ & _ & _ & Hk & _);
    [reflexivity|reflexivity|discriminate|].
  split; [exact H|].
  destruct (Hk "task") as [Ht _];
    [reflexivity| |discriminate|discriminate|].
  - unfold session_fields. rewrite !not_elem_of_cons.
    repeat split; try discriminate. apply not_elem_of_nil.
  - cbv zeta. rewrite Ht. vm_compute. reflexivity.
Defined.

(** ** Bounds of the Content Bridge and the Tab Locator *)

Section SendBounds.
Import Background.

Lemma stale_iff e :
  stale e <->
  exists r, fst (attemptSend e) = attempt_resolved (Some r) /\
            final_response r = false.
Proof.
  unfold stale. split.
  - intros (r & msg & Hr & Hs & He & Hi). exists r. split; [exact Hr|].
    apply final_response_false. eauto.
  - intros (r & Hr & Hf). apply final_response_false in Hf
      as (Hs & msg & He & Hi). eauto 10.
Qed.

Lemma attempt_counts e :
  (attempts_made (snd (attemptSend e)) <= 1)%nat /\
  pings_made (snd (attemptSend e)) = 1%nat /\
  backoffs (snd (attemptSend e)) = [].
Proof.
  unfold attemptSend.
  destruct (ping_ok e); [|destruct (inject_ok e)]; cbn; repeat split; lia.
Qed.

Lemma send_loop_stops (page : nat -> AttemptEnv) (maxRetries : nat)
    left rc res tr :
  (rc + S left = maxRetries)%nat ->
  (attempts_made tr <= 1)%nat -> pings_made tr = 1%nat ->
  backoffs tr = [] ->
  res <> send_threw retries_exhausted ->
  ~ stale (page rc) ->
  (forall r, res = send_returned r -> final_response r = true) ->
  (attempts_made tr <= S left)%nat /\
  (pings_made tr <= S left)%nat /\
  (length (backoffs tr) <= S left - 1)%nat /\
  Forall (fun d => 1000 * Z.of_nat (S rc) <= d
                   <= 1000 * (Z.of_nat maxRetries - 1)) (backoffs tr) /\
  (res = send_threw retries_exhausted <->
   forall i, (rc <= i < maxRetries)%nat -> stale (page i)) /\
  (forall r, res = send_returned r -> final_response r = true).
Proof.
  intros Hmax Ha Hp Hb Hne Hns Hr. rewrite Hb.
  split; [lia|]. split; [lia|]. split; [cbn; lia|].
  split; [constructor|]. split; [|exact Hr].
  split; [intros H; contradiction|].
  intros H. exfalso. apply Hns. apply H. lia.
Qed.

Lemma send_loop_bounds (page : nat -> AttemptEnv) (maxRetries : nat) :
  forall left retryCount,
    (retryCount + left = maxRetries)%nat ->
    let res := fst (send_loop left retryCount maxRetries page) in
    let tr := snd (send_loop left retryCount maxRetries page) in
    (attempts_made tr <= left)%nat /\
    (pings_made tr <= left)%nat /\
    (length (backoffs tr) <= left - 1)%nat /\
    Forall (fun d => 1000 * Z.of_nat (S retryCount) <= d
                     <= 1000 * (Z.of_nat maxRetries - 1)) (backoffs tr) /\
    (res = send_threw retries_exhausted <->
     forall i, (retryCount <= i < maxRetries)%nat -> stale (page i)) /\
    (forall r, res = send_returned r -> final_response r = true).
Proof.
  induction left as [|left IH]; intros rc Hmax; cbv zeta.
  - cbn [send_loop fst snd].
    split; [cbn; lia|]. split; [cbn; lia|]. split; [cbn; lia|].
    split; [constructor|]. split; [|intros r [=]].
    split; [intros _ i Hi; lia|reflexivity].
  - destruct (attempt_counts (page rc)) as (Ha & Hp & Hb).
    cbn [send_loop].
    destruct (attemptSend (page rc)) as [[|[r|]] tr] eqn:Ea;
      cbn [fst snd] in Ha, Hp, Hb.
    + cbn [fst snd].
      apply (send_loop_stops page maxRetries left rc); try assumption.
      * discriminate.
      * intros Hst. apply stale_iff in Hst as (r & Hr & _).
        rewrite Ea in Hr. discriminate.
      * intros r [=].
    + destruct (final_response r) eqn:Ef.
      * cbn [fst snd].
        apply (send_loop_stops page maxRetries left rc); try assumption.
        -- discriminate.
        -- intros Hst. apply stale_iff in Hst as (r' & Hr & Hf).
           rewrite Ea in Hr. cbn [fst] in Hr. injection Hr as <-.
           congruence.
        -- intros r' [= <-]. exact Ef.
      * specialize (IH (S rc) ltac:(lia)). cbv zeta in IH.
        destruct (send_loop left (S rc) maxRetries page) as [res tr'].
        cbn [fst snd] in IH |- *.
        destruct IH as (IHa & IHp & IHl & IHf & IHe & IHr).
        assert (Hst : stale (page rc)).
        { apply stale_iff. exists r. rewrite Ea. auto. }
        rewrite !attempts_made_app, !pings_made_app, !backoffs_app, Hb.
        cbn [app].
        assert (Hiff : res = send_threw retries_exhausted <->
                       forall i, (rc <= i < maxRetries)%nat -> stale (page i)).
        { rewrite IHe. split.
          - intros H i Hi. destruct (Nat.eq_dec i rc) as [->|Hne];
              [exact Hst|apply H; lia].
          - intros H i Hi. apply H. lia. }
        destruct (S rc <? maxRetries)%nat eqn:Elt.
        -- apply Nat.ltb_lt in Elt.
           split; [cbn; lia|]. split; [cbn; lia|].
           split; [cbn [backoffs omap app length]; cbn; lia|].
           split; [|split; [exact Hiff|exact IHr]].
           cbn. constructor; [lia|].
           eapply Forall_impl; [exact IHf|]. cbn. intros d Hd. lia.
        -- apply Nat.ltb_ge in Elt. assert (left = 0)%nat by lia. subst left.
           split; [cbn; lia|]. split; [cbn; lia|].
           split; [cbn in IHl |- *; lia|].
           split; [|split; [exact Hiff|exact IHr]].
           cbn. eapply Forall_impl; [exact IHf|]. cbn. intros d Hd. lia.
    + cbn [fst snd].
      apply (send_loop_stops page maxRetries left rc); try assumption.
      * discriminate.
      * intros Hst. apply stale_iff in Hst as (r & Hr & _).
        rewrite Ea in Hr. discriminate.
      * intros r [=].
Qed.

End SendBounds.

(** X18. Whatever the page does and whatever retry budget is given,
    [sendProcessMessage] delivers the unit of work at most [maxRetries]
    times and probes as often at most, sleeps at most [maxRetries - 1]
    times between attempts, each time between one second and
    [maxRetries - 1] seconds; it ends with the failure of an exhausted
    budget exactly when every one of the [maxRetries] attempts met the
    back/forward-cache condition, and a reply it returns is never a
    failure with that reason. *)
Theorem sendProcessMessage_bounded
    (maxRetries : nat) (page : nat -> Background.AttemptEnv) :
  let res := fst (Background.sendProcessMessage_with maxRetries page) in
  let tr := snd (Background.sendProcessMessage_with maxRetries page) in
  (Background.attempts_made tr <= maxRetries)%nat /\
  (Background.pings_made tr <= maxRetries)%nat /\
  (length (Background.backoffs tr) <= maxRetries - 1)%nat /\
  Forall (fun d => 1000 <= d <= 1000 * (Z.of_nat maxRetries - 1))
    (Background.backoffs tr) /\
  (res = Background.send_threw Background.retries_exhausted <->
   forall i, (i < maxRetries)%nat -> stale (page i)) /\
  (forall r, res = Background.send_returned r ->
     Background.success r = true \/
     forall msg, Background.response_error r = Some msg ->
                 includes msg "back/forward cache" = false).
Proof.
  cbv zeta. unfold Background.sendProcessMessage_with.
  destruct (send_loop_bounds page maxRetries maxRetries 0 eq_refl)
    as (Ha & Hp & Hl & Hf & He & Hr).
  split; [exact Ha|]. split; [exact Hp|]. split; [exact Hl|].
  split; [|split].
  - eapply Forall_impl; [exact Hf|]. cbn. intros d Hd. lia.
  - rewrite He. split; intros H i Hi; apply H; lia.
  - intros r Hres. specialize (Hr r Hres).
    unfold Background.final_response in Hr.
    destruct (Background.success r); [now left|right].
    intros msg Hm. rewrite Hm in Hr. cbn in Hr.
    now apply negb_true_iff in Hr.
Qed.

Section TabBounds.
Import Background.

Lemma tab_attempts_spec (queries : nat -> QueryOutcome) (maxRetries : nat) :
  forall left attempt retryDelay,
    (attempt + left = S maxRetries)%nat ->
    let '(r, ds, n) :=
      tab_attempts left attempt maxRetries retryDelay queries in
    (n <= left)%nat /\
    length ds = (n - 1)%nat /\
    geometric retryDelay ds /\
    (forall i, (attempt <= i < attempt + n - 1)%nat ->
       attempt_fails queries i) /\
    match r with
    | Some t => (1 <= n)%nat /\
                try_active_tab (queries (attempt + n - 1)%nat) = Some t
    | None => n = left /\
              forall i, (attempt <= i <= maxRetries)%nat ->
                        attempt_fails queries i
    end.
Proof.
  induction left as [|left IH]; intros attempt d Hmax.
  - cbn [tab_attempts]. repeat split; cbn; intros; lia.
  - cbn [tab_attempts].
    destruct (try_active_tab (queries attempt)) as [t|] eqn:Et.
    + split; [lia|]. split; [reflexivity|]. split; [exact I|].
      split; [intros i Hi; lia|]. split; [lia|].
      replace (attempt + 1 - 1)%nat with attempt by lia. exact Et.
    + destruct (attempt <? maxRetries)%nat eqn:Elt.
      * apply Nat.ltb_lt in Elt.
        specialize (IH (S attempt) (d * 1.5)%float ltac:(lia)).
        destruct (tab_attempts left (S attempt) maxRetries _ queries)
          as [[r ds] n].
        destruct IH as (Hn & Hl & Hg & Hf & Hr).
        split; [lia|]. split.
        { cbn [length]. destruct r as [t|]; [lia|].
          destruct Hr as [-> _]. lia. }
        split.
        { cbn [geometric]. split; [reflexivity|exact Hg]. }
        split.
        { intros i Hi. destruct (Nat.eq_dec i attempt) as [->|Hne];
            [exact Et|apply Hf; lia]. }
        destruct r as [t|].
        -- destruct Hr as [H1 Ht]. split; [lia|].
           replace (attempt + S n - 1)%nat with (S attempt + n - 1)%nat
             by lia. exact Ht.
        -- destruct Hr as [-> Hall]. split; [reflexivity|].
           intros i Hi. destruct (Nat.eq_dec i attempt) as [->|Hne];
             [exact Et|apply Hall; lia].
      * apply Nat.ltb_ge in Elt. assert (left = 0)%nat by lia. subst left.
        cbn [tab_attempts].
        split; [lia|]. split; [reflexivity|]. split; [exact I|].
        split; [intros i Hi; lia|]. split; [reflexivity|].
        intros i Hi. assert (i = attempt) as -> by lia. exact Et.
Qed.

End TabBounds.

(** The run of [getValidTab] for any budget, by the attempt that succeeds
    or the fallback. *)
Lemma getValidTab_with_attempts
    (maxRetries : nat) (retryDelay : float)
    (queries : nat -> Background.QueryOutcome)
    (all : Background.QueryOutcome) :
  let r := Background.getValidTab_with maxRetries retryDelay queries all in
  let n := Background.queries_made r in
  (n <= maxRetries)%nat /\
  length (Background.delays r) = (n - 1)%nat /\
  geometric retryDelay (Background.delays r) /\
  (forall i, (1 <= i < n)%nat -> attempt_fails queries i) /\
  (Background.used_fallback r = true <->
   forall i, (1 <= i <= maxRetries)%nat -> attempt_fails queries i) /\
  (Background.used_fallback r = true ->
   n = maxRetries /\ Background.resolved r = Background.tab_fallback all) /\
  (Background.used_fallback r = false ->
   (1 <= n)%nat /\
   Background.resolved r = Background.try_active_tab (queries n) /\
   Background.resolved r <> None).
Proof.
  cbv zeta. unfold Background.getValidTab_with.
  pose proof (tab_attempts_spec queries maxRetries maxRetries 1 retryDelay
                eq_refl) as H.
  destruct (Background.tab_attempts maxRetries 1 maxRetries retryDelay queries)
    as [[r ds] n].
  destruct H as (Hn & Hl & Hg & Hf & Hr).
  destruct r as [t|]; cbn [Background.queries_made Background.delays
    Background.used_fallback Background.resolved].
  - destruct Hr as [H1 Ht].
    replace (1 + n - 1)%nat with n in Ht by lia.
    split; [exact Hn|]. split; [exact Hl|]. split; [exact Hg|].
    split; [intros i Hi; apply Hf; lia|].
    split; [|split; [discriminate|]].
    + split; [discriminate|]. intros Hall.
      specialize (Hall n ltac:(lia)). unfold attempt_fails in Hall.
      congruence.
    + intros _. rewrite Ht. split; [exact H1|]. split; [reflexivity|].
      discriminate.
  - destruct Hr as [-> Hall].
    split; [lia|]. split; [exact Hl|]. split; [exact Hg|].
    split; [intros i Hi; apply Hall; lia|].
    split; [|split; [auto|discriminate]].
    split; [intros _; exact Hall|reflexivity].
Qed.

(** X19. For every retry budget and initial delay, [getValidTab] queries
    the active tab at most [maxRetries] times and sleeps once between two
    consecutive queries, the first time for the initial delay and each
    further time for the product of the delay before and 1.5 in the
    floating-point arithmetic of the code.  No attempt before the last one
    made was answered with a first tab that has an id, a URL and the status
    [complete] or [loading]; the fallback is used exactly when none of the
    [maxRetries] attempts was, and then the result is what the two fallback
    tiers yield on the list of all tabs; otherwise the result is the first
    tab of the answer to the last attempt made. *)
Theorem getValidTab_with_budget
    (maxRetries : nat) (retryDelay : float)
    (queries : nat -> Background.QueryOutcome)
    (all : Background.QueryOutcome) :
  let r := Background.getValidTab_with maxRetries retryDelay queries all in
  let n := Background.queries_made r in
  (n <= maxRetries)%nat /\
  length (Background.delays r) = (n - 1)%nat /\
  geometric retryDelay (Background.delays r) /\
  (forall i x, (1 <= i < n)%nat -> ~ ready_answer (queries i) x) /\
  (Background.used_fallback r = true <->
   forall i x, (1 <= i <= maxRetries)%nat -> ~ ready_answer (queries i) x) /\
  (Background.used_fallback r = true ->
   n = maxRetries /\
   forall t, Background.resolved r = Some t <->
     exists l, all = Background.query_tabs l /\ fallback_yields l t) /\
  (Background.used_fallback r = false ->
   (1 <= n)%nat /\
   exists t, Background.resolved r = Some t /\ ready_answer (queries n) t).
Proof.
  cbv zeta.
  destruct (getValidTab_with_attempts maxRetries retryDelay queries all)
    as (Hn & Hl & Hg & Hbefore & Hfb & Hfall & Hfound).
  set (r := Background.getValidTab_with maxRetries retryDelay queries all)
    in *.
  split; [exact Hn|]. split; [exact Hl|]. split; [exact Hg|]. split.
  { intros i x Hi. now apply attempt_fails_ready, Hbefore. }
  split.
  { rewrite Hfb. split.
    - intros H i x Hi. now apply attempt_fails_ready, H.
    - intros H i Hi. apply attempt_fails_ready. intros x. now apply H. }
  split.
  { intros Hu. destruct (Hfall Hu) as [Hm Hr]. split; [exact Hm|].
    intros t. rewrite Hr. destruct all as [|l].
    - split; [discriminate|]. intros (l & [=] & _).
    - rewrite tab_fallback_yields. split.
      + intros H. exists l. auto.
      + intros (l' & [= <-] & H). exact H. }
  intros Hu. destruct (Hfound Hu) as (H1 & Hr & Hne). split; [exact H1|].
  destruct (Background.resolved r) as [t|] eqn:Et; [|contradiction].
  exists t. split; [reflexivity|].
  symmetry in Hr. now apply try_active_tab_spec in Hr.
Qed.

(** ** Waiting for a processing status *)

Lemma ProcessingStatus_eqb_eq a b :
  Page.ProcessingStatus_eqb a b = true <-> a = b.
Proof.
  unfold Page.ProcessingStatus_eqb. rewrite String.eqb_eq.
  split; [|now intros ->]. destruct a, b; simpl; congruence.
Qed.

(** X20. [waitForProcessingStatus] resolves to true exactly when, among the
    messages that arrive before its timer fires, a status update of its own
    task with the awaited status arrives before any update of that task
    with the status [error]; messages of other kinds, of other tasks and
    with other statuses are skipped. *)
Theorem waitForProcessingStatus_first_decisive
    (tid : string) (target : ProcessingStatus) (msgs : list Broadcast) :
  Page.waitForProcessingStatus tid target msgs = true <->
  exists pre post,
    msgs = pre ++ processingStatusUpdate tid target :: post /\
    forall st, In (processingStatusUpdate tid st) pre ->
               st <> target /\ st <> ps_error.
Proof.
  induction msgs as [|m msgs IH].
  - cbn. split; [discriminate|]. intros (pre & post & H & _).
    now destruct pre.
  - assert (Hskip :
      (forall st, m = processingStatusUpdate tid st ->
                  st <> target /\ st <> ps_error) ->
      (Page.waitForProcessingStatus tid target msgs = true <->
       exists pre post,
         m :: msgs = pre ++ processingStatusUpdate tid target :: post /\
         forall st, In (processingStatusUpdate tid st) pre ->
                    st <> target /\ st <> ps_error)).
    { intros Hm. rewrite IH. split.
      - intros (pre & post & -> & Hpre). exists (m :: pre), post.
        split; [reflexivity|]. intros st [->|Hin]; [now apply Hm|auto].
      - intros (pre & post & Heq & Hpre). destruct pre as [|x pre].
        + cbn in Heq. injection Heq as Hx _.
          destruct (Hm target Hx) as [Habs _]. now contradiction Habs.
        + cbn in Heq. injection Heq as Hx Hrest. subst x msgs.
          exists pre, post.
          split; [reflexivity|]. intros st Hin. apply Hpre. now right. }
    destruct m as [t st| | | | |];
      try (cbn [Page.waitForProcessingStatus]; apply Hskip; discriminate).
    cbn [Page.waitForProcessingStatus].
    destruct (String.eqb t tid) eqn:Et.
    + apply String.eqb_eq in Et. subst t.
      destruct (Page.ProcessingStatus_eqb st target) eqn:E1.
      * apply ProcessingStatus_eqb_eq in E1. subst st.
        split; [|reflexivity]. intros _. exists [], msgs.
        split; [reflexivity|]. intros st [].
      * assert (st <> target) as Hne.
        { intros ->. assert (Page.ProcessingStatus_eqb target target = true)
            by now apply ProcessingStatus_eqb_eq. congruence. }
        destruct (Page.ProcessingStatus_eqb st ps_error) eqn:E2.
        -- apply ProcessingStatus_eqb_eq in E2. subst st.
           split; [discriminate|]. intros (pre & post & Heq & Hpre).
           destruct pre as [|x pre]; cbn in Heq.
           ++ injection Heq as Hst _. congruence.
           ++ injection Heq as Hx _. subst x.
              destruct (Hpre ps_error (or_introl eq_refl)) as [_ Habs].
              now contradiction Habs.
        -- apply Hskip. intros st' [= ->]. split; [exact Hne|].
           intros ->. assert (Page.ProcessingStatus_eqb ps_error ps_error = true)
             by now apply ProcessingStatus_eqb_eq. congruence.
    + apply String.eqb_neq in Et. apply Hskip. intros st' [= -> ->].
      now contradiction Et.
Qed.

(** ** Pause, then resume *)

Lemma pause_frame p st now b :
  let b' :=
    Background.when_taskState st now
      (broadcast (pauseStateChanged p)
         (Background.set_session_paused p (with_isPaused p b))) in
  isPaused b' = p /\
  currentIterations b' = currentIterations b /\
  activeSession b' = flagged p <$> activeSession b.
Proof.
  cbv zeta.
  destruct (when_taskState_frame st now
              (broadcast (pauseStateChanged p)
                 (Background.set_session_paused p (with_isPaused p b))))
    as (-> & -> & -> & _).
  change (activeSession (broadcast ?m ?x)) with (activeSession x).
  change (isPaused (broadcast ?m ?x)) with (isPaused x).
  change (currentIterations (broadcast ?m ?x)) with (currentIterations x).
  destruct (set_session_paused_spec p (with_isPaused p b))
    as (-> & -> & -> & _).
  repeat split.
Qed.

Lemma session_active_flagged p b b' :
  activeSession b' = flagged p <$> activeSession b ->
  Background.session_active b' = Background.session_active b.
Proof.
  unfold Background.session_active. intros ->.
  now destruct (activeSession b).
Qed.

Lemma paused_iteration_idles e m :
  isPaused (Background.bg m) = true ->
  Background.processOneIteration e m
  = (Background.session_active (Background.bg m), m).
Proof.
  intros Hp. unfold Background.processOneIteration, Background.iteration_enter.
  rewrite Hp. now destruct (Background.session_active (Background.bg m)).
Qed.

Lemma paused_loop_idles cycles m :
  isPaused (Background.bg m) = true ->
  Forall no_commands cycles ->
  Background.monitoringLoop cycles m
  = (if Background.session_active (Background.bg m)
     then Background.loop_waiting else Background.loop_exited, m).
Proof.
  intros Hp Hc. induction Hc as [|c cycles Hc _ IH].
  - reflexivity.
  - cbn [Background.monitoringLoop]. rewrite Hp.
    destruct (Background.session_active (Background.bg m)) eqn:Ea;
      [|reflexivity].
    cbn [negb]. rewrite Hc. cbn [foldl].
    assert (Background.with_bg (Background.bg m) m = m) as ->
      by now destruct m.
    rewrite IH. rewrite ?Ea. reflexivity.
Qed.

Lemma paused_triggers_idle n m :
  isPaused (Background.bg m) = true ->
  Background.run (repeat Background.trigger n) m = Some m.
Proof.
  intros Hp. induction n as [|n IH]; [reflexivity|].
  cbn [repeat Background.run Background.step].
  assert (snd (Background.iteration_enter m) = m) as ->; [|exact IH].
  unfold Background.iteration_enter. rewrite Hp.
  now destruct (Background.session_active (Background.bg m)).
Qed.

Lemma pause_resume_core cycles n m bp br :
  isPaused bp = true ->
  currentIterations bp = currentIterations (Background.bg m) ->
  Background.session_active bp = Background.session_active (Background.bg m) ->
  isPaused br = false ->
  currentIterations br = currentIterations (Background.bg m) ->
  Background.session_active br = Background.session_active (Background.bg m) ->
  taskId <$> activeSession br = taskId <$> activeSession (Background.bg m) ->
  Forall no_commands cycles ->
  let mp := Background.with_bg bp m in
  let mr := Background.with_bg br mp in
  Background.monitoringLoop cycles mp
  = (if Background.session_active (Background.bg m)
     then Background.loop_waiting else Background.loop_exited, mp) /\
  Background.run (repeat Background.trigger n) mp = Some mp /\
  currentIterations (Background.bg mp) = currentIterations (Background.bg m) /\
  isPaused (Background.bg mr) = false /\
  currentIterations (Background.bg mr) = currentIterations (Background.bg m) /\
  Background.session_active (Background.bg mr)
  = Background.session_active (Background.bg m) /\
  taskId <$> activeSession (Background.bg mr)
  = taskId <$> activeSession (Background.bg m) /\
  fst (Background.iteration_enter mr)
  = (if negb (Background.session_active (Background.bg m))
     then Background.entry_returned false
     else if Background.isUpdateInProgress m
          then Background.entry_returned true
          else Background.entry_started).
Proof.
  intros Hp1 Hp2 Hap Hr1 Hr2 Har Ht Hq. cbv zeta.
  split.
  { rewrite paused_loop_idles by assumption.
    change (Background.bg (Background.with_bg bp m)) with bp.
    now rewrite Hap. }
  split; [now apply paused_triggers_idle|].
  split; [exact Hp2|]. split; [exact Hr1|].
  split; [exact Hr2|]. split; [exact Har|]. split; [exact Ht|].
  unfold Background.iteration_enter.
  change (Background.bg (Background.with_bg br (Background.with_bg bp m)))
    with br.
  change (Background.isUpdateInProgress
            (Background.with_bg br (Background.with_bg bp m)))
    with (Background.isUpdateInProgress m).
  rewrite Har, Hr1.
  destruct (Background.session_active (Background.bg m)); [|reflexivity].
  now destruct (Background.isUpdateInProgress m).
Qed.

(** X21. After [pauseMonitoring] the loop idles: as long as no command
    arrives, no cycle and no trigger changes the coordinator (no tab query,
    no dispatch, no counter increment), and the loop keeps waiting when
    there is an active session.  A [resumeMonitoring] that follows leaves
    the iteration counter and the session's activity as they were before
    the pause, clears the pause flag, and the next call of
    [processOneIteration] starts an iteration when the session is active
    and no iteration is in flight. *)
Theorem pause_suspends_and_resume_continues
    (now1 now2 : string) (cycles : list Background.Cycle) (n : nat)
    (m : Background.Monitor)
    (Hquiet : Forall no_commands cycles) :
  let mp := paused_at now1 m in
  let mr := resumed_at now2 mp in
  Background.monitoringLoop cycles mp
  = (if Background.session_active (Background.bg m)
     then Background.loop_waiting else Background.loop_exited, mp) /\
  Background.run (repeat Background.trigger n) mp = Some mp /\
  currentIterations (Background.bg mp) = currentIterations (Background.bg m) /\
  isPaused (Background.bg mr) = false /\
  currentIterations (Background.bg mr) = currentIterations (Background.bg m) /\
  Background.session_active (Background.bg mr)
  = Background.session_active (Background.bg m) /\
  taskId <$> activeSession (Background.bg mr)
  = taskId <$> activeSession (Background.bg m) /\
  fst (Background.iteration_enter mr)
  = (if negb (Background.session_active (Background.bg m))
     then Background.entry_returned false
     else if Background.isUpdateInProgress m
          then Background.entry_returned true
          else Background.entry_started).
Proof.
  cbv zeta. unfold paused_at, resumed_at.
  set (bp := Background.pauseMonitoring now1 (Background.bg m)).
  set (br := Background.resumeMonitoring now2
               (Background.bg (Background.with_bg bp m))).
  destruct (pause_frame true ps_paused now1 (Background.bg m))
    as (Hp1 & Hp2 & Hp3).
  destruct (pause_frame false ps_idle now2 bp) as (Hr1 & Hr2 & Hr3).
  pose proof (session_active_flagged _ _ _ Hp3) as Hap.
  pose proof (session_active_flagged _ _ _ Hr3) as Har.
  apply (pause_resume_core cycles n m bp br); try assumption.
  - exact (eq_trans Hr2 Hp2).
  - exact (eq_trans Har Hap).
  - assert (Hfl : forall p (o : option Session),
              taskId <$> (flagged p <$> o) = taskId <$> o)
      by (intros ? []; reflexivity).
    exact (eq_trans (f_equal (fmap taskId) Hr3)
             (eq_trans (Hfl _ _)
                (eq_trans (f_equal (fmap taskId) Hp3) (Hfl _ _)))).
Qed.

Lemma pause_suspends_and_resume_continues_witness :
  Forall no_commands
    [{| Background.cycle_env := replying reply_continue;
        Background.cycle_commands := [] |}] /\
  Background.run (repeat Background.trigger 3)
    (paused_at "2025-01-01T00:00:00.000Z" started_monitor)
  = Some (paused_at "2025-01-01T00:00:00.000Z" started_monitor) /\
  fst (Background.iteration_enter
         (resumed_at "2025-01-01T00:00:05.000Z"
            (paused_at "2025-01-01T00:00:00.000Z" started_monitor)))
  = Background.entry_started.
Proof.
  assert (Hq : Forall no_commands
    [{| Background.cycle_env := replying reply_continue;
        Background.cycle_commands := [] |}])
    by (repeat constructor).
  pose proof (pause_suspends_and_resume_continues
                "2025-01-01T00:00:00.000Z" "2025-01-01T00:00:05.000Z"
                _ 3 started_monitor Hq) as H.
  cbv zeta in H.
  destruct H as (_ & Hrun & _ & _ & _ & _ & _ & Henter).
  split; [exact Hq|]. split; [exact Hrun|].
  rewrite Henter. vm_compute. reflexivity.
Defined.

(** ** Server updates in the interval-based coordinator *)

Section LegacyUpdateFacts.
Import Background.

Lemma legacy_posted_frame tid e b :
  activeSession (legacy_posted tid e b) = activeSession b /\
  currentIterations (legacy_posted tid e b) = currentIterations b /\
  monitoringInterval (legacy_posted tid e b) = monitoringInterval b /\
  isPaused (legacy_posted tid e b) = isPaused b /\
  storage (legacy_posted tid e b) !! "activeSession"
    = storage b !! "activeSession".
Proof.
  repeat split. unfold legacy_posted.
  rewrite updateProcessingStatus_lookup by discriminate.
  cbn [storage store_set with_storage].
  rewrite lookup_insert_ne by discriminate.
  now rewrite updateProcessingStatus_lookup by discriminate.
Qed.

Lemma legacy_update_cases tid dom result e b :
  tid <> "" -> truthy (Some dom) = true ->
  LegacyUpdates.handleDOMUpdate (Some tid) (Some dom) result e b =
  let req :=
    {| LegacyUpdates.req_task_id := tid; LegacyUpdates.req_dom_data := dom;
       LegacyUpdates.req_result := LegacyUpdates.result_or_empty result;
       LegacyUpdates.req_iterations := currentIterations b;
       LegacyUpdates.req_structure := Updates.structure_of dom |} in
  match LegacyUpdates.lue_server e with
  | Updates.update_throws msg =>
      (Updates.failure msg, Some req,
       snd (LegacyUpdates.caught tid msg (LegacyUpdates.lue_now e 5)
              (store_set "currentDOMUpdate"
                 (Updates.pending_record tid "error"
                    [("error", JStr msg);
                     ("completedTime", JStr (LegacyUpdates.lue_now e 4))])
                 (updateProcessingStatus tid ps_error
                    (LegacyUpdates.lue_now e 3) (legacy_posted tid e b)))))
  | Updates.update_data data =>
      let lur := JObj [("timestamp", JStr (LegacyUpdates.lue_now e 3));
                       ("task_id", JStr tid); ("data", data)] in
      let x :=
        store_set "currentDOMUpdate"
          (Updates.pending_record tid "completed"
             [("result", data);
              ("completedTime", JStr (LegacyUpdates.lue_now e 4))])
          (store_set "lastUpdateResponse" lur
             (Updates.with_lastUpdateResponse (Some lur)
                (legacy_posted tid e b))) in
      match LegacyUpdates.has_actions (LegacyUpdates.lue_gt0 e) data with
      | None =>
          (Updates.failure (LegacyUpdates.lue_thrown e), Some req,
           snd (LegacyUpdates.caught tid (LegacyUpdates.lue_thrown e)
                  (LegacyUpdates.lue_now e 5) x))
      | Some acts =>
          let y :=
            updateProcessingStatus tid
              (if acts then ps_executing_actions else ps_completed)
              (LegacyUpdates.lue_now e 5) x in
          ({| Updates.ur_success := true; Updates.ur_data := Some data;
              Updates.ur_error := None |}, Some req,
           if LegacyUpdates.is_done_of data && LegacyUpdates.is_some_session y
           then Legacy.stopMonitoring (LegacyUpdates.lue_now e 6)
                  (mark_completed y)
           else y)
      end
  end.
Proof.
  intros Ht Hd. unfold LegacyUpdates.handleDOMUpdate.
  change (default "" (Some tid)) with tid.
  apply String.eqb_neq in Ht. rewrite Ht, Hd. cbn [negb andb].
  cbv zeta. fold (legacy_posted tid e b).
  destruct (LegacyUpdates.lue_server e) as [msg|data]; [reflexivity|].
  destruct (LegacyUpdates.has_actions _ data); reflexivity.
Qed.

Lemma legacy_caught_spec tid msg now x :
  tid <> "" ->
  let b' := snd (LegacyUpdates.caught tid msg now x) in
  activeSession b' = errored <$> activeSession x /\
  monitoringInterval b' = monitoringInterval x /\
  currentIterations b' = currentIterations x /\
  isPaused b' = isPaused x /\
  storage b' !! "activeSession" =
    match activeSession x with
    | Some s => Some (Session_json (errored s))
    | None => storage x !! "activeSession"
    end /\
  storage b' !! "currentDOMUpdate" = storage x !! "currentDOMUpdate" /\
  storage b' !! "lastUpdateResponse" = storage x !! "lastUpdateResponse" /\
  prop "processingStatus" (storage b' !! "taskState")
    = Some (JStr "error") /\
  last_broadcast b' = Some (processingStatusUpdate tid ps_error).
Proof.
  intros Ht. apply String.eqb_neq in Ht.
  cbv zeta. unfold LegacyUpdates.caught. cbn [snd]. rewrite Ht. cbn [negb].
  set (y := LegacyUpdates.mark_error x).
  assert (Hy : activeSession y = errored <$> activeSession x /\
               monitoringInterval y = monitoringInterval x /\
               currentIterations y = currentIterations x /\
               isPaused y = isPaused x /\
               storage y !! "activeSession" =
                 match activeSession x with
                 | Some s => Some (Session_json (errored s))
                 | None => storage x !! "activeSession"
                 end /\
               storage y !! "currentDOMUpdate"
                 = storage x !! "currentDOMUpdate" /\
               storage y !! "lastUpdateResponse"
                 = storage x !! "lastUpdateResponse").
  { subst y. unfold LegacyUpdates.mark_error.
    destruct (activeSession x) as [s|] eqn:E.
    - cbn [activeSession persist_session store_set with_storage with_session
           monitoringInterval currentIterations isPaused storage fmap
           option_fmap option_map].
      rewrite lookup_insert_eq.
      rewrite !lookup_insert_ne by discriminate. repeat split.
    - rewrite E. repeat split. }
  destruct Hy as (H1 & H2 & H3 & H4 & H5 & H6 & H7).
  destruct (updateProcessingStatus_frame tid ps_error now y)
    as (_ & -> & -> & -> & _ & -> & Hb).
  rewrite !updateProcessingStatus_lookup by discriminate.
  rewrite updateProcessingStatus_status.
  repeat (split; [assumption|]). split; [reflexivity|].
  unfold last_broadcast. rewrite Hb. apply last_snoc.
Qed.

Lemma legacy_done_tail now5 now6 tid st x s :
  activeSession x = Some s ->
  let b' :=
    Legacy.stopMonitoring now6
      (mark_completed (updateProcessingStatus tid st now5 x)) in
  activeSession b' = Some (finished s) /\
  storage b' !! "activeSession" = Some (Session_json (finished s)) /\
  monitoringInterval b' = None /\
  currentIterations b' = currentIterations x /\
  isPaused b' = isPaused x /\
  prop "processingStatus" (storage b' !! "taskState")
    = Some (JStr "idle") /\
  storage b' !! "currentDOMUpdate" = Some JNull /\
  storage b' !! "lastUpdateResponse" = storage x !! "lastUpdateResponse".
Proof.
  intros Hs. cbv zeta.
  set (y := updateProcessingStatus tid st now5 x).
  assert (Hy : activeSession y = Some s) by exact Hs.
  destruct (mark_completed_frame y) as (Hc & _ & Ha & Hst).
  rewrite Hy in Ha, Hst. cbn [fmap option_fmap option_map] in Ha.
  set (z := mark_completed y) in *.
  assert (Hz : forall k, k <> "activeSession" ->
                 storage z !! k = storage y !! k).
  { intros k Hk. subst z. unfold mark_completed. rewrite Hy.
    cbn [persist_session store_set with_storage with_session storage].
    now rewrite lookup_insert_ne by congruence. }
  assert (Ht : exists fs, storage z !! "taskState" = Some (JObj fs)).
  { rewrite Hz by discriminate. subst y.
    rewrite (proj1 (updateProcessingStatus_frame tid st now5 x)).
    rewrite lookup_insert_eq. eauto. }
  destruct Ht as (fs & Ht).
  destruct (legacy_stop_frame now6 z) as (Hi & Has & Hp & _ & Hss).
  rewrite Has, Hss, Hi, legacy_stop_counter.
  split; [exact Ha|]. split; [exact Hst|]. split; [reflexivity|].
  split; [exact Hc|]. split.
  { rewrite Hp. subst z. unfold mark_completed. now rewrite Hy. }
  unfold Legacy.stopMonitoring.
  change (storage (with_interval None z)) with (storage z).
  rewrite Ht. cbn [truthy].
  cbn [storage store_set with_storage with_interval].
  rewrite lookup_insert_eq.
  rewrite (lookup_insert_ne _ "currentDOMUpdate" "taskState")
    by discriminate.
  rewrite lookup_insert_eq.
  rewrite !lookup_insert_ne by discriminate.
  split.
  { cbn [prop]. rewrite obj_get_set_ne by discriminate.
    apply obj_get_set_eq. }
  split; [reflexivity|].
  rewrite Hz by discriminate. subst y.
  now rewrite updateProcessingStatus_lookup by discriminate.
Qed.

End LegacyUpdateFacts.

Lemma is_done_not_null data :
  LegacyUpdates.is_done_of data = true ->
  exists acts, forall gt0, LegacyUpdates.has_actions gt0 data = Some (acts gt0).
Proof.
  intros H.
  exists (fun gt0 =>
    truthy (prop "actions" (prop "result" (Some data)))
    && length_gt0 gt0 (prop "actions" (prop "result" (Some data)))).
  intros gt0. destruct data; try reflexivity. discriminate.
Qed.

Lemma legacy_joinable_status b s :
  activeSession b = Some s -> status s <> active -> Legacy.joinable b = None.
Proof.
  intros Hs Hst. unfold Legacy.joinable. rewrite Hs.
  destruct (status s); try (now rewrite andb_false_r). contradiction.
Qed.

(** X22. In the interval-based coordinator, an update that the server
    answers with a truthy [is_done] while a session exists returns the
    answer, marks the session [completed] in memory and in the store, and
    clears the timer, so that its callback never runs again.  The completion
    check then answers done and the session can no longer be joined by a
    new start.  The counter is untouched, the stop resets the processing
    status to [idle] and the pending update to [null], and
    [getLatestUpdateResult] still yields the answer from the stored last
    response. *)
Theorem legacy_done_update_completes
    (tid : string) (dom data : JSON) (result : option JSON)
    (e : LegacyUpdates.UpdateEnv) (b : Bg) (s : Session) :
  tid <> "" ->
  truthy (Some dom) = true ->
  LegacyUpdates.lue_server e = Updates.update_data data ->
  LegacyUpdates.is_done_of data = true ->
  activeSession b = Some s ->
  let '(resp, req, b') :=
    LegacyUpdates.handleDOMUpdate (Some tid) (Some dom) result e b in
  resp = {| Updates.ur_success := true; Updates.ur_data := Some data;
            Updates.ur_error := None |} /\
  LegacyUpdates.req_iterations <$> req = Some (currentIterations b) /\
  LegacyUpdates.req_result <$> req
    = Some (LegacyUpdates.result_or_empty result) /\
  activeSession b' = Some (finished s) /\
  storage b' !! "activeSession" = Some (Session_json (finished s)) /\
  Legacy.check_processing_status b' = true /\
  Legacy.joinable b' = None /\
  monitoringInterval b' = None /\
  (forall m, Background.bg m = b' -> Legacy.step Legacy.tick m = None) /\
  currentIterations b' = currentIterations b /\
  prop "processingStatus" (storage b' !! "taskState")
    = Some (JStr "idle") /\
  storage b' !! "currentDOMUpdate" = Some JNull /\
  Page.getLatestUpdateResult tid (storage b') = Page.latest (Some data).
Proof.
  intros Ht Hd Hsrv Hdone Hs.
  rewrite (legacy_update_cases tid dom result e b Ht Hd). cbv zeta.
  rewrite Hsrv.
  destruct (is_done_not_null data Hdone) as (acts & Hacts).
  rewrite Hacts, Hdone.
  destruct (legacy_posted_frame tid e b) as (Hpa & Hpc & _).
  set (lur := JObj [("timestamp", JStr (LegacyUpdates.lue_now e 3));
                    ("task_id", JStr tid); ("data", data)]).
  set (x := store_set "currentDOMUpdate" _
              (store_set "lastUpdateResponse" lur _)).
  assert (Hx : activeSession x = Some s) by (rewrite <- Hs; exact Hpa).
  assert (Hxc : currentIterations x = currentIterations b) by exact Hpc.
  assert (Hxl : storage x !! "lastUpdateResponse" = Some lur).
  { subst x. cbn [storage store_set with_storage].
    rewrite lookup_insert_ne by discriminate. apply lookup_insert_eq. }
  assert (Hsome : LegacyUpdates.is_some_session
                    (Background.updateProcessingStatus tid
                       (if acts (LegacyUpdates.lue_gt0 e)
                        then ps_executing_actions else ps_completed)
                       (LegacyUpdates.lue_now e 5) x) = true).
  { unfold LegacyUpdates.is_some_session.
    change (activeSession (Background.updateProcessingStatus ?t ?st ?n x))
      with (activeSession x). now rewrite Hx. }
  rewrite Hsome. cbn [andb].
  destruct (legacy_done_tail (LegacyUpdates.lue_now e 5)
              (LegacyUpdates.lue_now e 6) tid
              (if acts (LegacyUpdates.lue_gt0 e)
               then ps_executing_actions else ps_completed) x s Hx)
    as (Ha & Hst & Hi & Hc & _ & Hps & Hcdu & Hlur).
  split; [reflexivity|]. split; [reflexivity|]. split; [reflexivity|].
  split; [exact Ha|]. split; [exact Hst|].
  split.
  { unfold Legacy.check_processing_status. rewrite Hst.
    now rewrite (proj1 (proj2 (session_store_fields (finished s)))). }
  split; [apply (legacy_joinable_status _ _ Ha); discriminate|].
  split; [exact Hi|].
  split.
  { intros m Hm. unfold Legacy.step. now rewrite Hm, Hi. }
  split; [now rewrite Hc|]. split; [exact Hps|]. split; [exact Hcdu|].
  unfold Page.getLatestUpdateResult. rewrite Hcdu, Hlur, Hxl.
  subst lur. simpl. rewrite String.eqb_refl. reflexivity.
Qed.

(** X22, witness: the server answers an update of the running task [t1]
    with a plan that has no actions and says the task is done. *)
Lemma legacy_done_update_witness :
  Legacy.check_processing_status
    (snd (LegacyUpdates.handleDOMUpdate (Some "t1") (Some example_dom) None
            (legacy_update_env (Updates.update_data (plan [] true)))
            legacy_running))
  = true.
Proof.
  pose proof (legacy_done_update_completes "t1" example_dom (plan [] true)
                None (legacy_update_env (Updates.update_data (plan [] true)))
                legacy_running session_t1) as H.
  destruct (LegacyUpdates.handleDOMUpdate _ _ _ _ _) as [[resp req] b'].
  destruct H as (_ & _ & _ & _ & _ & H & _);
    try reflexivity; try discriminate.
  exact H.
Defined.

(** X23. In the interval-based coordinator, an update that fails past the
    validation of the message (the server call throws, or the answer is
    [null]) marks the session, if any, with the status [error] in memory and
    in the store and publishes the processing status [error] last; it does
    not stop monitoring: the timer, the counter and the pause flag are as
    before.  The session can no longer be joined by a new start.  When the
    server call threw, the response carries its message, the pending update
    records it with the status [error], and the stored last response is the
    one of the previous update. *)
Theorem legacy_failed_update_keeps_timer
    (tid : string) (dom : JSON) (result : option JSON)
    (e : LegacyUpdates.UpdateEnv) (b : Bg) :
  tid <> "" ->
  truthy (Some dom) = true ->
  Updates.ur_success
    (fst (fst (LegacyUpdates.handleDOMUpdate (Some tid) (Some dom) result
                 e b))) = false ->
  let '(resp, req, b') :=
    LegacyUpdates.handleDOMUpdate (Some tid) (Some dom) result e b in
  activeSession b' = errored <$> activeSession b /\
  storage b' !! "activeSession" =
    match activeSession b with
    | Some s => Some (Session_json (errored s))
    | None => storage b !! "activeSession"
    end /\
  Legacy.joinable b' = None /\
  monitoringInterval b' = monitoringInterval b /\
  currentIterations b' = currentIterations b /\
  isPaused b' = isPaused b /\
  prop "processingStatus" (storage b' !! "taskState")
    = Some (JStr "error") /\
  last_broadcast b' = Some (processingStatusUpdate tid ps_error) /\
  forall msg,
    LegacyUpdates.lue_server e = Updates.update_throws msg ->
    resp = Updates.failure msg /\
    prop "status" (storage b' !! "currentDOMUpdate")
      = Some (JStr "error") /\
    prop "error" (storage b' !! "currentDOMUpdate") = Some (JStr msg) /\
    storage b' !! "lastUpdateResponse" = storage b !! "lastUpdateResponse".
Proof.
  intros Ht Hd.
  rewrite (legacy_update_cases tid dom result e b Ht Hd). cbv zeta.
  destruct (legacy_posted_frame tid e b) as (Hpa & Hpc & Hpi & Hpp & Hps).
  assert (Hjoin : forall b', activeSession b' = errored <$> activeSession b ->
                             Legacy.joinable b' = None).
  { intros b' Hb'. destruct (activeSession b) as [s|] eqn:Es.
    - apply (legacy_joinable_status _ _ Hb'). discriminate.
    - unfold Legacy.joinable. now rewrite Hb'. }
  destruct (LegacyUpdates.lue_server e) as [msg|data] eqn:Hsrv.
  - intros _.
    set (x := store_set "currentDOMUpdate" _ _).
    destruct (legacy_caught_spec tid msg (LegacyUpdates.lue_now e 5) x Ht)
      as (Ha & Hi & Hc & Hp & Hst & Hcdu & Hlur & Hpr & Hlast).
    change (activeSession x) with (activeSession (legacy_posted tid e b))
      in Ha, Hst.
    change (monitoringInterval x)
      with (monitoringInterval (legacy_posted tid e b)) in Hi.
    change (currentIterations x)
      with (currentIterations (legacy_posted tid e b)) in Hc.
    change (isPaused x) with (isPaused (legacy_posted tid e b)) in Hp.
    rewrite Hpa in Ha, Hst. rewrite Hpi in Hi. rewrite Hpc in Hc.
    rewrite Hpp in Hp.
    assert (Hxa : storage x !! "activeSession" = storage b !! "activeSession").
    { subst x. cbn [storage store_set with_storage].
      rewrite lookup_insert_ne by discriminate.
      rewrite updateProcessingStatus_lookup by discriminate. exact Hps. }
    rewrite Hxa in Hst.
    split; [exact Ha|]. split; [exact Hst|]. split; [now apply Hjoin|].
    split; [exact Hi|]. split; [exact Hc|]. split; [exact Hp|].
    split; [exact Hpr|]. split; [exact Hlast|].
    intros msg' [= <-]. split; [reflexivity|].
    rewrite Hcdu, Hlur. subst x. cbn [storage store_set with_storage].
    rewrite lookup_insert_eq. rewrite lookup_insert_ne by discriminate.
    split; [reflexivity|]. split; [reflexivity|].
    rewrite updateProcessingStatus_lookup by discriminate.
    unfold legacy_posted.
    rewrite updateProcessingStatus_lookup by discriminate.
    cbn [storage store_set with_storage].
    rewrite lookup_insert_ne by discriminate.
    now rewrite updateProcessingStatus_lookup by discriminate.
  - destruct (LegacyUpdates.has_actions _ data) as [acts|];
      [cbn [fst Updates.ur_success]; discriminate|].
    intros _.
    set (x := store_set "currentDOMUpdate" _ _).
    destruct (legacy_caught_spec tid (LegacyUpdates.lue_thrown e)
                (LegacyUpdates.lue_now e 5) x Ht)
      as (Ha & Hi & Hc & Hp & Hst & _ & _ & Hpr & Hlast).
    change (activeSession x) with (activeSession (legacy_posted tid e b))
      in Ha, Hst.
    change (monitoringInterval x)
      with (monitoringInterval (legacy_posted tid e b)) in Hi.
    change (currentIterations x)
      with (currentIterations (legacy_posted tid e b)) in Hc.
    change (isPaused x) with (isPaused (legacy_posted tid e b)) in Hp.
    rewrite Hpa in Ha, Hst. rewrite Hpi in Hi. rewrite Hpc in Hc.
    rewrite Hpp in Hp.
    assert (Hxa : storage x !! "activeSession" = storage b !! "activeSession").
    { subst x. cbn [storage store_set with_storage].
      rewrite !lookup_insert_ne by discriminate. exact Hps. }
    rewrite Hxa in Hst.
    split; [exact Ha|]. split; [exact Hst|]. split; [now apply Hjoin|].
    split; [exact Hi|]. split; [exact Hc|]. split; [exact Hp|].
    split; [exact Hpr|]. split; [exact Hlast|].
    intros msg' [=].
Qed.

(** X23, witness: the server call of an update of the running task [t1]
    throws; the timer stays set and the session is marked as failed. *)
Lemma legacy_failed_update_witness :
  let b' :=
    snd (LegacyUpdates.handleDOMUpdate (Some "t1") (Some example_dom) None
           (legacy_update_env (Updates.update_throws "Server error 500: {}"))
           legacy_running) in
  monitoringInterval b' = Some 1%nat /\
  activeSession b' = Some (errored session_t1).
Proof.
  pose proof (legacy_failed_update_keeps_timer "t1" example_dom None
                (legacy_update_env
                   (Updates.update_throws "Server error 500: {}"))
                legacy_running) as H.
  cbv zeta.
  destruct (LegacyUpdates.handleDOMUpdate _ _ _ _ _) as [[resp req] b'] eqn:E.
  assert (Hf : Updates.ur_success resp = false).
  { change resp with (fst (fst (resp, req, b'))). rewrite <- E.
    vm_compute. reflexivity. }
  destruct (H ltac:(discriminate) eq_refl Hf) as (Ha & _ & _ & Hi & _).
  cbn [snd]. split; [exact Hi|exact Ha].
Defined.
